(** * configbase: typed configuration descriptors and versioned JSON persistence

    A shallow embedding of [acconeer/exptool/structs/configbase.py]: the
    parameter descriptors ([ValueParameter] and its subclasses), their
    sanitizers, and the [Config] object protocol ([_loads], [_dumps],
    [_parameter_event_handler], [__setattr__]).

    Python values are immutable trees in the main development; the aliasing
    between a stored object and the object handed out by [__get__] is
    studied on an explicit object heap in [Module Aliasing]. *)

From Stdlib Require Import ZArith Lia Bool Ascii String List Permutation Sorted.
From Stdlib Require Import Floats.PrimFloat Floats.FloatOps Floats.SpecFloat.
From stdpp Require Import base option list gmap strings.

Set Warnings "-register-all,-inexact-float,-clear-no-such-hyp".
Open Scope string_scope.
Open Scope Z_scope.

(** ** Python values and JSON documents *)

Inductive value :=
| VNone
| VBool (b : bool)
| VInt (z : Z)
| VFloat (f : float)
| VStr (s : string)
| VEnum (cls name : string)          (* member [name] of the enum class [cls] *)
| VList (l : list value)
| VTuple (l : list value)
| VDict (d : list (string * value))  (* insertion-ordered, keys unique *)
| VArray (l : list float)            (* numpy array of float64 *)
| VSet (l : list value)              (* in iteration order *)
| VCallable (id : nat)               (* a function or bound method *)
| VObject (id : nat).                (* any other object, by identity *)

(** [json.dumps] and [json.loads] are modelled on JSON documents: the text
    that travels between them is represented by the document it denotes. *)
Inductive json :=
| JNull
| JBool (b : bool)
| JInt (z : Z)
| JFloat (f : float)
| JStr (s : string)
| JArr (l : list json)
| JObj (l : list (string * json)).

(** ** Exceptions and results *)

Inductive exn :=
| ValueError (msg : string)
| TypeError (msg : string)
| AttributeError (msg : string)
| KeyError (key : value)
| OverflowError (msg : string).

Inductive result (A : Type) :=
| Ok (a : A)
| Raise (e : exn).
Arguments Ok {A} a.
Arguments Raise {A} e.

#[global] Instance result_ret : MRet result := fun _ a => Ok a.
#[global] Instance result_bind : MBind result := fun _ _ f m =>
  match m with
  | Ok a => f a
  | Raise e => Raise e
  end.

Definition is_ValueError (e : exn) : bool :=
  match e with ValueError _ => true | _ => false end.

(** ** Dictionaries in insertion order *)

Section Dict.
Context {V : Type}.

Fixpoint dict_get (d : list (string * V)) (k : string) : option V :=
  match d with
  | [] => None
  | (k', v) :: r => if String.eqb k' k then Some v else dict_get r k
  end.

(* d[k] = v : overwrite in place, or append *)
Fixpoint dict_set (d : list (string * V)) (k : string) (v : V) : list (string * V) :=
  match d with
  | [] => [(k, v)]
  | (k', v') :: r =>
      if String.eqb k' k then (k', v) :: r else (k', v') :: dict_set r k v
  end.

Fixpoint dict_del (d : list (string * V)) (k : string) : list (string * V) :=
  match d with
  | [] => []
  | (k', v') :: r => if String.eqb k' k then r else (k', v') :: dict_del r k
  end.

(* d.pop(k, default) *)
Definition dict_pop (d : list (string * V)) (k : string) (default : V)
  : V * list (string * V) :=
  match dict_get d k with
  | Some v => (v, dict_del d k)
  | None => (default, d)
  end.

(* dict(pairs) *)
Definition dict_of (pairs : list (string * V)) : list (string * V) :=
  fold_left (fun d kv => dict_set d (fst kv) (snd kv)) pairs [].
End Dict.

(** ** Floats: exact values of binary64 numbers *)

(** A number as an extended dyadic: [XFin m e] is [m * 2^e]. *)
Inductive xreal :=
| XNaN
| XInf (neg : bool)
| XFin (m e : Z).

Definition float_val (f : float) : xreal :=
  match Prim2SF f with
  | S754_zero _ => XFin 0 0
  | S754_infinity s => XInf s
  | S754_nan => XNaN
  | S754_finite s m e => XFin (if s then Z.neg m else Z.pos m) e
  end.

(* the mantissas of two dyadics on their common (smaller) exponent *)
Definition align (m1 e1 m2 e2 : Z) : Z * Z :=
  let e := Z.min e1 e2 in
  (m1 * 2 ^ (e1 - e), m2 * 2 ^ (e2 - e)).

Definition xlt (a b : xreal) : bool :=
  match a, b with
  | XNaN, _ | _, XNaN => false
  | XInf sa, XInf sb => sa && negb sb
  | XInf sa, XFin _ _ => sa
  | XFin _ _, XInf sb => negb sb
  | XFin m1 e1, XFin m2 e2 => let (x, y) := align m1 e1 m2 e2 in x <? y
  end.

Definition xeq (a b : xreal) : bool :=
  match a, b with
  | XNaN, _ | _, XNaN => false
  | XInf sa, XInf sb => Bool.eqb sa sb
  | XFin m1 e1, XFin m2 e2 => let (x, y) := align m1 e1 m2 e2 in x =? y
  | _, _ => false
  end.

(* float.is_integer() *)
Definition is_integer (f : float) : bool :=
  match float_val f with
  | XFin m e => (0 <=? e) || (m mod 2 ^ (- e) =? 0)
  | _ => false
  end.

(* int(f) : truncation towards zero *)
Definition int_of_float (f : float) : result Z :=
  match float_val f with
  | XNaN => Raise (ValueError "cannot convert float NaN to integer")
  | XInf _ => Raise (OverflowError "cannot convert float infinity to integer")
  | XFin m e => Ok (if 0 <=? e then m * 2 ^ e else Z.quot m (2 ^ (- e)))
  end.

(* float(z) : the nearest binary64 number, ties to even *)
Definition float_of_int (z : Z) : result float :=
  match binary_normalize prec emax z 0 false with
  | S754_infinity _ => Raise (OverflowError "int too large to convert to float")
  | sf => Ok (SF2Prim sf)
  end.

(** Numbers, as they occur in [limits]. *)
Inductive num :=
| NInt (z : Z)
| NFloat (f : float).

Definition num_val (n : num) : xreal :=
  match n with
  | NInt z => XFin z 0
  | NFloat f => float_val f
  end.

(* a < b and a > b on numbers: exact, also between an int and a float *)
Definition num_lt (a b : num) : bool := xlt (num_val a) (num_val b).
Definition num_gt (a b : num) : bool := xlt (num_val b) (num_val a).

Definition value_of_num (n : num) : value :=
  match n with
  | NInt z => VInt z
  | NFloat f => VFloat f
  end.

(* the numeric values: bool, int and float *)
Definition as_num (v : value) : option num :=
  match v with
  | VBool b => Some (NInt (Z.b2z b))
  | VInt z => Some (NInt z)
  | VFloat f => Some (NFloat f)
  | _ => None
  end.

(** ** Built-in functions *)

(** The parsers behind [int(str)] and [float(str)] and the decimal rounding
    of [round(x, ndigits)] are taken as parameters: a parser answers [None]
    where Python raises ValueError, the rounding where it raises
    OverflowError. *)
Class Builtins := {
  int_of_str : string -> option Z;
  float_of_str : string -> option float;
  round_float : float -> Z -> option float;
}.

Section Builtin.
Context `{Builtins}.

(* type(v).__name__, as the messages of the built-ins show it *)
Definition type_name (v : value) : string :=
  match v with
  | VNone => "NoneType"
  | VBool _ => "bool"
  | VInt _ => "int"
  | VFloat _ => "float"
  | VStr _ => "str"
  | VEnum cls _ => cls
  | VList _ => "list"
  | VTuple _ => "tuple"
  | VDict _ => "dict"
  | VArray _ => "numpy.ndarray"
  | VSet _ => "set"
  | VCallable _ => "function"
  | VObject _ => "object"
  end.

(* int(v) *)
Definition py_int (v : value) : result Z :=
  match v with
  | VBool b => Ok (Z.b2z b)
  | VInt z => Ok z
  | VFloat f => int_of_float f
  | VStr s =>
      match int_of_str s with
      | Some z => Ok z
      | None => Raise (ValueError "invalid literal for int() with base 10")
      end
  | VArray [f] => int_of_float f
  | VArray _ => Raise (TypeError "only length-1 arrays can be converted to Python scalars")
  | _ =>
      Raise (TypeError
        ("int() argument must be a string, a bytes-like object or a real number, not '"
         +:+ type_name v +:+ "'"))
  end.

(* float(v) *)
Definition py_float (v : value) : result float :=
  match v with
  | VBool b => Ok (if b then 1%float else 0%float)
  | VInt z => float_of_int z
  | VFloat f => Ok f
  | VStr s =>
      match float_of_str s with
      | Some f => Ok f
      | None => Raise (ValueError "could not convert string to float")
      end
  | VArray [f] => Ok f
  | VArray _ => Raise (TypeError "only length-1 arrays can be converted to Python scalars")
  | _ =>
      Raise (TypeError
        ("float() argument must be a string or a real number, not '"
         +:+ type_name v +:+ "'"))
  end.

(* round(x, ndigits) *)
Definition py_round (x : float) (ndigits : Z) : result float :=
  match round_float x ndigits with
  | Some r => Ok r
  | None => Raise (OverflowError "rounded value too large to represent")
  end.

(* bool(v) *)
Definition py_bool (v : value) : result bool :=
  match v with
  | VNone => Ok false
  | VBool b => Ok b
  | VInt z => Ok (negb (z =? 0))
  | VFloat f => Ok (negb (xeq (float_val f) (XFin 0 0)))
  | VStr s => Ok (negb (String.eqb s ""))
  | VList l | VTuple l | VSet l => Ok (negb (Nat.eqb (length l) 0))
  | VDict d => Ok (negb (Nat.eqb (length d) 0))
  | VArray [] =>
      Raise (ValueError
        "The truth value of an empty array is ambiguous. Use `array.size > 0` to check that an array is not empty.")
  | VArray [f] => Ok (negb (xeq (float_val f) (XFin 0 0)))
  | VArray _ =>
      Raise (ValueError
        "The truth value of an array with more than one element is ambiguous. Use a.any() or a.all()")
  | VEnum _ _ | VCallable _ | VObject _ => Ok true
  end.

Fixpoint chars (s : string) : list value :=
  match s with
  | EmptyString => []
  | String c r => VStr (String c EmptyString) :: chars r
  end.

(* list(v) *)
Definition py_list (v : value) : result (list value) :=
  match v with
  | VList l | VTuple l | VSet l => Ok l
  | VArray l => Ok (map VFloat l)
  | VStr s => Ok (chars s)
  | VDict d => Ok (map (fun kv => VStr (fst kv)) d)
  | _ => Raise (TypeError "object is not iterable")
  end.

(* isinstance(v, int) *)
Definition is_int (v : value) : bool :=
  match v with
  | VBool _ | VInt _ => true
  | _ => false
  end.

(* isinstance(v, float) *)
Definition is_float (v : value) : bool :=
  match v with
  | VFloat _ => true
  | _ => false
  end.
End Builtin.

(** ** JSON encoding and decoding of values *)

(* json.dumps(v), up to the text *)
Fixpoint to_json (v : value) : result json :=
  match v with
  | VNone => Ok JNull
  | VBool b => Ok (JBool b)
  | VInt z => Ok (JInt z)
  | VFloat f => Ok (JFloat f)
  | VStr s => Ok (JStr s)
  | VList l | VTuple l =>
      js ← (fix items (l : list value) : result (list json) :=
              match l with
              | [] => Ok []
              | x :: r => j ← to_json x; js ← items r; Ok (j :: js)
              end) l;
      Ok (JArr js)
  | VDict d =>
      js ← (fix items (d : list (string * value)) : result (list (string * json)) :=
              match d with
              | [] => Ok []
              | (k, x) :: r => j ← to_json x; js ← items r; Ok ((k, j) :: js)
              end) d;
      Ok (JObj js)
  | _ => Raise (TypeError "Object is not JSON serializable")
  end.

(* json.loads(s), from the document *)
Fixpoint of_json (j : json) : value :=
  match j with
  | JNull => VNone
  | JBool b => VBool b
  | JInt z => VInt z
  | JFloat f => VFloat f
  | JStr s => VStr s
  | JArr l => VList (map of_json l)
  | JObj l => VDict (dict_of (map (fun '(k, x) => (k, of_json x)) l))
  end.

(** ** Equality of values ([==]) *)

Fixpoint py_eq (a b : value) : bool :=
  match as_num a, as_num b with
  | Some x, Some y => xeq (num_val x) (num_val y)
  | _, _ =>
      match a, b with
      | VNone, VNone => true
      | VStr s, VStr t => String.eqb s t
      | VEnum c n, VEnum c' n' => String.eqb c c' && String.eqb n n'
      | VList l, VList l' | VTuple l, VTuple l' =>
          (fix go (l l' : list value) : bool :=
             match l, l' with
             | [], [] => true
             | x :: r, y :: r' => py_eq x y && go r r'
             | _, _ => false
             end) l l'
      | VDict d, VDict d' =>
          Nat.eqb (length d) (length d') &&
          (fix go (d : list (string * value)) : bool :=
             match d with
             | [] => true
             | (k, x) :: r =>
                 match dict_get d' k with
                 | Some y => py_eq x y
                 | None => false
                 end && go r
             end) d
      | VArray l, VArray l' =>
          Nat.eqb (length l) (length l') &&
          forallb (fun xy => xeq (float_val (fst xy)) (float_val (snd xy))) (combine l l')
      | VSet l, VSet l' =>
          (fix sub (l : list value) : bool :=
             match l with
             | [] => true
             | x :: r => existsb (fun y => py_eq x y) l' && sub r
             end) l &&
          forallb (fun y =>
            (fix mem (l : list value) : bool :=
               match l with
               | [] => false
               | x :: r => py_eq x y || mem r
               end) l) l'
      | VCallable i, VCallable j | VObject i, VObject j => Nat.eqb i j
      | _, _ => false
      end
  end.

Definition py_ne (a b : value) : bool := negb (py_eq a b).

Definition is_None (v : value) : bool :=
  match v with VNone => true | _ => false end.

(** ** Stable sorting ([sorted], and the order of [dir]) *)

Section Sorting.
Context {A : Type} (leb : A -> A -> bool).

Fixpoint insert_sorted (x : A) (l : list A) : list A :=
  match l with
  | [] => [x]
  | y :: r => if leb x y then x :: l else y :: insert_sorted x r
  end.

Definition sorted (l : list A) : list A := fold_right insert_sorted [] l.
End Sorting.

(** ** Parameters *)

Inductive kind :=
| ConstantParameter
| ValueParameter
| BoolParameter
| EnumParameter
| IntParameter
| FloatParameter
| FloatRangeParameter
| SensorParameter
| ClassParameter.

Record enum_class := {
  enum_name : string;
  members : list string;
}.

(** The attributes of a descriptor object; a field that a subclass does
    not have is ignored by its methods. *)
Record parameter := {
  param_kind : kind;
  label : string;
  is_live_updateable : bool;
  does_dump : bool;
  order : Z;
  value_ : value;                              (* ConstantParameter.value *)
  default_value : value;
  is_optional : bool;
  enum : enum_class;
  limits : option (option num * option num);
  decimals : Z;
}.

Definition with_default (p : parameter) (d : value) : parameter :=
  {| param_kind := param_kind p; label := label p;
     is_live_updateable := is_live_updateable p; does_dump := does_dump p;
     order := order p; value_ := value_ p; default_value := d;
     is_optional := is_optional p; enum := enum p; limits := limits p;
     decimals := decimals p |}.

(* isinstance(p, ValueParameter) *)
Definition is_ValueParameter (p : parameter) : bool :=
  match param_kind p with
  | ConstantParameter | ClassParameter => false
  | _ => true
  end.

(* try: r  except ValueError: raise ValueError(msg) *)
Definition except_ValueError {A} (r : result A) (msg : string) : result A :=
  match r with
  | Raise (ValueError _) => Raise (ValueError msg)
  | _ => r
  end.

(* try: r  except (ValueError, TypeError): raise ValueError(msg) *)
Definition except_ValueError_TypeError {A} (r : result A) (msg : string) : result A :=
  match r with
  | Raise (ValueError _) | Raise (TypeError _) => Raise (ValueError msg)
  | _ => r
  end.

Definition below (x : num) (lower : option num) : bool :=
  match lower with
  | Some lo => num_lt x lo
  | None => false
  end.

Definition above (x : num) (upper : option num) : bool :=
  match upper with
  | Some up => num_gt x up
  | None => false
  end.

(* the limit checks shared by IntParameter and FloatParameter *)
Definition check_limits (p : parameter) (x : num) : result unit :=
  match limits p with
  | None => Ok tt
  | Some (lower, upper) =>
      if below x lower then Raise (ValueError "Given value is too low")
      else if above x upper then Raise (ValueError "Given value is too high")
      else Ok tt
  end.

Section Sanitize.
Context `{Builtins}.

Definition IntParameter_sanitize (p : parameter) (v : value) : result value :=
  if match v with VFloat f => negb (is_integer f) | _ => false end
  then Raise (ValueError "Not an integer")
  else
    z ← except_ValueError (py_int v) "Not a valid integer";
    _ ← check_limits p (NInt z);
    Ok (VInt z).

Definition FloatParameter_sanitize (p : parameter) (v : value) : result float :=
  f ← except_ValueError (py_float v) "Not a valid number";
  f ← py_round f (decimals p);
  _ ← check_limits p (NFloat f);
  Ok f.

Definition FloatRangeParameter_sanitize (p : parameter) (arg : value) : result value :=
  values ← except_ValueError_TypeError (py_list arg) "Not a valid range";
  match values with
  | [v0; v1] =>
      f0 ← FloatParameter_sanitize p v0;
      f1 ← FloatParameter_sanitize p v1;
      if num_gt (NFloat f0) (NFloat f1) then Raise (ValueError "Invalid range")
      else Ok (VArray [f0; f1])
  | _ => Raise (ValueError "Given range does not have two values")
  end.

Definition SensorParameter_sanitize (arg : value) : result value :=
  if is_int arg then Ok (VList [arg])
  else
    match arg with
    | VList l =>
        if forallb is_int l then Ok (VList l)
        else Raise (ValueError "sensor(s) must be an int or a list of ints")
    | _ => Raise (ValueError "sensor(s) must be an int or a list of ints")
    end.

(* the [_sanitize] method of a value parameter, by its class *)
Definition _sanitize (p : parameter) (v : value) : result value :=
  match param_kind p with
  | BoolParameter => b ← py_bool v; Ok (VBool b)
  | IntParameter => IntParameter_sanitize p v
  | FloatParameter => f ← FloatParameter_sanitize p v; Ok (VFloat f)
  | FloatRangeParameter => FloatRangeParameter_sanitize p v
  | SensorParameter => SensorParameter_sanitize v
  | _ => Ok v
  end.

Definition sanitize (p : parameter) (v : value) : result value :=
  if negb (is_optional p && is_None v) then _sanitize p v else Ok v.

(* what ValueParameter.__init__ leaves in the descriptor: the default
   value is sanitized once, at declaration *)
Definition ValueParameter_init (p : parameter) : result parameter :=
  d ← sanitize p (default_value p);
  Ok (with_default p d).
End Sanitize.

(** ** Config classes and Config objects *)

(** A class attribute is a descriptor object, named by its index among
    the descriptors of the class (two names may share one descriptor), or
    any other value: a constant such as [VERSION], a method. *)
Inductive class_attr :=
| Descr (i : nat)
| Plain (v : value).

Record config_class := {
  class_name : string;
  descriptors : list parameter;
  namespace : gmap string class_attr;
}.

Inductive member :=
| MParam (i : nat) (p : parameter)
| MPlain (v : value).

(* getattr(type(self), name, None) *)
Definition type_getattr (cls : config_class) (name : string) : option member :=
  match namespace cls !! name with
  | Some (Descr i) => MParam i <$> descriptors cls !! i
  | Some (Plain v) => Some (MPlain v)
  | None => None
  end.

(** Calls to the outside.  An event handler is called with the object
    and can read it: the event records the values it finds there. *)
Inductive event :=
| Notified (handler : nat) (seen : gmap nat value)   (* event_handler(self) *)
| PidgetUpdated (i : nat).                           (* pidget.update(alerts) *)

(** What one Config object owns: its entries in the per-descriptor weak
    dictionaries ([values], [instances], [pidgets]), its instance
    dictionary, and the calls it has made to the outside. *)
Record config := {
  values : gmap nat value;
  instances : gset nat;
  pidgets : gset nat;
  attrs : gmap string value;
  trace : list event;
}.

Definition set_values (f : gmap nat value -> gmap nat value) (st : config) : config :=
  {| values := f (values st); instances := instances st; pidgets := pidgets st;
     attrs := attrs st; trace := trace st |}.

Definition set_instances (f : gset nat -> gset nat) (st : config) : config :=
  {| values := values st; instances := f (instances st); pidgets := pidgets st;
     attrs := attrs st; trace := trace st |}.

Definition set_attrs (f : gmap string value -> gmap string value) (st : config) : config :=
  {| values := values st; instances := instances st; pidgets := pidgets st;
     attrs := f (attrs st); trace := trace st |}.

Definition emit (e : event) (st : config) : config :=
  {| values := values st; instances := instances st; pidgets := pidgets st;
     attrs := attrs st; trace := trace st ++ [e] |}.

(** Methods run in a state-and-exception monad; an exception leaves the
    state as it was when it was raised. *)
Definition M (A : Type) : Type := config -> result A * config.

#[global] Instance M_ret : MRet M := fun _ a st => (Ok a, st).
#[global] Instance M_bind : MBind M := fun _ _ f m st =>
  match m st with
  | (Ok a, st') => f a st'
  | (Raise e, st') => (Raise e, st')
  end.

Definition raise {A} (e : exn) : M A := fun st => (Raise e, st).
Definition lift {A} (r : result A) : M A := fun st => (r, st).
Definition get_state : M config := fun st => (Ok st, st).
Definition modify (f : config -> config) : M unit := fun st => (Ok tt, f st).

Fixpoint for_each {A} (l : list A) (body : A -> M unit) : M unit :=
  match l with
  | [] => mret tt
  | x :: r => _ ← body x; for_each r body
  end.

(* copy(v): on immutable trees a shallow copy is the value itself *)
Definition copy (v : value) : value := v.

(* self.enum[v] *)
Definition enum_getitem (e : enum_class) (v : value) : result value :=
  match v with
  | VStr n =>
      if existsb (String.eqb n) (members e) then Ok (VEnum (enum_name e) n)
      else Raise (KeyError v)
  | VList _ | VDict _ | VSet _ | VArray _ => Raise (TypeError "unhashable type")
  | _ => Raise (KeyError v)
  end.

Section Descriptors.
Context `{Builtins}.

(** *** The descriptor protocol, for the descriptor at index [i] *)

Definition ValueParameter_get (i : nat) (p : parameter) : M value :=
  st ← get_state;
  mret (copy (default (default_value p) (values st !! i))).

Definition __get__ (i : nat) (p : parameter) : M value :=
  match param_kind p with
  | ConstantParameter => mret (value_ p)
  | ClassParameter =>
      _ ← modify (set_instances (fun s => {[i]} ∪ s));
      mret (VObject i)
  | _ => ValueParameter_get i p
  end.

Definition ValueParameter_set (i : nat) (p : parameter) (v : value) : M unit :=
  v ← lift (sanitize p v);
  modify (set_values (fun m => <[i := v]> m)).

Definition __set__ (i : nat) (p : parameter) (v : value) : M unit :=
  match param_kind p with
  | ConstantParameter | ClassParameter => raise (AttributeError "Unsettable parameter")
  | _ => ValueParameter_set i p v
  end.

Definition dump (i : nat) (p : parameter) : M value :=
  match param_kind p with
  | ConstantParameter | ClassParameter =>
      raise (TypeError "dump() takes 1 positional argument but 2 were given")
  | EnumParameter =>
      v ← __get__ i p;
      match v with
      | VEnum _ name => mret (VStr name)
      | _ => raise (AttributeError "object has no attribute 'name'")
      end
  | FloatRangeParameter =>
      v ← __get__ i p;
      l ← lift (py_list v);
      mret (VList l)
  | _ => __get__ i p
  end.

Definition load (i : nat) (p : parameter) (v : value) : M unit :=
  match param_kind p with
  | ConstantParameter | ClassParameter =>
      raise (TypeError "load() takes 1 positional argument but 3 were given")
  | EnumParameter =>
      v ← lift (enum_getitem (enum p) v);
      __set__ i p v
  | _ => __set__ i p v
  end.

Definition update_pidget (i : nat) : M unit :=
  st ← get_state;
  if bool_decide (i ∈ pidgets st) then modify (emit (PidgetUpdated i)) else mret tt.

(** *** Config *)

Variable cls : config_class.

(* getattr(self, name): data descriptors first, then the instance
   dictionary, then the other class attributes *)
Definition getattr (name : string) : M value :=
  match type_getattr cls name with
  | Some (MParam i p) => __get__ i p
  | other =>
      st ← get_state;
      match attrs st !! name, other with
      | Some v, _ => mret v
      | None, Some (MPlain v) => mret v
      | None, _ =>
          raise (AttributeError
            ("'" +:+ class_name cls +:+ "' object has no attribute '" +:+ name +:+ "'"))
      end
  end.

Definition hasattr (name : string) : M bool := fun st =>
  match getattr name st with
  | (Ok _, st') => (Ok true, st')
  | (Raise (AttributeError _), st') => (Ok false, st')
  | (Raise e, st') => (Raise e, st')
  end.

(* object.__setattr__(self, name, v) *)
Definition object_setattr (name : string) (v : value) : M unit :=
  match type_getattr cls name with
  | Some (MParam i p) => __set__ i p v
  | _ => modify (set_attrs (fun d => <[name := v]> d))
  end.

Definition __setattr__ (name : string) (v : value) : M unit :=
  b ← hasattr name;
  if b : bool then object_setattr name v
  else raise (AttributeError
         ("'" +:+ class_name cls +:+ "' object has no attribute '" +:+ name +:+ "'")).

Definition dir (st : config) : list string :=
  sorted String.leb (elements (dom (namespace cls) ∪ dom (attrs st))).

(* the list built by _get_keys_and_params *)
Definition keys_and_params (st : config) : list (string * (nat * parameter)) :=
  let keys := dir st in
  let z := omap (fun k => match type_getattr cls k with
                          | Some (MParam i p) => Some (k, (i, p))
                          | _ => None
                          end) keys in
  sorted (fun a b => order (snd (snd a)) <=? order (snd (snd b))) z.

Definition _get_keys_and_params : M (list (string * (nat * parameter))) :=
  st ← get_state;
  mret (keys_and_params st).

Definition _update_pidgets : M unit :=
  params ← _get_keys_and_params;
  for_each params (fun kp => update_pidget (fst (snd kp))).

(* event_handler(self) *)
Definition call (h : value) : M unit :=
  match h with
  | VCallable id =>
      st ← get_state;
      modify (emit (Notified id (values st)))
  | _ => raise (TypeError "object is not callable")
  end.

Definition _parameter_event_handler : M unit :=
  hs ← getattr "_event_handlers";
  l ← lift (py_list hs);
  for_each l call.

Definition pidget_event_handler (i : nat) (p : parameter) (v : value) : M unit :=
  if is_ValueParameter p then
    _ ← __set__ i p v;
    _parameter_event_handler
  else mret tt.

Definition _loads (s : json) : M unit :=
  match of_json s with
  | VDict d =>
      let (version, d) := dict_pop d "VERSION" VNone in
      self_version ← getattr "VERSION";
      if py_ne version self_version
      then raise (ValueError "Configuration version mismatch")
      else
        params ← _get_keys_and_params;
        let params := dict_of params in
        _ ← for_each d (fun kv =>
              match dict_get params (fst kv) with
              | Some (i, p) => load i p (snd kv)
              | None => raise (KeyError (VStr (fst kv)))
              end);
        _update_pidgets
  | VList _ => raise (TypeError "pop expected at most 1 argument, got 2")
  | _ => raise (AttributeError "object has no attribute 'pop'")
  end.

Fixpoint dump_all (params : list (string * (nat * parameter)))
                  (d : list (string * value)) : M (list (string * value)) :=
  match params with
  | [] => mret d
  | (k, (i, p)) :: r =>
      if does_dump p then
        v ← dump i p;
        dump_all r (dict_set d k v)
      else dump_all r d
  end.

Definition _dumps : M json :=
  params ← _get_keys_and_params;
  d ← dump_all params [];
  version ← getattr "VERSION";
  let d := if negb (is_None version) then dict_set d "VERSION" version else d in
  lift (to_json (VDict d)).

(* Config.__init__ *)
Definition Config_init : M unit :=
  _ ← __setattr__ "_event_handlers" (VSet []);
  __setattr__ "_Config__state" (VEnum "State" "UNLOADED").
End Descriptors.

Definition empty_config : config :=
  {| values := ∅; instances := ∅; pidgets := ∅; attrs := ∅; trace := [] |}.

(** ** A reference implementation of the built-ins *)

Module Reference.
(* the integer nearest to n / d (for d > 0), ties to even *)
Definition div_half_even (n d : Z) : Z :=
  let q := n / d in
  let r := n mod d in
  match 2 * r ?= d with
  | Lt => q
  | Gt => q + 1
  | Eq => if Z.even q then q else q + 1
  end.

Definition sf_of_Z (neg : bool) (z : Z) : spec_float :=
  match z with
  | Z0 => S754_zero neg
  | Zpos m => S754_finite false m 0
  | Zneg m => S754_finite true m 0
  end.

(* the sign bit of a float *)
Definition negative (x : float) : bool :=
  match Prim2SF x with
  | S754_zero s | S754_infinity s | S754_finite s _ _ => s
  | S754_nan => false
  end.

(* round(x, ndigits): x is rounded to the nearest multiple k * 10^-ndigits
   of its exact value, and k * 10^-ndigits to the nearest binary64; a
   zero has the sign of x *)
Definition round (x : float) (ndigits : Z) : option float :=
  match float_val x with
  | XFin m e =>
      let n := m * 2 ^ Z.max e 0 * 10 ^ Z.max ndigits 0 in
      let d := 2 ^ Z.max (- e) 0 * 10 ^ Z.max (- ndigits) 0 in
      let k := div_half_even n d in
      let r := if 0 <=? ndigits
               then SFdiv prec emax (sf_of_Z (negative x) k) (sf_of_Z false (10 ^ ndigits))
               else binary_normalize prec emax (k * 10 ^ (- ndigits)) 0 (negative x) in
      match r with
      | S754_infinity _ => None
      | _ => Some (SF2Prim r)
      end
  | _ => Some x
  end.

(* the white space that int() and float() strip *)
Definition is_space (c : ascii) : bool :=
  let n := Z.of_nat (nat_of_ascii c) in
  ((9 <=? n) && (n <=? 13)) || ((28 <=? n) && (n <=? 32)).

Fixpoint lstrip (s : string) : string :=
  match s with
  | String c r => if is_space c then lstrip r else s
  | EmptyString => s
  end.

Definition reversed (s : string) : string :=
  string_of_list_ascii (rev (list_ascii_of_string s)).

Definition strip (s : string) : string :=
  reversed (lstrip (reversed (lstrip s))).

Definition lower (c : ascii) : ascii :=
  let n := nat_of_ascii c in
  if (65 <=? n)%nat && (n <=? 90)%nat then ascii_of_nat (n + 32) else c.

Fixpoint lowercase (s : string) : string :=
  match s with
  | String c r => String (lower c) (lowercase r)
  | EmptyString => EmptyString
  end.

Definition digit (c : ascii) : option Z :=
  let n := Z.of_nat (nat_of_ascii c) in
  if (48 <=? n) && (n <=? 57) then Some (n - 48) else None.

(* digits, with single underscores between them: the number after [acc],
   and how many digits there were *)
Fixpoint digits (s : string) (acc : Z) (count : nat) (after_digit : bool)
  : option (Z * nat) :=
  match s with
  | EmptyString => if after_digit then Some (acc, count) else None
  | String "_"%char r => if after_digit then digits r acc count false else None
  | String c r =>
      match digit c with
      | Some d => digits r (10 * acc + d) (S count) true
      | None => None
      end
  end.

Definition unsigned (s : string) : option Z := fst <$> digits s 0 0 false.

(* a sign, if there is one, and the rest *)
Definition signed (s : string) : bool * string :=
  match s with
  | String "-"%char r => (true, r)
  | String "+"%char r => (false, r)
  | _ => (false, s)
  end.

(* int(s): decimal literals with an optional sign, white space around
   them, single underscores between digits *)
Definition parse_int (s : string) : option Z :=
  let (neg, body) := signed (strip s) in
  k ← unsigned body;
  Some (if neg then - k else k).

(* the part before the first of the characters, and the part after it,
   when there is one *)
Fixpoint split_at (is_sep : ascii -> bool) (s : string) : string * option string :=
  match s with
  | EmptyString => (EmptyString, None)
  | String c r =>
      if is_sep c then (EmptyString, Some r)
      else let (a, b) := split_at is_sep r in (String c a, b)
  end.

(* digits or nothing: the number after [acc], and how many digits *)
Definition digits_or_none (s : string) (acc : Z) : option (Z * nat) :=
  match s with
  | EmptyString => Some (acc, O)
  | _ => digits s acc 0 false
  end.

(* float(s): a sign, then inf, infinity, nan, or a decimal literal with
   an optional fraction and an optional exponent; white space around it,
   single underscores between digits.  The value is the nearest binary64
   number. *)
Definition parse_float (s : string) : option float :=
  let (neg, body) := signed (strip s) in
  let word := lowercase body in
  if String.eqb word "inf" || String.eqb word "infinity"
  then Some (SF2Prim (S754_infinity neg))
  else if String.eqb word "nan" then Some (SF2Prim S754_nan)
  else
    let (mantissa, exponent) :=
      split_at (fun c => Ascii.eqb c "e" || Ascii.eqb c "E") body in
    let (a, b) := split_at (Ascii.eqb ".") mantissa in
    let b := default EmptyString b in
    if String.eqb a "" && String.eqb b "" then None
    else
      '(ka, _) ← digits_or_none a 0;
      '(k, places) ← digits_or_none b ka;
      x ← match exponent with
          | None => Some 0
          | Some e => let (eneg, ebody) := signed e in
                      n ← unsigned ebody; Some (if eneg then - n else n)
          end;
      let scale := x - Z.of_nat places in
      Some (SF2Prim
              (if 0 <=? scale
               then binary_normalize prec emax
                      ((if neg then - k else k) * 10 ^ scale) 0 neg
               else SFdiv prec emax (sf_of_Z neg (if neg then - k else k))
                      (sf_of_Z false (10 ^ (- scale))))).

#[export] Instance builtins : Builtins :=
  {| int_of_str := parse_int; float_of_str := parse_float; round_float := round |}.
End Reference.


(** ** Vocabulary of the statements *)

(* the method raises a ValueError and leaves the object as it was *)
Definition raises_ValueError {A} (m : M A) (st : config) : Prop :=
  exists msg, m st = (Raise (ValueError msg), st).

(* the method returns, and its only effect is values[i] = v *)
Definition stores (i : nat) (v : value) (m : M unit) (st : config) : Prop :=
  m st = (Ok tt, set_values (fun d => <[i := v]> d) st).

(* a float with a fractional part (also nan and the infinities) *)
Definition fractional (v : value) : bool :=
  match v with
  | VFloat f => negb (is_integer f)
  | _ => false
  end.

(* strictly below the lower limit or strictly above the upper one *)
Definition outside (x : num) (lower upper : option num) : bool :=
  below x lower || above x upper.


(* the error of Config._loads on a version mismatch *)
Definition version_mismatch : exn := ValueError "Configuration version mismatch".

(* the messages of the ValueErrors that the sanitizers raise: those of
   configbase.py, and the two of numpy for the truth value of an array *)
Definition validation_messages : list string :=
  ["Not an integer"; "Not a valid integer"; "Given value is too low";
   "Given value is too high"; "Not a valid number"; "Not a valid range";
   "Given range does not have two values"; "Invalid range";
   "sensor(s) must be an int or a list of ints";
   "The truth value of an array with more than one element is ambiguous. Use a.any() or a.all()";
   "The truth value of an empty array is ambiguous. Use `array.size > 0` to check that an array is not empty."].

(* the messages of the ValueErrors that configbase.py raises in a
   sanitizer *)
Definition sanitizer_messages : list string :=
  ["Not an integer"; "Not a valid integer"; "Given value is too low";
   "Given value is too high"; "Not a valid number"; "Not a valid range";
   "Given range does not have two values"; "Invalid range";
   "sensor(s) must be an int or a list of ints"].

(* the exceptions that come out of a sanitizer *)
Definition validation_error (e : exn) : bool :=
  match e with
  | ValueError msg => existsb (String.eqb msg) validation_messages
  | TypeError _ | OverflowError _ => true
  | _ => false
  end.

(* the exceptions that come out of Parameter.load *)
Definition load_error (e : exn) : bool :=
  match e with
  | KeyError _ => true
  | _ => validation_error e
  end.


(** Two numbers that no comparison tells apart. *)
Definition xsame (a b : xreal) : Prop :=
  forall c, xlt a c = xlt b c /\ xlt c a = xlt c b.

(* the components of an object that reading an attribute leaves alone *)
Definition same_data (st st' : config) : Prop :=
  values st' = values st /\ attrs st' = attrs st /\
  pidgets st' = pidgets st /\ trace st' = trace st.

(* the object has the attribute: in its class or in its dictionary *)
Definition has_attribute (cls : config_class) (st : config) (name : string) : Prop :=
  is_Some (type_getattr cls name) \/ is_Some (attrs st !! name).

(* the text of the AttributeError of Config.__setattr__ *)
Definition no_attribute (cls : config_class) (name : string) : string :=
  "'" +:+ class_name cls +:+ "' object has no attribute '" +:+ name +:+ "'".

(* the object after values[i] = v and a call to each of the handlers *)
Definition notified (i : nat) (v : value) (ids : list nat) (st : config) : config :=
  {| values := <[i := v]> (values st); instances := instances st;
     pidgets := pidgets st; attrs := attrs st;
     trace := trace st ++ map (fun h => Notified h (<[i := v]> (values st))) ids |}.

(* the object after trying each of the assignments in turn, whether it
   succeeds or raises *)
Definition assignments `{Builtins} (cls : config_class)
    (l : list (string * value)) (st : config) : config :=
  fold_left (fun st kv => snd (__setattr__ cls (fst kv) (snd kv) st)) l st.


(* the value that __get__ hands out for the descriptor at index i *)
Definition current (i : nat) (p : parameter) (st : config) : value :=
  default (default_value p) (values st !! i).

(* what dump makes of the value v of a parameter *)
Definition dumped `{Builtins} (p : parameter) (v : value) : result value :=
  match param_kind p with
  | ConstantParameter | ClassParameter =>
      Raise (TypeError "dump() takes 1 positional argument but 2 were given")
  | EnumParameter =>
      match v with
      | VEnum _ name => Ok (VStr name)
      | _ => Raise (AttributeError "object has no attribute 'name'")
      end
  | FloatRangeParameter => l ← py_list v; Ok (VList l)
  | _ => Ok v
  end.

(* the dictionary that the comprehension of _dumps builds *)
Fixpoint dumped_all `{Builtins} (params : list (string * (nat * parameter)))
    (d : list (string * value)) (st : config) : result (list (string * value)) :=
  match params with
  | [] => Ok d
  | (k, (i, p)) :: r =>
      if does_dump p then
        v ← dumped p (current i p st);
        dumped_all r (dict_set d k v) st
      else dumped_all r d st
  end.

(* the fields of an object, and the items of an array, in JSON *)
Fixpoint to_json_fields (d : list (string * value)) : result (list (string * json)) :=
  match d with
  | [] => Ok []
  | (k, x) :: r => j ← to_json x; js ← to_json_fields r; Ok ((k, j) :: js)
  end.

Fixpoint to_json_items (l : list value) : result (list json) :=
  match l with
  | [] => Ok []
  | x :: r => j ← to_json x; js ← to_json_items r; Ok (j :: js)
  end.

(* k is the name of a parameter of the class that dumps *)
Definition dumping (cls : config_class) (k : string) : Prop :=
  exists i p, type_getattr cls k = Some (MParam i p) /\ does_dump p = true.


(* what load stores for the decoded JSON value x *)
Definition loaded `{Builtins} (p : parameter) (x : value) : result value :=
  match param_kind p with
  | ConstantParameter | ClassParameter =>
      Raise (TypeError "load() takes 1 positional argument but 3 were given")
  | EnumParameter => m ← enum_getitem (enum p) x; sanitize p m
  | _ => sanitize p x
  end.

(* the values that JSON represents as they are *)
Fixpoint json_native (v : value) : bool :=
  match v with
  | VNone | VBool _ | VInt _ | VFloat _ | VStr _ => true
  | VList l => forallb json_native l
  | _ => false
  end.

(* the setter of the parameter stores the value as it is *)
Definition kept `{Builtins} (p : parameter) (v : value) : Prop :=
  sanitize p v = Ok v.

(* round(f, decimals) gives f back *)
Definition round_stable `{Builtins} (p : parameter) (f : float) : Prop :=
  round_float f (decimals p) = Some f.

(* json.loads(json.dumps(v)) is v *)
Definition json_faithful (v : value) : Prop :=
  forall j, to_json v = Ok j -> of_json j = v.

(* v compares equal to json.loads(json.dumps(v)) *)
Definition version_faithful (v : value) : Prop :=
  forall j, to_json v = Ok j -> py_ne (of_json j) v = false.

(* what the setter of the parameter does not ensure about a value, and a
   dump followed by a load relies on: an enum member is one of the enum
   of the parameter, the value of a plain ValueParameter is one that
   JSON hands back as it is *)
Definition restorable (p : parameter) (v : value) : Prop :=
  match param_kind p with
  | ValueParameter => json_faithful v
  | EnumParameter =>
      forall c name, v = VEnum c name ->
        c = enum_name (enum p) /\
        existsb (String.eqb name) (members (enum p)) = true
  | _ => True
  end.


(* the decoded fields of a JSON object *)
Definition decode_fields (js : list (string * json)) : list (string * value) :=
  map (fun '(k, x) => (k, of_json x)) js.

(* the value that the descriptor at index i hands out for the object *)
Definition current_at (cls : config_class) (st : config) (i : nat) : value :=
  match descriptors cls !! i with
  | Some p => current i p st
  | None => VNone
  end.


(** ** An example class *)

Module Demo.
Import Reference.

Definition Mode : enum_class := {| enum_name := "Mode"; members := ["A"; "B"] |}.

(* the keyword defaults of Parameter.__init__ and its subclasses *)
Definition declare (k : kind) (ord : Z) (d : value) : parameter :=
  {| param_kind := k; label := ""; is_live_updateable := false;
     does_dump := is_ValueParameter
                    {| param_kind := k; label := ""; is_live_updateable := false;
                       does_dump := false; order := ord; value_ := VNone;
                       default_value := d; is_optional := false; enum := Mode;
                       limits := None; decimals := 2 |};
     order := ord; value_ := VNone; default_value := d; is_optional := false;
     enum := Mode; limits := None; decimals := 2 |}.

Definition with_limits (lower upper : option num) (p : parameter) : parameter :=
  {| param_kind := param_kind p; label := label p;
     is_live_updateable := is_live_updateable p; does_dump := does_dump p;
     order := order p; value_ := value_ p; default_value := default_value p;
     is_optional := is_optional p; enum := enum p;
     limits := Some (lower, upper); decimals := decimals p |}.

Definition optional (p : parameter) : parameter :=
  {| param_kind := param_kind p; label := label p;
     is_live_updateable := is_live_updateable p; does_dump := does_dump p;
     order := order p; value_ := value_ p; default_value := default_value p;
     is_optional := true; enum := enum p; limits := limits p;
     decimals := decimals p |}.

Definition no_dump (p : parameter) : parameter :=
  {| param_kind := param_kind p; label := label p;
     is_live_updateable := is_live_updateable p; does_dump := false;
     order := order p; value_ := value_ p; default_value := default_value p;
     is_optional := is_optional p; enum := enum p; limits := limits p;
     decimals := decimals p |}.

Definition constant (v : value) (p : parameter) : parameter :=
  {| param_kind := param_kind p; label := label p;
     is_live_updateable := is_live_updateable p; does_dump := does_dump p;
     order := order p; value_ := v; default_value := default_value p;
     is_optional := is_optional p; enum := enum p; limits := limits p;
     decimals := decimals p |}.

(* the descriptors as declared, before ValueParameter.__init__ has
   sanitized their default values *)
Definition sensor_kw := declare SensorParameter 0 (VInt 1).
Definition range_interval_kw :=
  with_limits (Some (NFloat (-0.7))) (Some (NFloat 7.0))
    (declare FloatRangeParameter 10 (VList [VFloat 0.18; VFloat 0.78])).
Definition bin_count_kw :=
  with_limits (Some (NInt 1)) None (declare IntParameter 20 (VInt 5)).
Definition gain_kw :=
  with_limits (Some (NInt 0)) (Some (NInt 1)) (declare FloatParameter 30 (VFloat 0.5)).
Definition mode_kw := declare EnumParameter 40 (VEnum "Mode" "A").
Definition enabled_kw := declare BoolParameter 50 (VInt 1).
Definition downsampling_kw :=
  with_limits (Some (NInt 1)) (Some (NInt 8)) (optional (declare IntParameter 60 VNone)).
Definition window_kw :=
  no_dump (optional (declare FloatRangeParameter 70 VNone)).
Definition service_kw := constant (VStr "power_bins") (declare ConstantParameter (-1) VNone).
Definition background_kw := declare ClassParameter (-1) VNone.

Definition init (p : parameter) : parameter :=
  match ValueParameter_init p with
  | Ok p' => p'
  | Raise _ => p
  end.

Definition sensor := init sensor_kw.
Definition range_interval := init range_interval_kw.
Definition bin_count := init bin_count_kw.
Definition gain := init gain_kw.
Definition mode := init mode_kw.
Definition enabled := init enabled_kw.
Definition downsampling := init downsampling_kw.
Definition window := init window_kw.

Definition cls : config_class :=
  {| class_name := "DemoConfig";
     descriptors := [sensor; range_interval; bin_count; gain; mode; enabled;
                     downsampling; window; service_kw; background_kw];
     namespace :=
       list_to_map
         [("sensor", Descr 0%nat); ("range_interval", Descr 1%nat);
          ("bin_count", Descr 2%nat); ("gain", Descr 3%nat);
          ("mode", Descr 4%nat); ("enabled", Descr 5%nat);
          ("downsampling", Descr 6%nat); ("window", Descr 7%nat);
          ("service", Descr 8%nat); ("background", Descr 9%nat);
          ("VERSION", Plain (VInt 2));
          ("_event_handlers", Plain VNone);
          ("_Config__state", Plain VNone);
          ("check", Plain (VCallable 0))] |}.

(* a fresh object, after Config.__init__ *)
Definition fresh : config := snd (Config_init cls empty_config).

(* an object on which two event handlers are registered *)
Definition listening : config :=
  set_attrs (fun d => <["_event_handlers" := VSet [VCallable 1; VCallable 2]]> d) fresh.

(* an object after three assignments *)
Definition tuned : config :=
  assignments cls
    [("gain", VFloat 0.254); ("mode", VEnum "Mode" "B"); ("bin_count", VInt 12)]
    fresh.

(* an object whose mode was set to a member of another enum *)
Definition foreign : config :=
  assignments cls [("mode", VEnum "Other" "X")] fresh.

(* a document of an older version, with a value for gain *)
Definition old_document : json :=
  JObj [("gain", JFloat 0.75); ("VERSION", JInt 1)].
End Demo.

(** ** Objects on a heap: what [__get__] hands out *)

(** The main development treats values as immutable trees, where a copy
    is the value itself.  Here lists, arrays and dictionaries are mutable
    objects on a heap, values refer to them, and [copy] is the shallow
    copy of Python. *)
Module Aliasing.

(* locations of mutable objects *)
Abbreviation loc := nat (only parsing).

(* what a name, an attribute or a slot of a container holds *)
Inductive oval :=
| ONone
| OBool (b : bool)
| OInt (z : Z)
| OFloat (f : float)
| OStr (s : string)
| OEnum (cls name : string)
| OTuple (items : list oval)       (* immutable, may refer to mutable objects *)
| ORef (l : loc).                  (* a mutable object *)

Inductive object :=
| OList (items : list oval)
| OArray (items : list float)
| ODict (fields : list (string * oval)).

Abbreviation heap := (gmap nat object) (only parsing).

(* copy.copy(v): immutable values are returned as they are; a mutable
   object is copied to a new object with the same slots *)
Definition copy (v : oval) (h : heap) : oval * heap :=
  match v with
  | ORef l =>
      match h !! l with
      | Some o => let l' := fresh (dom h) in (ORef l', <[l' := o]> h)
      | None => (v, h)
      end
  | _ => (v, h)
  end.

(* ValueParameter.__get__ for the descriptor at index i, whose values
   dictionary holds [values !! i] for the object *)
Definition __get__ (values : gmap nat oval) (default_value : oval) (i : nat)
    (h : heap) : oval * heap :=
  copy (default default_value (values !! i)) h.

(* an in-place change of the mutable object at l: append, item
   assignment, clear, ... *)
Definition mutate (l : loc) (o : object) (h : heap) : heap := <[l := o]> h.

(** What can be observed of a value, to a given depth. *)
Inductive tree :=
| TLeaf (v : oval)
| TTuple (items : list tree)
| TList (items : list tree)
| TArray (items : list float)
| TDict (fields : list (string * tree))
| TDangling
| TCut.

Definition view_object (view : oval -> tree) (o : object) : tree :=
  match o with
  | OList items => TList (map view items)
  | OArray items => TArray items
  | ODict fields => TDict (map (fun kv => (fst kv, view (snd kv))) fields)
  end.

Fixpoint view (n : nat) (h : heap) (v : oval) : tree :=
  match n with
  | O => TCut
  | S n' =>
      match v with
      | OTuple items => TTuple (map (view n' h) items)
      | ORef l =>
          match h !! l with
          | Some o => view_object (view n' h) o
          | None => TDangling
          end
      | _ => TLeaf v
      end
  end.

(* the objects a value refers to, directly or through tuples *)
Fixpoint refs (v : oval) : list loc :=
  match v with
  | ORef l => [l]
  | OTuple items => flat_map refs items
  | _ => []
  end.

Definition object_refs (o : object) : list loc :=
  match o with
  | OList items => flat_map refs items
  | OArray _ => []
  | ODict fields => flat_map (fun kv => refs (snd kv)) fields
  end.

(* no dangling references *)
Definition closed_value (h : heap) (v : oval) : Prop :=
  forall l, l ∈ refs v -> is_Some (h !! l).

Definition closed (h : heap) : Prop :=
  forall l o, h !! l = Some o -> forall l', l' ∈ object_refs o -> is_Some (h !! l').

(* h' has every object of h, unchanged *)
Definition extends (h h' : heap) : Prop :=
  forall l o, h !! l = Some o -> h' !! l = Some o.

(* a heap with the list [[1, 2], 3] at 0, its inner list at 1, and an
   array at 2 *)
Definition example_heap : heap :=
  <[0%nat := OList [ORef 1%nat; OInt 3]]>
    (<[1%nat := OList [OInt 1; OInt 2]]>
      (<[2%nat := OArray [0.2%float; 0.8%float]]> ∅)).

End Aliasing.


(** ** The rest of Config: deleting, resetting, the state *)

Section Resetting.
Context `{Builtins}.

(* the [__delete__] of a descriptor.  ConstantParameter defines none, so
   calling it is an AttributeError. *)
Definition __delete__ (i : nat) (p : parameter) : M unit :=
  match param_kind p with
  | ConstantParameter =>
      raise (AttributeError "'ConstantParameter' object has no attribute '__delete__'")
  | ClassParameter => modify (set_instances (fun s => s ∖ {[i]}))
  | _ => modify (set_values (fun d => delete i d))
  end.

Variable cls : config_class.

Definition _get_params : M (list (nat * parameter)) :=
  params ← _get_keys_and_params cls;
  mret (map snd params).

Definition _reset : M unit :=
  params ← _get_params;
  _ ← for_each params (fun ip =>
        _ ← __delete__ (fst ip) (snd ip);
        update_pidget (fst ip));
  _parameter_event_handler cls.

(* the getter and the setter of the property [_state] *)
Definition _state_getter : M value := getattr cls "_Config__state".

Definition _state_setter (state : value) : M unit :=
  old ← getattr cls "_Config__state";
  let state_changed := py_ne old state in
  _ ← __setattr__ cls "_Config__state" state;
  if state_changed then _update_pidgets cls else mret tt.
End Resetting.

(* the indices of the listed parameters that have a pidget, in the order
   of the listing *)
Definition with_pidget (st : config) (params : list (string * (nat * parameter)))
  : list nat :=
  List.filter (fun i => bool_decide (i ∈ pidgets st))
              (map (fun kp => fst (snd kp)) params).

(* a float kind rounds what it stores *)
Definition rounds (p : parameter) : bool :=
  match param_kind p with
  | FloatParameter | FloatRangeParameter => true
  | _ => false
  end.

(* the floats in a stored value *)
Definition floats_of (v : value) : list float :=
  match v with
  | VFloat f => [f]
  | VArray l => l
  | _ => []
  end.


(* the order of the listing: by [order], by name where that is equal *)
Definition listed_before (a b : string * (nat * parameter)) : Prop :=
  order (snd (snd a)) < order (snd (snd b)) \/
  (order (snd (snd a)) = order (snd (snd b)) /\ String.ltb (fst a) (fst b) = true).


(** ** A second example class, without a ConstantParameter *)

Module Sparse.
Definition cls : config_class :=
  {| class_name := "SparseConfig";
     descriptors := [Demo.gain; Demo.mode; Demo.background_kw];
     namespace :=
       list_to_map
         [("gain", Descr 0%nat); ("mode", Descr 1%nat);
          ("background", Descr 2%nat);
          ("VERSION", Plain (VInt 1));
          ("_event_handlers", Plain VNone);
          ("_Config__state", Plain VNone);
          ("check", Plain (VCallable 0))] |}.

(* an object with a value for gain, a pidget for gain and two handlers *)
Definition busy : config :=
  {| values := {[0%nat := VFloat 0.25]}; instances := ∅; pidgets := {[0%nat]};
     attrs := {["_event_handlers" := VSet [VCallable 1; VCallable 2];
                "_Config__state" := VEnum "State" "UNLOADED"]};
     trace := [] |}.
End Sparse.


(** ** ReferenceData *)

(** The object that a ReferenceDataParameter hands out.  Its attributes
    are plain; every property setter stores the value and then calls
    the event handlers of the Config object it belongs to.  The two
    methods that read and write files are left out. *)
Module ReferenceData.

Record attributes := {
  _buffer_size : value;
  _buffered_data : value;
  _loaded_data : value;
  _use : value;
  _source : value;
  _source_file : value;
  _error : value;
}.

(* the object and the Config object it was made for *)
Record world := {
  self : attributes;
  _parent_instance : config;
}.

Definition RM (A : Type) : Type := world -> result A * world.

#[global] Instance RM_ret : MRet RM := fun _ a w => (Ok a, w).
#[global] Instance RM_bind : MBind RM := fun _ _ f m w =>
  match m w with
  | (Ok a, w') => f a w'
  | (Raise e, w') => (Raise e, w')
  end.

Definition read {A} (f : attributes -> A) : RM A := fun w => (Ok (f (self w)), w).
Definition store (f : attributes -> attributes) : RM unit := fun w =>
  (Ok tt, {| self := f (self w); _parent_instance := _parent_instance w |}).

(* ReferenceData.__init__(param, parent_instance, buffer_size) *)
Definition __init__ (parent_instance : config) (buffer_size : value) : world :=
  {| self := {| _buffer_size := buffer_size; _buffered_data := VNone;
                _loaded_data := VNone; _use := VBool true; _source := VNone;
                _source_file := VNone; _error := VNone |};
     _parent_instance := parent_instance |}.

Section Methods.
Context `{Builtins}.
Variable cls : config_class.   (* the class of the parent *)

Definition __notify : RM unit := fun w =>
  let (r, c) := _parameter_event_handler cls (_parent_instance w) in
  (r, {| self := self w; _parent_instance := c |}).

Definition buffer_size : RM value := read _buffer_size.
Definition set_buffer_size (v : value) : RM unit :=
  _ ← store (fun a =>
        {| _buffer_size := v; _buffered_data := _buffered_data a;
           _loaded_data := _loaded_data a; _use := _use a; _source := _source a;
           _source_file := _source_file a; _error := _error a |});
  __notify.

Definition buffered_data : RM value := read _buffered_data.
Definition set_buffered_data (v : value) : RM unit :=
  _ ← store (fun a =>
        {| _buffer_size := _buffer_size a; _buffered_data := v;
           _loaded_data := _loaded_data a; _use := _use a; _source := _source a;
           _source_file := _source_file a; _error := _error a |});
  __notify.

Definition loaded_data : RM value := read _loaded_data.
Definition set_loaded_data (v : value) : RM unit :=
  _ ← store (fun a =>
        {| _buffer_size := _buffer_size a; _buffered_data := _buffered_data a;
           _loaded_data := v; _use := _use a; _source := _source a;
           _source_file := _source_file a; _error := _error a |});
  __notify.

Definition use : RM value := read _use.
Definition set_use (v : value) : RM unit :=
  _ ← store (fun a =>
        {| _buffer_size := _buffer_size a; _buffered_data := _buffered_data a;
           _loaded_data := _loaded_data a; _use := v; _source := _source a;
           _source_file := _source_file a; _error := _error a |});
  __notify.

Definition source : RM value := read _source.
Definition set_source (v : value) : RM unit :=
  _ ← store (fun a =>
        {| _buffer_size := _buffer_size a; _buffered_data := _buffered_data a;
           _loaded_data := _loaded_data a; _use := _use a; _source := v;
           _source_file := _source_file a; _error := _error a |});
  __notify.

Definition source_file : RM value := read _source_file.
Definition set_source_file (v : value) : RM unit :=
  _ ← store (fun a =>
        {| _buffer_size := _buffer_size a; _buffered_data := _buffered_data a;
           _loaded_data := _loaded_data a; _use := _use a; _source := _source a;
           _source_file := v; _error := _error a |});
  __notify.

Definition error : RM value := read _error.
Definition set_error (v : value) : RM unit :=
  _ ← store (fun a =>
        {| _buffer_size := _buffer_size a; _buffered_data := _buffered_data a;
           _loaded_data := _loaded_data a; _use := _use a; _source := _source a;
           _source_file := _source_file a; _error := v |});
  __notify.

Definition is_loaded : RM bool :=
  v ← loaded_data; mret (negb (is_None v)).

Definition has_buffered : RM bool :=
  v ← buffered_data; mret (negb (is_None v)).

Definition load_buffered : RM unit :=
  v ← buffered_data;
  _ ← set_loaded_data v;
  _ ← set_use (VBool true);
  _ ← set_source (VStr "buffer");
  set_source_file VNone.

Definition unload : RM unit :=
  _ ← set_loaded_data VNone;
  _ ← set_source VNone;
  _ ← set_source_file VNone;
  set_error VNone.
End Methods.

(* the parent after [n] rounds of calls to the handlers [ids] *)
Definition rounds_of_calls (n : nat) (ids : list nat) (c : config) : config :=
  {| values := values c; instances := instances c; pidgets := pidgets c;
     attrs := attrs c;
     trace := trace c ++
              concat (replicate n (map (fun h => Notified h (values c)) ids)) |}.
End ReferenceData.


(** ** The constructors of the descriptors *)

(** A descriptor is declared with keyword arguments.  Each [__init__]
    pops the keywords it knows from [kwargs], sets attributes on the new
    object and hands the rest to the [__init__] of its base class; at the
    end of the chain, [Parameter.__init__] refuses what is left.  The
    new object is the dictionary of its attributes.  NumberParameter and
    its subclasses, whose constructors use [assert], are not covered. *)
Module Construction.

Definition kwargs := list (string * value).
Definition object := list (string * value).

(* kwargs.pop(k) *)
Definition pop (kw : kwargs) (k : string) : result (value * kwargs) :=
  match dict_get kw k with
  | Some v => Ok (v, dict_del kw k)
  | None => Raise (KeyError (VStr k))
  end.

(* kwargs.setdefault(k, v) *)
Definition setdefault (kw : kwargs) (k : string) (v : value) : kwargs :=
  match dict_get kw k with
  | Some _ => kw
  | None => dict_set kw k v
  end.

(* the class ReferenceData, as a value *)
Definition ReferenceData_class : value := VCallable 0.

Inductive class :=
| CParameter
| CConstantParameter
| CValueParameter
| CBoolParameter
| CEnumParameter
| CSensorParameter
| CClassParameter
| CReferenceDataParameter.

Section Classes.
Context `{Builtins}.

(* self.generate_doc(), the method of the class of the object, and
   str.strip: the text of the documentation is not modelled *)
Variable generate_doc : class -> object -> result value.
Variable strip : value -> result value.

Definition Parameter__init__ (c : class) (self : object) (kw : kwargs)
  : result object :=
  '(label, kw) ← pop kw "label";
  let self := dict_set self "label" label in
  let '(updateable, kw) := dict_pop kw "updateable" (VBool false) in
  let self := dict_set self "is_live_updateable" updateable in
  let '(does_dump, kw) := dict_pop kw "does_dump" (VBool false) in
  let self := dict_set self "does_dump" does_dump in
  let '(category, kw) := dict_pop kw "category" (VEnum "Category" "BASIC") in
  let self := dict_set self "category" category in
  let '(order, kw) := dict_pop kw "order" (VInt (-1)) in
  let self := dict_set self "order" order in
  let '(help, kw) := dict_pop kw "help" VNone in
  let self := dict_set self "help" help in
  let '(visible, kw) := dict_pop kw "visible" (VBool true) in
  let self := dict_set self "visible" visible in
  let '(_pidget_class, kw) := dict_pop kw "_pidget_class" VNone in
  let self := dict_set self "_pidget_class" _pidget_class in
  (* don't care if unused *)
  let '(_, kw) := dict_pop kw "default_value" VNone in
  match kw with
  | (a_key, _) :: _ =>
      Raise (TypeError ("Got unexpected keyword argument (" +:+ a_key +:+ ")"))
  | [] =>
      is_visible ← py_bool visible;
      let self :=
        if negb is_visible then dict_set self "_pidget_class" VNone
        else if is_None _pidget_class then dict_set self "visible" (VBool false)
        else self in
      let self := dict_set self "pidgets" (VDict []) in
      doc ← generate_doc c self;
      has_doc ← py_bool doc;
      if has_doc : bool then
        text ← strip doc;
        Ok (dict_set self "__doc__" text)
      else Ok self
  end.

Definition ConstantParameter__init__ (c : class) (self : object) (kw : kwargs)
  : result object :=
  '(v, kw) ← pop kw "value";
  let self := dict_set self "value" v in
  Parameter__init__ c self kw.

(* [_sanitize] is the method of the class of the object *)
Definition ValueParameter__init__ (_sanitize : value -> result value)
    (c : class) (self : object) (kw : kwargs) : result object :=
  '(default_value, kw) ← pop kw "default_value";
  let self := dict_set self "default_value" default_value in
  let '(optional, kw) := dict_pop kw "optional" (VBool false) in
  let self := dict_set self "is_optional" optional in
  is_optional ← py_bool optional;
  '(self, kw) ←
    (if is_optional : bool then
       let '(optional_label, kw) := dict_pop kw "optional_label" (VStr "Set") in
       let self := dict_set self "optional_label" optional_label in
       if is_None default_value then
         '(v, kw) ← pop kw "optional_default_set_value";
         Ok (dict_set self "optional_default_set_value" v, kw)
       else Ok (dict_set self "optional_default_set_value" default_value, kw)
     else Ok (self, kw));
  let kw := setdefault kw "does_dump" (VBool true) in
  let self := dict_set self "values" (VDict []) in
  self ← Parameter__init__ c self kw;
  (* self.default_value = self.sanitize(self.default_value) *)
  d ← (if negb (is_optional && is_None default_value)
       then _sanitize default_value else Ok default_value);
  Ok (dict_set self "default_value" d).

Definition BoolParameter__init__ (c : class) (self : object) (kw : kwargs)
  : result object :=
  let kw := setdefault kw "_pidget_class" (VStr "BoolCheckboxPidget") in
  ValueParameter__init__ (fun v => b ← py_bool v; Ok (VBool b)) c self kw.

Definition EnumParameter__init__ (c : class) (self : object) (kw : kwargs)
  : result object :=
  '(enum, kw) ← pop kw "enum";
  let self := dict_set self "enum" enum in
  let kw := setdefault kw "_pidget_class" (VStr "ComboBoxPidget") in
  ValueParameter__init__ Ok c self kw.

Definition SensorParameter__init__ (c : class) (self : object) (kw : kwargs)
  : result object :=
  ValueParameter__init__ SensorParameter_sanitize c self kw.

Definition ClassParameter__init__ (c : class) (self : object) (kw : kwargs)
  : result object :=
  '(objtype, kw) ← pop kw "objtype";
  let self := dict_set self "objtype" objtype in
  let self := dict_set self "instances" (VDict []) in
  Parameter__init__ c self kw.

Definition ReferenceDataParameter__init__ (c : class) (self : object)
    (kw : kwargs) : result object :=
  let kw := setdefault kw "label" (VStr "Background") in
  let kw := setdefault kw "_pidget_class" (VStr "ReferenceDataPidget") in
  let kw := setdefault kw "objtype" ReferenceData_class in
  let kw := setdefault kw "updateable" (VBool true) in
  ClassParameter__init__ c self kw.

(* calling the class: a new object, initialised by the __init__ of its class *)
Definition construct (c : class) (kw : kwargs) : result object :=
  match c with
  | CParameter => Parameter__init__ c [] kw
  | CConstantParameter => ConstantParameter__init__ c [] kw
  | CValueParameter => ValueParameter__init__ Ok c [] kw
  | CBoolParameter => BoolParameter__init__ c [] kw
  | CEnumParameter => EnumParameter__init__ c [] kw
  | CSensorParameter => SensorParameter__init__ c [] kw
  | CClassParameter => ClassParameter__init__ c [] kw
  | CReferenceDataParameter => ReferenceDataParameter__init__ c [] kw
  end.
End Classes.

(* the subclasses of ValueParameter *)
Definition is_value_class (c : class) : bool :=
  match c with
  | CValueParameter | CBoolParameter | CEnumParameter | CSensorParameter => true
  | _ => false
  end.

(* the keywords that the constructors of a class pop *)
Definition known (c : class) : list string :=
  ["label"; "updateable"; "does_dump"; "category"; "order"; "help"; "visible";
   "_pidget_class"; "default_value"] ++
  match c with
  | CParameter => []
  | CConstantParameter => ["value"]
  | CValueParameter | CBoolParameter | CSensorParameter =>
      ["optional"; "optional_label"; "optional_default_set_value"]
  | CEnumParameter =>
      ["enum"; "optional"; "optional_label"; "optional_default_set_value"]
  | CClassParameter | CReferenceDataParameter => ["objtype"]
  end.

(* the keywords without which the constructor of a class raises *)
Definition required (c : class) : list string :=
  match c with
  | CParameter => ["label"]
  | CConstantParameter => ["label"; "value"]
  | CValueParameter | CBoolParameter | CSensorParameter => ["label"; "default_value"]
  | CEnumParameter => ["label"; "default_value"; "enum"]
  | CClassParameter => ["label"; "objtype"]
  | CReferenceDataParameter => []
  end.

(* the value of a keyword, or the default that the constructor gives it *)
Definition keyword (kw : kwargs) (k : string) (dflt : value) : value :=
  default dflt (dict_get kw k).
End Construction.


Module ConstructionVocabulary.
Import Construction.

(* the keywords that Parameter.__init__ pops *)
Definition base_keys : list string :=
  ["label"; "updateable"; "does_dump"; "category"; "order"; "help"; "visible";
   "_pidget_class"; "default_value"].

(* the attributes that Parameter.__init__ sets *)
Definition base_attributes : list string :=
  ["label"; "is_live_updateable"; "does_dump"; "category"; "order"; "help";
   "visible"; "_pidget_class"; "pidgets"; "__doc__"].

(* the keywords that ValueParameter.__init__ pops, given the truth of
   [optional] and the default value *)
Definition value_keys (is_optional : bool) (default_value : value) : list string :=
  ["default_value"; "optional"] ++
  if is_optional then
    "optional_label" ::
    (if is_None default_value then ["optional_default_set_value"] else [])
  else [].

(* the attributes that ValueParameter.__init__ sets before it calls
   Parameter.__init__ *)
Definition value_attributes : list string :=
  ["default_value"; "is_optional"; "optional_label";
   "optional_default_set_value"; "values"].

(* the pidget class that the constructors of a class fall back on *)
Definition default_pidget (c : class) : value :=
  match c with
  | CBoolParameter => VStr "BoolCheckboxPidget"
  | CEnumParameter => VStr "ComboBoxPidget"
  | CReferenceDataParameter => VStr "ReferenceDataPidget"
  | _ => VNone
  end.

(* the kind of descriptor that a subclass of ValueParameter makes *)
Definition kind_of (c : class) : kind :=
  match c with
  | CBoolParameter => BoolParameter
  | CEnumParameter => EnumParameter
  | CSensorParameter => SensorParameter
  | _ => ValueParameter
  end.
End ConstructionVocabulary.


(** Example declarations *)
Module ConstructionExamples.
Import Construction.

(* a documentation without help text: a value parameter documents its
   default, the other classes have no documentation *)
Definition docs (c : class) (self : object) : result value :=
  if is_value_class c then Ok (VStr "| Default value") else Ok VNone.

Definition stripped (v : value) : result value := Ok v.

(* BoolParameter(label="Enabled", default_value=1, order=50) *)
Definition enabled_kw : kwargs :=
  [("label", VStr "Enabled"); ("default_value", VInt 1); ("order", VInt 50)].

(* SensorParameter(label="Sensor(s)", default_value=None, optional=True,
                   optional_default_set_value=[1]) *)
Definition sensor_kw : kwargs :=
  [("label", VStr "Sensor(s)"); ("default_value", VNone); ("optional", VBool true);
   ("optional_default_set_value", VList [VInt 1])].

Definition built `{Builtins} (c : class) (kw : kwargs) : object :=
  match construct docs stripped c kw with
  | Ok self => self
  | Raise _ => []
  end.
End ConstructionExamples.


(** ** A third example class, with a plain ValueParameter *)

Module Loose.
Import Reference.

Definition note : parameter := Demo.init (Demo.declare ValueParameter 0 VNone).

Definition declared (version : value) : config_class :=
  {| class_name := "LooseConfig";
     descriptors := [note];
     namespace :=
       list_to_map
         [("note", Descr 0%nat);
          ("VERSION", Plain version);
          ("_event_handlers", Plain VNone);
          ("_Config__state", Plain VNone);
          ("check", Plain (VCallable 0))] |}.

(* VERSION = 1 *)
Definition cls : config_class := declared (VInt 1).

(* VERSION = (1, 0) *)
Definition versioned : config_class := declared (VTuple [VInt 1; VInt 0]).

Definition fresh : config := snd (Config_init cls empty_config).

(* an object after note = (1, 2) *)
Definition paired : config :=
  assignments cls [("note", VTuple [VInt 1; VInt 2])] fresh.
End Loose.


(** * Properties *)

(** ** Exact comparison of numbers *)

Lemma align_lt m1 e1 m2 e2 E :
  E <= e1 -> E <= e2 ->
  (let (x, y) := align m1 e1 m2 e2 in x <? y)
  = (m1 * 2 ^ (e1 - E) <? m2 * 2 ^ (e2 - E)).
Proof.
  intros H1 H2. unfold align.
  set (e := Z.min e1 e2).
  assert (He : E <= e) by (subst e; lia).
  assert (He1 : e <= e1) by (subst e; lia).
  assert (He2 : e <= e2) by (subst e; lia).
  replace (e1 - E) with ((e1 - e) + (e - E)) by lia.
  replace (e2 - E) with ((e2 - e) + (e - E)) by lia.
  rewrite !Z.pow_add_r by lia.
  assert (Hc : 0 < 2 ^ (e - E)) by (apply Z.pow_pos_nonneg; lia).
  rewrite !Z.mul_assoc.
  apply Bool.eq_iff_eq_true. rewrite !Z.ltb_lt.
  apply Z.mul_lt_mono_pos_r. exact Hc.
Qed.

Lemma xfin_same m1 e1 m2 e2 :
  e2 <= e1 -> m2 = m1 * 2 ^ (e1 - e2) -> xsame (XFin m1 e1) (XFin m2 e2).
Proof.
  intros He Hm c. destruct c as [|s|m e]; try (split; reflexivity).
  unfold xlt.
  set (E := Z.min e2 e).
  assert (HE2 : E <= e2) by (subst E; lia).
  assert (HE : E <= e) by (subst E; lia).
  assert (Hk : m1 * 2 ^ (e1 - E) = m2 * 2 ^ (e2 - E)).
  { subst m2. rewrite <- Z.mul_assoc, <- Z.pow_add_r by lia.
    f_equal. f_equal. lia. }
  split.
  - rewrite (align_lt m1 e1 m e E), (align_lt m2 e2 m e E) by lia.
    now rewrite Hk.
  - rewrite (align_lt m e m1 e1 E), (align_lt m e m2 e2 E) by lia.
    now rewrite Hk.
Qed.

Lemma xsame_sym a b : xsame a b -> xsame b a.
Proof. intros Hab c. destruct (Hab c). split; congruence. Qed.

(** An integral float and the int it converts to are the same number. *)
Lemma int_of_float_same f :
  is_integer f = true ->
  exists z, int_of_float f = Ok z /\ xsame (XFin z 0) (float_val f).
Proof.
  unfold is_integer, int_of_float.
  destruct (float_val f) as [|s|m e]; try discriminate.
  intros Hi. destruct (Z.leb_spec 0 e) as [He|He].
  - eexists. split; [reflexivity|].
    apply xsame_sym, xfin_same; [lia|]. now rewrite Z.sub_0_r.
  - cbn in Hi. apply Z.eqb_eq in Hi.
    assert (Hd : 0 < 2 ^ (- e)) by (apply Z.pow_pos_nonneg; lia).
    apply Z.div_exact in Hi; [|lia].
    remember (m / 2 ^ (- e)) as q eqn:Hq. clear Hq. subst m.
    eexists. split; [reflexivity|].
    apply xfin_same; [lia|].
    change (0 - e) with (- e).
    rewrite (Z.mul_comm (2 ^ (- e)) q).
    now rewrite Z.quot_mul by lia.
Qed.

(** ** Setting a value parameter *)

Section Setting.
Context `{Builtins}.

Lemma sanitize_not_None p v : is_None v = false -> sanitize p v = _sanitize p v.
Proof. intros Hv. unfold sanitize. now rewrite Hv, andb_false_r. Qed.

Lemma sanitize_as_num p v x : as_num v = Some x -> sanitize p v = _sanitize p v.
Proof. intros Hx. apply sanitize_not_None. now destruct v. Qed.

Lemma ValueParameter_set_spec i p v st :
  ValueParameter_set i p v st =
    match sanitize p v with
    | Ok v' => (Ok tt, set_values (fun d => <[i := v']> d) st)
    | Raise e => (Raise e, st)
    end.
Proof.
  unfold ValueParameter_set, lift, modify, mbind, M_bind.
  now destruct (sanitize p v).
Qed.

Lemma set_spec i p v st :
  is_ValueParameter p = true ->
  __set__ i p v st =
    match sanitize p v with
    | Ok v' => (Ok tt, set_values (fun d => <[i := v']> d) st)
    | Raise e => (Raise e, st)
    end.
Proof.
  intros Hp. rewrite <- ValueParameter_set_spec.
  unfold __set__, is_ValueParameter in *. now destruct (param_kind p).
Qed.

Lemma load_is_set i p v :
  is_ValueParameter p = true -> param_kind p <> EnumParameter ->
  load i p v = __set__ i p v.
Proof.
  unfold load, is_ValueParameter. now destruct (param_kind p).
Qed.

Lemma check_limits_outside p lower upper x :
  limits p = Some (lower, upper) ->
  check_limits p x =
    if outside x lower upper
    then Raise (ValueError (if below x lower then "Given value is too low"
                            else "Given value is too high"))
    else Ok tt.
Proof.
  intros Hl. unfold check_limits, outside. rewrite Hl.
  destruct (below x lower), (above x upper); reflexivity.
Qed.

Lemma outside_same x y lower upper :
  xsame (num_val x) (num_val y) -> outside x lower upper = outside y lower upper.
Proof.
  intros Hs. unfold outside, below, above, num_lt, num_gt.
  destruct lower as [lo|], upper as [up|]; cbn;
    repeat match goal with
    | |- context [xlt (num_val x) (num_val ?c)] =>
        rewrite (proj1 (Hs (num_val c)))
    | |- context [xlt (num_val ?c) (num_val x)] =>
        rewrite (proj2 (Hs (num_val c)))
    end; reflexivity.
Qed.

(** What int() makes of a numeric value that has no fractional part. *)
Lemma py_int_numeric v x :
  as_num v = Some x -> fractional v = false ->
  exists z, py_int v = Ok z /\ xsame (XFin z 0) (num_val x).
Proof.
  destruct v; cbn; try discriminate; intros [= <-] Hf.
  - eexists; split; [reflexivity|]. intros c; split; reflexivity.
  - eexists; split; [reflexivity|]. intros c; split; reflexivity.
  - apply negb_false_iff in Hf. apply int_of_float_same, Hf.
Qed.

Lemma IntParameter_sanitize_numeric p lower upper v x :
  limits p = Some (lower, upper) -> as_num v = Some x ->
  IntParameter_sanitize p v =
    if fractional v then Raise (ValueError "Not an integer")
    else match py_int v with
         | Ok z =>
             if outside x lower upper
             then Raise (ValueError (if below (NInt z) lower
                                     then "Given value is too low"
                                     else "Given value is too high"))
             else Ok (VInt z)
         | Raise e => Raise e
         end.
Proof.
  intros Hl Hx. unfold IntParameter_sanitize.
  replace (match v with VFloat f => negb (is_integer f) | _ => false end)
    with (fractional v) by reflexivity.
  destruct (fractional v) eqn:Hf; [reflexivity|].
  destruct (py_int_numeric v x Hx Hf) as (z & Hz & Hs).
  rewrite Hz. cbn. rewrite (check_limits_outside p lower upper) by exact Hl.
  rewrite (outside_same (NInt z) x lower upper) by exact Hs.
  now destruct (outside x lower upper).
Qed.
End Setting.

(** ** C1: limits of IntParameter and FloatParameter *)

Section Limits.
Context `{Builtins}.

Lemma FloatParameter_sanitize_spec p lower upper v f r :
  limits p = Some (lower, upper) ->
  py_float v = Ok f -> round_float f (decimals p) = Some r ->
  FloatParameter_sanitize p v =
    if outside (NFloat r) lower upper
    then Raise (ValueError (if below (NFloat r) lower
                            then "Given value is too low"
                            else "Given value is too high"))
    else Ok r.
Proof.
  intros Hl Hf Hr. unfold FloatParameter_sanitize, py_round.
  rewrite Hf. cbn. rewrite Hr. cbn.
  rewrite (check_limits_outside p lower upper) by exact Hl.
  now destruct (outside (NFloat r) lower upper).
Qed.

(** C1, as amended.  For an IntParameter with limits, [__set__] and
    [load] raise a ValueError on every numeric value (bool, int, float)
    strictly below a lower limit or strictly above an upper limit; a
    numeric value within the limits is stored as [int(value)], unless it
    is a float with a fractional part, which raises a ValueError.  For a
    FloatParameter the limits are checked on the value converted with
    [float()] and rounded to [decimals] digits: a rounded value strictly
    outside the limits raises a ValueError, a rounded value within them
    is stored. *)
Theorem limits_checked_after_coercion i p lower upper v x st :
  limits p = Some (lower, upper) ->
  as_num v = Some x ->
  (param_kind p = IntParameter ->
     (outside x lower upper = true ->
        raises_ValueError (__set__ i p v) st /\
        raises_ValueError (load i p v) st) /\
     (outside x lower upper = false ->
        if fractional v
        then raises_ValueError (__set__ i p v) st /\
             raises_ValueError (load i p v) st
        else exists z, py_int v = Ok z /\
               stores i (VInt z) (__set__ i p v) st /\
               stores i (VInt z) (load i p v) st)) /\
  (param_kind p = FloatParameter ->
     forall f r,
       py_float v = Ok f -> round_float f (decimals p) = Some r ->
       (outside (NFloat r) lower upper = true ->
          raises_ValueError (__set__ i p v) st /\
          raises_ValueError (load i p v) st) /\
       (outside (NFloat r) lower upper = false ->
          stores i (VFloat r) (__set__ i p v) st /\
          stores i (VFloat r) (load i p v) st)).
Proof.
  intros Hl Hx. split.
  - intros Hk.
    assert (Hvp : is_ValueParameter p = true)
      by (unfold is_ValueParameter; now rewrite Hk).
    rewrite (load_is_set i p v Hvp) by (rewrite Hk; discriminate).
    unfold raises_ValueError, stores.
    rewrite (set_spec i p v st Hvp), (sanitize_as_num p v x Hx).
    unfold _sanitize. rewrite Hk.
    rewrite (IntParameter_sanitize_numeric p lower upper v x Hl Hx).
    destruct (fractional v) eqn:Hf.
    + split; intros _; split; eexists; reflexivity.
    + destruct (py_int_numeric v x Hx Hf) as (z & Hz & _). rewrite Hz.
      split; intros Ho; rewrite Ho.
      * split; eexists; reflexivity.
      * exists z. repeat split; reflexivity.
  - intros Hk f r Hf Hr.
    assert (Hvp : is_ValueParameter p = true)
      by (unfold is_ValueParameter; now rewrite Hk).
    rewrite (load_is_set i p v Hvp) by (rewrite Hk; discriminate).
    unfold raises_ValueError, stores.
    rewrite (set_spec i p v st Hvp), (sanitize_as_num p v x Hx).
    unfold _sanitize. rewrite Hk.
    rewrite (FloatParameter_sanitize_spec p lower upper v f r Hl Hf Hr).
    split; intros Ho; rewrite Ho; cbn.
    + split; eexists; reflexivity.
    + split; reflexivity.
Qed.
End Limits.

Section LimitsExamples.
#[local] Existing Instance Reference.builtins.

Lemma limits_checked_after_coercion_witness :
  raises_ValueError (__set__ 2 Demo.bin_count (VInt 0)) Demo.fresh /\
  stores 3 (VFloat 0.25) (__set__ 3 Demo.gain (VFloat 0.254)) Demo.fresh.
Proof.
  split.
  - destruct (limits_checked_after_coercion 2 Demo.bin_count
                (Some (NInt 1)) None (VInt 0) (NInt 0) Demo.fresh
                eq_refl eq_refl) as [HI _].
    destruct (HI eq_refl) as [Hout _].
    apply Hout. reflexivity.
  - destruct (limits_checked_after_coercion 3 Demo.gain
                (Some (NInt 0)) (Some (NInt 1)) (VFloat 0.254) (NFloat 0.254)
                Demo.fresh eq_refl eq_refl) as [_ HF].
    destruct (HF eq_refl 0.254%float 0.25%float eq_refl eq_refl) as [_ Hin].
    apply Hin. reflexivity.
Defined.

(** C1, as stated, fails for FloatParameter: with limits (0, 1) and two
    decimals, 1.004 lies strictly above the upper limit, and yet it is
    accepted, and stored as 1.0. *)
Lemma float_above_limit_accepted :
  param_kind Demo.gain = FloatParameter /\
  limits Demo.gain = Some (Some (NInt 0), Some (NInt 1)) /\
  as_num (VFloat 1.004) = Some (NFloat 1.004) /\
  outside (NFloat 1.004) (Some (NInt 0)) (Some (NInt 1)) = true /\
  stores 3 (VFloat 1) (__set__ 3 Demo.gain (VFloat 1.004)) Demo.fresh /\
  ~ raises_ValueError (__set__ 3 Demo.gain (VFloat 1.004)) Demo.fresh.
Proof.
  assert (Hs : stores 3 (VFloat 1) (__set__ 3 Demo.gain (VFloat 1.004)) Demo.fresh)
    by (vm_compute; reflexivity).
  split; [reflexivity|]. split; [reflexivity|]. split; [reflexivity|].
  split; [reflexivity|]. split; [exact Hs|].
  intros [msg Hm]. unfold stores in Hs. rewrite Hs in Hm. discriminate.
Qed.
End LimitsExamples.

(** ** C5: coercion to int *)

Section IntCoercion.
Context `{Builtins}.

Lemma check_limits_Ok p x u : check_limits p x = Ok u -> u = tt.
Proof. now destruct u. Qed.

Lemma IntParameter_sanitize_Ok p v w :
  IntParameter_sanitize p v = Ok w ->
  exists z, py_int v = Ok z /\ w = VInt z.
Proof.
  unfold IntParameter_sanitize.
  destruct (match v with VFloat f => negb (is_integer f) | _ => false end);
    [discriminate|].
  destruct (py_int v) as [z|[]]; cbn; try discriminate.
  destruct (check_limits p (NInt z)); cbn; [|discriminate].
  intros [= <-]. now exists z.
Qed.

(** C5, as amended.  For an IntParameter, setting a float with a
    fractional part raises ValueError("Not an integer"); a value without
    one that [int()] accepts and that passes the limits is stored as
    [int(value)]; and whatever a successful [__set__] stores is an int,
    except that None is stored as it is when the parameter is optional. *)
Theorem IntParameter_coercion i p v st :
  param_kind p = IntParameter ->
  (fractional v = true ->
     __set__ i p v st = (Raise (ValueError "Not an integer"), st)) /\
  (fractional v = false ->
     forall z, py_int v = Ok z -> check_limits p (NInt z) = Ok tt ->
     stores i (VInt z) (__set__ i p v) st) /\
  (forall st', __set__ i p v st = (Ok tt, st') ->
     (exists z, py_int v = Ok z /\ values st' !! i = Some (VInt z)) \/
     (is_optional p = true /\ v = VNone /\ values st' !! i = Some VNone)).
Proof.
  intros Hk.
  assert (Hvp : is_ValueParameter p = true)
    by (unfold is_ValueParameter; now rewrite Hk).
  unfold stores. rewrite (set_spec i p v st Hvp).
  split; [|split].
  - intros Hf. rewrite sanitize_not_None by (now destruct v).
    unfold _sanitize, IntParameter_sanitize. rewrite Hk.
    destruct v; try discriminate. cbn in Hf. now rewrite Hf.
  - intros Hf z Hz Hc. rewrite sanitize_not_None by (now destruct v).
    unfold _sanitize, IntParameter_sanitize. rewrite Hk.
    replace (match v with VFloat f => negb (is_integer f) | _ => false end)
      with (fractional v) by reflexivity.
    rewrite Hf, Hz. cbn. now rewrite Hc.
  - intros st'. unfold sanitize.
    destruct (is_optional p && is_None v) eqn:Ho; cbn.
    + intros [= <-]. right. apply andb_true_iff in Ho as [Ho Hn].
      destruct v; try discriminate. cbn. now rewrite lookup_insert_eq.
    + unfold _sanitize. rewrite Hk.
      destruct (IntParameter_sanitize p v) as [w|e] eqn:Hs; [|discriminate].
      intros [= <-]. left.
      destruct (IntParameter_sanitize_Ok p v w Hs) as (z & Hz & ->).
      exists z. split; [exact Hz|]. cbn. now rewrite lookup_insert_eq.
Qed.
End IntCoercion.

Section IntCoercionExamples.
#[local] Existing Instance Reference.builtins.

Lemma IntParameter_coercion_witness :
  __set__ 2 Demo.bin_count (VFloat 2.5) Demo.fresh
    = (Raise (ValueError "Not an integer"), Demo.fresh) /\
  stores 2 (VInt 7) (__set__ 2 Demo.bin_count (VStr "7")) Demo.fresh /\
  ((exists z, py_int (VFloat 3) = Ok z /\
      values (set_values (fun d => <[2%nat := VInt 3]> d) Demo.fresh) !! 2%nat
        = Some (VInt z)) \/
   (is_optional Demo.bin_count = true /\ VFloat 3 = VNone /\
      values (set_values (fun d => <[2%nat := VInt 3]> d) Demo.fresh) !! 2%nat
        = Some VNone)).
Proof.
  split; [|split].
  - apply (IntParameter_coercion 2 Demo.bin_count (VFloat 2.5) Demo.fresh eq_refl).
    reflexivity.
  - apply (IntParameter_coercion 2 Demo.bin_count (VStr "7") Demo.fresh eq_refl);
      reflexivity.
  - apply (IntParameter_coercion 2 Demo.bin_count (VFloat 3) Demo.fresh eq_refl).
    vm_compute. reflexivity.
Defined.

(** C5, as stated, fails: an optional IntParameter stores None, which is
    not an int. *)
Lemma optional_int_stores_None :
  param_kind Demo.downsampling = IntParameter /\
  stores 6 VNone (__set__ 6 Demo.downsampling VNone) Demo.fresh /\
  is_int VNone = false.
Proof.
  split; [reflexivity|]. split; [|reflexivity].
  vm_compute. reflexivity.
Qed.
End IntCoercionExamples.

(** ** C6: float ranges *)

Section FloatRange.
Context `{Builtins}.

Lemma py_list_raises v e : py_list v = Raise e -> exists m, e = TypeError m.
Proof. destruct v; cbn; try discriminate; intros [= <-]; eauto. Qed.

(** C6, as amended.  For a FloatRangeParameter, None is stored as it is
    when the parameter is optional.  Any other value raises a ValueError
    when it is not an iterable of exactly two elements, or when the first
    element exceeds the second after each went through the sanitizer of
    FloatParameter; a range whose two sanitized endpoints are in order is
    stored as the array of these two floats. *)
Theorem FloatRange_validation i p arg st :
  param_kind p = FloatRangeParameter ->
  (is_optional p = true -> stores i VNone (__set__ i p VNone) st) /\
  (is_optional p && is_None arg = false ->
     ((forall v0 v1, py_list arg <> Ok [v0; v1]) ->
        raises_ValueError (__set__ i p arg) st) /\
     (forall v0 v1 f0 f1,
        py_list arg = Ok [v0; v1] ->
        FloatParameter_sanitize p v0 = Ok f0 ->
        FloatParameter_sanitize p v1 = Ok f1 ->
        if num_gt (NFloat f0) (NFloat f1)
        then __set__ i p arg st = (Raise (ValueError "Invalid range"), st)
        else stores i (VArray [f0; f1]) (__set__ i p arg) st)).
Proof.
  intros Hk.
  assert (Hvp : is_ValueParameter p = true)
    by (unfold is_ValueParameter; now rewrite Hk).
  unfold stores, raises_ValueError. split.
  - intros Ho. rewrite (set_spec i p VNone st Hvp). unfold sanitize.
    now rewrite Ho.
  - intros Ho. rewrite (set_spec i p arg st Hvp). unfold sanitize.
    rewrite Ho. cbn. unfold _sanitize, FloatRangeParameter_sanitize.
    rewrite Hk. split.
    + intros Hn. destruct (py_list arg) as [l|e] eqn:Hl; cbn.
      * destruct l as [|v0 [|v1 [|v2 l]]]; try (eexists; reflexivity).
        now destruct (Hn v0 v1).
      * destruct (py_list_raises arg e Hl) as [m ->]. eexists; reflexivity.
    + intros v0 v1 f0 f1 Hl H0 H1. rewrite Hl. cbn. rewrite H0. cbn.
      rewrite H1. cbn. now destruct (num_gt (NFloat f0) (NFloat f1)).
Qed.
End FloatRange.

Section FloatRangeExamples.
#[local] Existing Instance Reference.builtins.

Lemma FloatRange_validation_witness :
  stores 7 VNone (__set__ 7 Demo.window VNone) Demo.fresh /\
  raises_ValueError (__set__ 1 Demo.range_interval (VFloat 0.5)) Demo.fresh /\
  __set__ 1 Demo.range_interval (VList [VFloat 0.6; VFloat 0.2]) Demo.fresh
    = (Raise (ValueError "Invalid range"), Demo.fresh) /\
  stores 1 (VArray [0.2; 0.6]%float)
    (__set__ 1 Demo.range_interval (VTuple [VFloat 0.2; VFloat 0.604])) Demo.fresh.
Proof.
  split; [|split; [|split]].
  - apply (FloatRange_validation 7 Demo.window VNone Demo.fresh eq_refl).
    reflexivity.
  - apply (proj1 (proj2 (FloatRange_validation 1 Demo.range_interval
             (VFloat 0.5) Demo.fresh eq_refl) eq_refl)).
    discriminate.
  - pose proof (proj2 (proj2 (FloatRange_validation 1 Demo.range_interval
             (VList [VFloat 0.6; VFloat 0.2]) Demo.fresh eq_refl) eq_refl)
             (VFloat 0.6) (VFloat 0.2) 0.6%float 0.2%float eq_refl) as Hw.
    specialize (Hw eq_refl). specialize (Hw eq_refl). exact Hw.
  - pose proof (proj2 (proj2 (FloatRange_validation 1 Demo.range_interval
             (VTuple [VFloat 0.2; VFloat 0.604]) Demo.fresh eq_refl) eq_refl)
             (VFloat 0.2) (VFloat 0.604) 0.2%float 0.6%float eq_refl) as Hw.
    specialize (Hw eq_refl). specialize (Hw eq_refl). exact Hw.
Defined.

(** C6, as stated, fails: None is not a sequence of two elements, and an
    optional FloatRangeParameter accepts it. *)
Lemma optional_range_accepts_None :
  param_kind Demo.window = FloatRangeParameter /\
  (forall v0 v1, py_list VNone <> Ok [v0; v1]) /\
  stores 7 VNone (__set__ 7 Demo.window VNone) Demo.fresh /\
  ~ raises_ValueError (__set__ 7 Demo.window VNone) Demo.fresh.
Proof.
  assert (Hs : stores 7 VNone (__set__ 7 Demo.window VNone) Demo.fresh)
    by (vm_compute; reflexivity).
  split; [reflexivity|]. split; [discriminate|]. split; [exact Hs|].
  intros [msg Hm]. unfold stores in Hs. rewrite Hs in Hm. discriminate.
Qed.
End FloatRangeExamples.

(** ** What the sanitizers raise *)

Section Raises.
Context `{Builtins}.

Lemma bind_Raise {A B} (m : result A) (f : A -> result B) e :
  m ≫= f = Raise e -> m = Raise e \/ exists a, m = Ok a /\ f a = Raise e.
Proof. destruct m as [a|e']; cbn; [eauto|]. intros [= <-]. now left. Qed.

Lemma py_int_raises v e : py_int v = Raise e -> validation_error e = false -> exists m, e = ValueError m.
Proof.
  unfold py_int, int_of_float.
  intros Hr. repeat case_match; simplify_eq; cbn; try discriminate; eauto.
Qed.

Lemma py_float_raises v e : py_float v = Raise e -> validation_error e = false -> exists m, e = ValueError m.
Proof.
  unfold py_float, float_of_int.
  intros Hr. repeat case_match; simplify_eq; cbn; try discriminate; eauto.
Qed.

Lemma except_ValueError_raises {A} (r : result A) msg e :
  (forall e', r = Raise e' -> validation_error e' = false -> exists m, e' = ValueError m) ->
  except_ValueError r msg = Raise e ->
  e = ValueError msg \/ validation_error e = true.
Proof.
  intros Hr. unfold except_ValueError. destruct r as [a|e']; [discriminate|].
  destruct (validation_error e') eqn:Hv.
  - destruct e'; intros [= <-]; auto.
  - destruct (Hr e' eq_refl Hv) as [m ->]. intros [= <-]. now left.
Qed.

Lemma check_limits_raises p x e :
  check_limits p x = Raise e -> validation_error e = true.
Proof.
  unfold check_limits. intros Hr. repeat case_match; simplify_eq; reflexivity.
Qed.

Lemma IntParameter_sanitize_raises p v e :
  IntParameter_sanitize p v = Raise e -> validation_error e = true.
Proof.
  unfold IntParameter_sanitize. case_match; [intros [= <-]; reflexivity|].
  intros [Hr|(z & _ & Hr)]%bind_Raise.
  - apply except_ValueError_raises in Hr; [|apply py_int_raises].
    destruct Hr as [->|Hr]; [reflexivity|exact Hr].
  - apply bind_Raise in Hr as [Hr|(u & _ & Hr)]; [|discriminate].
    eapply check_limits_raises, Hr.
Qed.

Lemma FloatParameter_sanitize_raises p v e :
  FloatParameter_sanitize p v = Raise e -> validation_error e = true.
Proof.
  unfold FloatParameter_sanitize.
  intros [Hr|(f & _ & Hr)]%bind_Raise.
  - apply except_ValueError_raises in Hr; [|apply py_float_raises].
    destruct Hr as [->|Hr]; [reflexivity|exact Hr].
  - apply bind_Raise in Hr as [Hr|(r & _ & Hr)].
    + unfold py_round in Hr. case_match; simplify_eq. reflexivity.
    + apply bind_Raise in Hr as [Hr|(u & _ & Hr)]; [|discriminate].
      eapply check_limits_raises, Hr.
Qed.

Lemma FloatRangeParameter_sanitize_raises p v e :
  FloatRangeParameter_sanitize p v = Raise e -> validation_error e = true.
Proof.
  unfold FloatRangeParameter_sanitize.
  intros [Hr|(l & _ & Hr)]%bind_Raise.
  - unfold except_ValueError_TypeError in Hr.
    destruct (py_list v) as [l|e'] eqn:Hl; [discriminate|].
    destruct (py_list_raises v e' Hl) as [m ->]. now simplify_eq.
  - destruct l as [|v0 [|v1 [|v2 l]]]; try (now simplify_eq).
    apply bind_Raise in Hr as [Hr|(f0 & _ & Hr)];
      [eapply FloatParameter_sanitize_raises, Hr|].
    apply bind_Raise in Hr as [Hr|(f1 & _ & Hr)];
      [eapply FloatParameter_sanitize_raises, Hr|].
    case_match; now simplify_eq.
Qed.

Lemma sanitize_raises p v e :
  sanitize p v = Raise e -> validation_error e = true.
Proof.
  unfold sanitize. case_match; [|discriminate].
  unfold _sanitize. destruct (param_kind p); try discriminate.
  - intros [Hr|(b & _ & Hr)]%bind_Raise; [|discriminate].
    unfold py_bool in Hr. repeat case_match; simplify_eq; reflexivity.
  - apply IntParameter_sanitize_raises.
  - intros [Hr|(b & _ & Hr)]%bind_Raise; [|discriminate].
    eapply FloatParameter_sanitize_raises, Hr.
  - apply FloatRangeParameter_sanitize_raises.
  - unfold SensorParameter_sanitize. intros Hr.
    repeat case_match; simplify_eq; reflexivity.
Qed.

(** No sanitizer raises the error of a version mismatch. *)
Lemma sanitize_message p v msg :
  sanitize p v = Raise (ValueError msg) -> msg <> "Configuration version mismatch".
Proof. intros Hr%sanitize_raises ->. discriminate. Qed.
End Raises.

(** ** Config methods: frames and exceptions *)

Section ConfigFrames.
Context `{Builtins}.
Variable cls : config_class.

Lemma same_data_refl st : same_data st st.
Proof. now repeat split. Qed.

Lemma get_frame i p st r st' :
  __get__ i p st = (r, st') -> same_data st st' /\ exists v, r = Ok v.
Proof.
  unfold __get__, ValueParameter_get.
  destruct (param_kind p); cbn; intros [= <- <-];
    (split; [now repeat split|eauto]).
Qed.

Lemma getattr_frame name st r st' :
  getattr cls name st = (r, st') ->
  same_data st st' /\
  match r with Ok _ => True | Raise e => exists m, e = AttributeError m end.
Proof.
  unfold getattr. destruct (type_getattr cls name) as [[i p|v]|] eqn:Ht.
  - intros Hg. destruct (get_frame i p st r st' Hg) as [Hs [v ->]]. now split.
  - unfold mbind, M_bind, get_state, mret, M_ret, raise.
    destruct (attrs st !! name); intros [= <- <-];
      (split; [apply same_data_refl|trivial]).
  - unfold mbind, M_bind, get_state, mret, M_ret, raise.
    destruct (attrs st !! name); intros [= <- <-];
      (split; [apply same_data_refl|eauto]).
Qed.

Lemma get_keys_and_params_spec st :
  _get_keys_and_params cls st = (Ok (keys_and_params cls st), st).
Proof. reflexivity. Qed.

Lemma load_Raise i p v st e st' :
  load i p v st = (Raise e, st') -> st' = st /\ load_error e = true.
Proof.
  unfold load.
  assert (Hset : forall w, __set__ i p w st = (Raise e, st') ->
                 is_ValueParameter p = true -> st' = st /\ load_error e = true).
  { intros w Hw Hvp. rewrite (set_spec i p w st Hvp) in Hw.
    destruct (sanitize p w) eqn:Hs; simplify_eq.
    split; [reflexivity|]. apply sanitize_raises in Hs.
    unfold load_error. now destruct e. }
  destruct (param_kind p) eqn:Hk;
    try (intros Hl; apply (Hset v Hl); unfold is_ValueParameter; now rewrite Hk);
    try (cbn; intros [= <- <-]; now split).
  unfold mbind, M_bind, lift.
  destruct (enum_getitem (enum p) v) as [m|e'] eqn:He.
  - intros Hl. apply (Hset m Hl). unfold is_ValueParameter. now rewrite Hk.
  - intros [= <- <-]. split; [reflexivity|].
    unfold enum_getitem in He. repeat case_match; simplify_eq; reflexivity.
Qed.

Lemma load_Ok i p v st st' :
  load i p v st = (Ok tt, st') ->
  exists w, st' = set_values (fun d => <[i := w]> d) st.
Proof.
  unfold load.
  assert (Hset : forall w, __set__ i p w st = (Ok tt, st') ->
                 exists w', st' = set_values (fun d => <[i := w']> d) st).
  { intros w. unfold __set__.
    destruct (param_kind p); try discriminate;
      rewrite ValueParameter_set_spec; destruct (sanitize p w);
      intros [= <-]; eauto. }
  destruct (param_kind p); try discriminate; try apply Hset.
  unfold mbind, M_bind, lift.
  destruct (enum_getitem (enum p) v); [apply Hset|discriminate].
Qed.

Lemma for_each_Raise {A} (body : A -> M unit) (P : exn -> Prop) l st e st' :
  (forall x st1 e1 st2, x ∈ l -> body x st1 = (Raise e1, st2) -> P e1) ->
  for_each l body st = (Raise e, st') -> P e.
Proof.
  revert st. induction l as [|x l IH]; intros st Hb; cbn; [discriminate|].
  unfold mbind, M_bind.
  destruct (body x st) as [[[]|e1] st1] eqn:Hx.
  - apply IH. intros y; intros. eapply Hb; [right|]; eassumption.
  - intros [= <- <-]. eapply Hb; [left|eassumption].
Qed.

Lemma update_pidget_spec i st :
  exists st', update_pidget i st = (Ok tt, st') /\
    values st' = values st /\ attrs st' = attrs st /\
    instances st' = instances st /\ pidgets st' = pidgets st.
Proof.
  unfold update_pidget, mbind, M_bind, get_state.
  destruct (bool_decide (i ∈ pidgets st)); eexists; repeat split.
Qed.

Lemma update_pidgets_spec st :
  exists st', _update_pidgets cls st = (Ok tt, st') /\
    values st' = values st /\ attrs st' = attrs st /\
    instances st' = instances st /\ pidgets st' = pidgets st.
Proof.
  unfold _update_pidgets. unfold mbind at 1, M_bind at 1.
  rewrite get_keys_and_params_spec.
  generalize (keys_and_params cls st) as l. intros l.
  assert (Hgen : forall st0, exists st',
    for_each l (fun kp => update_pidget (fst (snd kp))) st0 = (Ok tt, st') /\
    values st' = values st0 /\ attrs st' = attrs st0 /\
    instances st' = instances st0 /\ pidgets st' = pidgets st0).
  { induction l as [|kp l IH]; intros st0; cbn.
    - eexists; repeat split.
    - unfold mbind, M_bind.
      destruct (update_pidget_spec (fst (snd kp)) st0) as (st1 & -> & Hv & Ha & Hi & Hp).
      destruct (IH st1) as (st2 & -> & Hv' & Ha' & Hi' & Hp').
      eexists; split; [reflexivity|]. repeat split; congruence. }
  apply Hgen.
Qed.

(** C8.  When [_loads] raises the version-mismatch error, no parameter
    has been loaded: the values stored for the object, its instance
    dictionary and its record of outside calls are what they were before
    the call. *)
Theorem version_mismatch_loads_nothing s st st' :
  _loads cls s st = (Raise version_mismatch, st') ->
  values st' = values st /\ attrs st' = attrs st /\ trace st' = trace st.
Proof.
  unfold _loads. destruct (of_json s) as [| | | | | | | |d| | | |]; try discriminate.
  destruct (dict_pop d "VERSION" VNone) as [version d'].
  unfold mbind at 1, M_bind at 1.
  destruct (getattr cls "VERSION" st) as [[self_version|e] st1] eqn:Hg.
  2: { intros [= -> <-]. now apply getattr_frame in Hg as [_ [m [=]]]. }
  apply getattr_frame in Hg as [(Hv & Ha & _ & Ht) _].
  destruct (py_ne version self_version).
  - intros [= <-]. now repeat split.
  - unfold mbind at 1, M_bind at 1. rewrite get_keys_and_params_spec.
    unfold mbind at 1, M_bind at 1.
    match goal with |- context [for_each d' ?b st1] =>
      destruct (for_each d' b st1) as [[[]|e] st2] eqn:Hf end.
    + destruct (update_pidgets_spec st2) as (st3 & -> & _). discriminate.
    + intros [= -> <-]. exfalso.
      assert (Hl : load_error version_mismatch = true); [|discriminate].
      eapply (for_each_Raise _ (fun e => load_error e = true)); [|exact Hf].
      intros [k v] sa e1 sb _. cbn.
      destruct (dict_get _ k) as [[i p]|].
      * intros Hl. eapply load_Raise, Hl.
      * intros [= <- _]. reflexivity.
Qed.
End ConfigFrames.

(** ** C2: the error of a version mismatch *)

Section VersionMismatch.
Context `{Builtins}.

(** C2, as amended.  When the VERSION tag of the loaded document (None
    when it has none) differs from the VERSION of the object, [_loads]
    raises a ValueError: the exception class of the validation errors,
    with the message "Configuration version mismatch", which no
    validation error carries. *)
Theorem version_mismatch_raises cls s d version d' self_version st st' :
  of_json s = VDict d ->
  dict_pop d "VERSION" VNone = (version, d') ->
  getattr cls "VERSION" st = (Ok self_version, st') ->
  py_ne version self_version = true ->
  _loads cls s st = (Raise (ValueError "Configuration version mismatch"), st') /\
  (forall p v msg,
     sanitize p v = Raise (ValueError msg) ->
     msg <> "Configuration version mismatch").
Proof.
  intros Hj Hp Hg Hne. split; [|apply sanitize_message].
  unfold _loads. rewrite Hj, Hp.
  unfold mbind at 1, M_bind at 1. rewrite Hg, Hne. reflexivity.
Qed.
End VersionMismatch.

Section VersionMismatchExamples.
#[local] Existing Instance Reference.builtins.

Lemma version_mismatch_raises_witness :
  _loads Demo.cls Demo.old_document Demo.fresh
    = (Raise (ValueError "Configuration version mismatch"), Demo.fresh) /\
  (forall p v msg,
     sanitize p v = Raise (ValueError msg) ->
     msg <> "Configuration version mismatch").
Proof.
  apply (version_mismatch_raises Demo.cls Demo.old_document
           [("gain", VFloat 0.75); ("VERSION", VInt 1)] (VInt 1)
           [("gain", VFloat 0.75)] (VInt 2) Demo.fresh Demo.fresh);
    reflexivity.
Defined.

(** C2, as stated, fails: the error of a version mismatch is a ValueError,
    as is the error of an out-of-range value. *)
Lemma version_mismatch_is_ValueError :
  exists e e',
    fst (_loads Demo.cls Demo.old_document Demo.fresh) = Raise e /\
    fst (__set__ 2 Demo.bin_count (VInt 0) Demo.fresh) = Raise e' /\
    is_ValueError e = true /\ is_ValueError e' = true.
Proof.
  exists (ValueError "Configuration version mismatch"),
         (ValueError "Given value is too low").
  repeat split; vm_compute; reflexivity.
Qed.

Lemma version_mismatch_loads_nothing_witness :
  let st := snd (__set__ 3 Demo.gain (VFloat 0.25) Demo.fresh) in
  values st !! 3%nat = Some (VFloat 0.25) /\
  values (snd (_loads Demo.cls Demo.old_document st)) = values st /\
  attrs (snd (_loads Demo.cls Demo.old_document st)) = attrs st /\
  trace (snd (_loads Demo.cls Demo.old_document st)) = trace st.
Proof.
  intros st. split; [vm_compute; reflexivity|].
  apply (version_mismatch_loads_nothing Demo.cls Demo.old_document st).
  vm_compute. reflexivity.
Defined.
End VersionMismatchExamples.

(** ** C7: change notification *)

Section Notification.
Context `{Builtins}.
Variable cls : config_class.

Lemma call_all ids st :
  for_each (map VCallable ids) call st
  = (Ok tt, {| values := values st; instances := instances st;
               pidgets := pidgets st; attrs := attrs st;
               trace := trace st ++ map (fun h => Notified h (values st)) ids |}).
Proof.
  revert st. induction ids as [|h ids IH]; intros st; cbn [map for_each].
  - cbn. rewrite app_nil_r. now destruct st.
  - unfold mbind at 1, M_bind at 1.
    change (call (VCallable h) st) with (Ok tt, emit (Notified h (values st)) st).
    cbv beta iota. rewrite IH. cbn. now rewrite <- app_assoc.
Qed.

Lemma getattr_plain name v st :
  (forall j q, type_getattr cls name <> Some (MParam j q)) ->
  attrs st !! name = Some v ->
  getattr cls name st = (Ok v, st).
Proof.
  intros Hn Ha. unfold getattr.
  destruct (type_getattr cls name) as [[j q|w]|]; [now destruct (Hn j q)| |];
    unfold mbind, M_bind, get_state; now rewrite Ha.
Qed.

(** C7.  For a value parameter, [pidget_event_handler] first sanitizes
    and stores the value and then calls every handler in the set
    [_event_handlers] of the object, each of which finds the new value
    there; when the sanitizer raises, the exception comes out, no handler
    has been called and nothing has changed. *)
Theorem change_notification i p v st :
  is_ValueParameter p = true ->
  (forall v' ids,
     sanitize p v = Ok v' ->
     (forall j q, type_getattr cls "_event_handlers" <> Some (MParam j q)) ->
     attrs st !! "_event_handlers" = Some (VSet (map VCallable ids)) ->
     pidget_event_handler cls i p v st = (Ok tt, notified i v' ids st)) /\
  (forall e,
     sanitize p v = Raise e ->
     pidget_event_handler cls i p v st = (Raise e, st)).
Proof.
  intros Hvp. unfold pidget_event_handler. rewrite Hvp.
  unfold mbind, M_bind. rewrite (set_spec i p v st Hvp).
  split.
  - intros v' ids -> Hn Ha.
    unfold _parameter_event_handler. unfold mbind at 1, M_bind at 1.
    rewrite (getattr_plain "_event_handlers" (VSet (map VCallable ids)))
      by assumption.
    unfold mbind at 1, M_bind at 1. cbn [lift py_list].
    now rewrite call_all.
  - now intros e ->.
Qed.
End Notification.

Section NotificationExamples.
#[local] Existing Instance Reference.builtins.

Lemma change_notification_witness :
  pidget_event_handler Demo.cls 2 Demo.bin_count (VStr "12") Demo.listening
    = (Ok tt, notified 2 (VInt 12) [1; 2]%nat Demo.listening) /\
  pidget_event_handler Demo.cls 2 Demo.bin_count (VInt 0) Demo.listening
    = (Raise (ValueError "Given value is too low"), Demo.listening).
Proof.
  split.
  - apply (change_notification Demo.cls 2 Demo.bin_count (VStr "12")
             Demo.listening eq_refl).
    + reflexivity.
    + vm_compute. discriminate.
    + vm_compute. reflexivity.
  - apply (change_notification Demo.cls 2 Demo.bin_count (VInt 0)
             Demo.listening eq_refl).
    reflexivity.
Defined.
End NotificationExamples.

(** ** C10: assignment creates no attribute *)

Section Setattr.
Context `{Builtins}.
Variable cls : config_class.

Lemma setattr_cases name v st :
  __setattr__ cls name v st =
    match type_getattr cls name with
    | Some (MParam i p) => __set__ i p v (snd (__get__ i p st))
    | Some (MPlain _) => (Ok tt, set_attrs (fun d => <[name := v]> d) st)
    | None =>
        match attrs st !! name with
        | Some _ => (Ok tt, set_attrs (fun d => <[name := v]> d) st)
        | None => (Raise (AttributeError (no_attribute cls name)), st)
        end
    end.
Proof.
  unfold __setattr__, hasattr, object_setattr, getattr.
  unfold mbind at 1, M_bind at 1.
  destruct (type_getattr cls name) as [[i p|w]|].
  - destruct (__get__ i p st) as [r st1] eqn:Hg.
    destruct (get_frame i p st r st1 Hg) as [_ [w ->]]. reflexivity.
  - unfold mbind, M_bind, get_state. now destruct (attrs st !! name).
  - unfold mbind, M_bind, get_state. now destruct (attrs st !! name).
Qed.

Lemma set_attrs_unchanged i p v st r st' :
  __set__ i p v st = (r, st') -> attrs st' = attrs st.
Proof.
  unfold __set__.
  destruct (param_kind p); try (intros [= <- <-]; reflexivity);
    rewrite ValueParameter_set_spec; destruct (sanitize p v);
    intros [= <- <-]; reflexivity.
Qed.

Lemma setattr_attributes name v st r st' :
  __setattr__ cls name v st = (r, st') ->
  forall n, has_attribute cls st' n <-> has_attribute cls st n.
Proof.
  rewrite setattr_cases. unfold has_attribute.
  destruct (type_getattr cls name) as [[i p|w]|] eqn:Ht.
  - destruct (__get__ i p st) as [r1 st1] eqn:Hg.
    destruct (get_frame i p st r1 st1 Hg) as [(_ & Ha & _) _].
    intros Hs%set_attrs_unchanged n. cbn in Hs. now rewrite Hs, Ha.
  - intros [= <- <-] n. cbn. destruct (decide (n = name)) as [->|Hn].
    + rewrite Ht. split; intros _; left; eauto.
    + now rewrite lookup_insert_ne.
  - destruct (attrs st !! name) as [w|] eqn:Ha; intros [= <- <-] n; [|reflexivity].
    cbn. destruct (decide (n = name)) as [->|Hn].
    + rewrite lookup_insert_eq, Ha. split; intros _; right; eauto.
    + now rewrite lookup_insert_ne.
Qed.

(** C10.  Assigning to a name that is no attribute of the object (neither
    of its class nor in its dictionary) raises an AttributeError and
    changes nothing; an assignment that succeeds is to a name the object
    already has; and no assignment, successful or not, and no sequence of
    assignments, changes which names are attributes of the object. *)
Theorem setattr_creates_no_attribute name v st :
  (~ has_attribute cls st name ->
     __setattr__ cls name v st
       = (Raise (AttributeError (no_attribute cls name)), st)) /\
  (forall st', __setattr__ cls name v st = (Ok tt, st') ->
     has_attribute cls st name) /\
  (forall l n, has_attribute cls (assignments cls l st) n <-> has_attribute cls st n).
Proof.
  split; [|split].
  - intros Hn. rewrite setattr_cases. unfold has_attribute in Hn.
    destruct (type_getattr cls name); [destruct Hn; left; eauto|].
    destruct (attrs st !! name); [destruct Hn; right; eauto|reflexivity].
  - intros st'. rewrite setattr_cases. unfold has_attribute.
    destruct (type_getattr cls name); [left; eauto|].
    destruct (attrs st !! name); [right; eauto|discriminate].
  - intros l. revert st. unfold assignments.
    induction l as [|[k w] l IH]; intros st0 n; cbn; [reflexivity|].
    rewrite IH.
    destruct (__setattr__ cls k w st0) as [r st1] eqn:Hs.
    apply (setattr_attributes k w st0 r st1 Hs).
Qed.
End Setattr.

Section SetattrExamples.
#[local] Existing Instance Reference.builtins.

Lemma setattr_creates_no_attribute_witness :
  __setattr__ Demo.cls "sweep_rate" (VInt 30) Demo.fresh
    = (Raise (AttributeError "'DemoConfig' object has no attribute 'sweep_rate'"),
       Demo.fresh) /\
  has_attribute Demo.cls Demo.fresh "gain".
Proof.
  split.
  - apply (setattr_creates_no_attribute Demo.cls "sweep_rate" (VInt 30) Demo.fresh).
    intros [[m Hm]|[w Hw]]; [vm_compute in Hm|vm_compute in Hw]; discriminate.
  - apply (proj1 (proj2 (setattr_creates_no_attribute Demo.cls "gain"
                           (VFloat 0.5) Demo.fresh))
             (set_values (fun d => <[3%nat := VFloat 0.5]> d) Demo.fresh)).
    vm_compute. reflexivity.
Defined.
End SetattrExamples.

(** ** Sorting, dictionaries and the parameters of a class *)

Section SortingFacts.
Context {A : Type} (leb : A -> A -> bool).

Lemma insert_sorted_Permutation x l : insert_sorted leb x l ≡ₚ x :: l.
Proof.
  induction l as [|y l IH]; cbn; [reflexivity|].
  destruct (leb x y); [reflexivity|].
  rewrite IH. apply Permutation_swap.
Qed.

Lemma sorted_Permutation l : sorted leb l ≡ₚ l.
Proof.
  induction l as [|x l IH]; cbn; [reflexivity|].
  now rewrite insert_sorted_Permutation, IH.
Qed.
End SortingFacts.

Section DictFacts.
Context {V : Type}.
Implicit Types d : list (string * V).

Lemma dict_get_elem d k v : dict_get d k = Some v -> (k, v) ∈ d.
Proof.
  induction d as [|[k' v'] d IH]; cbn; [discriminate|].
  destruct (String.eqb_spec k' k) as [->|Hne].
  - intros [= ->]. left.
  - intros Hg. right. auto.
Qed.

Lemma dict_get_None d k : dict_get d k = None <-> k ∉ map fst d.
Proof.
  induction d as [|[k' v'] d IH]; cbn.
  - split; [intros _; apply not_elem_of_nil|reflexivity].
  - rewrite not_elem_of_cons. destruct (String.eqb_spec k' k) as [->|Hne].
    + split; [discriminate|]. now intros [? _].
    + rewrite IH. split; [now split|now intros [_ ?]].
Qed.

Lemma dict_get_NoDup d k v :
  NoDup (map fst d) -> (k, v) ∈ d -> dict_get d k = Some v.
Proof.
  induction d as [|[k' v'] d IH]; cbn; [intros _ []%elem_of_nil|].
  intros [Hk Hd]%NoDup_cons [[= <- <-]|Hin]%elem_of_cons.
  - now rewrite String.eqb_refl.
  - destruct (String.eqb_spec k' k) as [->|Hne]; [|auto].
    destruct Hk. apply list_elem_of_In, in_map_iff. exists (k, v).
    split; [reflexivity|]. now apply list_elem_of_In.
Qed.

Lemma dict_set_keys d k v k' :
  k' ∈ map fst (dict_set d k v) <-> k' ∈ map fst d \/ k' = k.
Proof.
  induction d as [|[k0 v0] d IH]; cbn.
  - rewrite list_elem_of_singleton. split; [auto|]. now intros [[]%elem_of_nil|].
  - destruct (String.eqb_spec k0 k) as [->|Hne]; cbn.
    + rewrite elem_of_cons. naive_solver.
    + rewrite !elem_of_cons, IH. naive_solver.
Qed.

Lemma dict_set_NoDup d k v : NoDup (map fst d) -> NoDup (map fst (dict_set d k v)).
Proof.
  induction d as [|[k0 v0] d IH]; cbn.
  - intros _. apply NoDup_singleton.
  - intros [Hk Hd]%NoDup_cons.
    destruct (String.eqb_spec k0 k) as [->|Hne]; cbn.
    + now apply NoDup_cons.
    + apply NoDup_cons. split; [|auto].
      rewrite dict_set_keys. intros [?|?]; [auto|congruence].
Qed.

Lemma dict_get_set d k v k' :
  dict_get (dict_set d k v) k' = if String.eqb k k' then Some v else dict_get d k'.
Proof.
  induction d as [|[k0 v0] d IH]; cbn.
  - reflexivity.
  - destruct (String.eqb_spec k0 k) as [->|Hne]; cbn.
    + now destruct (String.eqb_spec k k').
    + rewrite IH. destruct (String.eqb_spec k0 k') as [->|Hne'];
        [|reflexivity].
      destruct (String.eqb_spec k k'); [congruence|reflexivity].
Qed.
End DictFacts.

Section ClassFacts.
Variable cls : config_class.

Lemma keys_and_params_elem st k i p :
  (k, (i, p)) ∈ keys_and_params cls st <-> type_getattr cls k = Some (MParam i p).
Proof.
  unfold keys_and_params. rewrite sorted_Permutation, list_elem_of_omap.
  split.
  - intros (k' & _ & Hk').
    destruct (type_getattr cls k') as [[j q|]|] eqn:Ht; simplify_eq. exact Ht.
  - intros Ht. exists k. rewrite Ht. split; [|reflexivity].
    unfold dir. rewrite sorted_Permutation, elem_of_elements, elem_of_union.
    left. apply elem_of_dom. unfold type_getattr in Ht.
    destruct (namespace cls !! k); [eauto|discriminate].
Qed.

Lemma keys_and_params_NoDup st : NoDup (map fst (keys_and_params cls st)).
Proof.
  unfold keys_and_params.
  eapply NoDup_Permutation_proper.
  { apply (Permutation_map fst), sorted_Permutation. }
  assert (Hd : NoDup (dir cls st)).
  { unfold dir. eapply NoDup_Permutation_proper;
      [apply sorted_Permutation|apply NoDup_elements]. }
  induction Hd as [|k l Hk Hl IH]; cbn; [constructor|].
  destruct (type_getattr cls k) as [[j q|]|]; cbn; [|exact IH..].
  apply NoDup_cons. split; [|exact IH].
  intros Hin. apply Hk.
  apply list_elem_of_In, in_map_iff in Hin as ([k' [j' q']] & Hf & Hin).
  cbn in Hf. subst k'.
  apply list_elem_of_In, list_elem_of_omap in Hin as (k' & Hin & Hk').
  destruct (type_getattr cls k') as [[? ?|]|]; simplify_eq. exact Hin.
Qed.

Lemma keys_and_params_get st k i p :
  type_getattr cls k = Some (MParam i p) ->
  dict_get (keys_and_params cls st) k = Some (i, p).
Proof.
  intros Ht. apply dict_get_NoDup; [apply keys_and_params_NoDup|].
  now apply keys_and_params_elem.
Qed.
End ClassFacts.

(** ** C3: the keys of a dump *)

Section Dumps.
Context `{Builtins}.
Variable cls : config_class.

Lemma ValueParameter_get_spec i p st :
  ValueParameter_get i p st = (Ok (current i p st), st).
Proof. reflexivity. Qed.

Lemma dump_spec i p st : dump i p st = (dumped p (current i p st), st).
Proof.
  unfold dump, dumped, __get__.
  destruct (param_kind p); try reflexivity;
    unfold mbind at 1, M_bind at 1; rewrite ValueParameter_get_spec.
  - now destruct (current i p st).
  - unfold mbind, M_bind, lift. cbn. now destruct (py_list (current i p st)).
Qed.

Lemma dump_all_spec params d st :
  dump_all params d st = (dumped_all params d st, st).
Proof.
  revert d. induction params as [|[k [i p]] params IH]; intros d; cbn;
    [reflexivity|].
  destruct (does_dump p); [|apply IH].
  unfold mbind at 1, M_bind at 1. rewrite dump_spec.
  destruct (dumped p (current i p st)); cbn; [apply IH|reflexivity].
Qed.

Lemma dumped_all_keys params d st d' :
  dumped_all params d st = Ok d' ->
  NoDup (map fst d) ->
  NoDup (map fst d') /\
  forall k, k ∈ map fst d' <->
    k ∈ map fst d \/ exists i p, (k, (i, p)) ∈ params /\ does_dump p = true.
Proof.
  revert d. induction params as [|[k0 [i0 p0]] params IH]; intros d; cbn.
  - intros [= <-] Hd. split; [exact Hd|]. intros k. split; [auto|].
    intros [?|(i & p & Hin & _)]; [assumption|]. now apply elem_of_nil in Hin.
  - destruct (does_dump p0) eqn:Hdd.
    + destruct (dumped p0 (current i0 p0 st)) as [v|]; cbn; [|discriminate].
      intros Hr Hd.
      destruct (IH _ Hr (dict_set_NoDup d k0 v Hd)) as [Hn Hk].
      split; [exact Hn|]. intros k. rewrite Hk, dict_set_keys.
      split.
      * intros [[?| ->]|(i & p & Hin & Hp)]; [auto| |].
        -- right. exists i0, p0. split; [left|exact Hdd].
        -- right. exists i, p. split; [now right|exact Hp].
      * intros [?|(i & p & Hin & Hp)]; [auto|].
        apply elem_of_cons in Hin as [[= -> -> ->]|Hin]; [auto|].
        right. eauto.
    + intros Hr Hd. destruct (IH _ Hr Hd) as [Hn Hk].
      split; [exact Hn|]. intros k. rewrite Hk. split.
      * intros [?|(i & p & Hin & Hp)]; [auto|].
        right. exists i, p. split; [now right|exact Hp].
      * intros [?|(i & p & Hin & Hp)]; [auto|].
        apply elem_of_cons in Hin as [[= -> -> ->]|Hin]; [congruence|].
        right. eauto.
Qed.

Lemma dumped_all_Ok params d st :
  (forall k i p, (k, (i, p)) ∈ params -> does_dump p = true ->
     exists v, dumped p (current i p st) = Ok v) ->
  exists d', dumped_all params d st = Ok d'.
Proof.
  revert d. induction params as [|[k0 [i0 p0]] params IH]; intros d Hp; cbn;
    [eauto|].
  assert (Hp' : forall k i p, (k, (i, p)) ∈ params -> does_dump p = true ->
                exists v, dumped p (current i p st) = Ok v)
    by (intros k i p Hin; apply (Hp k), elem_of_cons; now right).
  destruct (does_dump p0) eqn:Hdd; [|now apply IH].
  destruct (Hp k0 i0 p0) as [v ->]; [left|exact Hdd|]. cbn. now apply IH.
Qed.

Lemma dumped_all_values params d st d' k v :
  dumped_all params d st = Ok d' ->
  dict_get d' k = Some v ->
  dict_get d k = Some v \/
  exists i p, (k, (i, p)) ∈ params /\ does_dump p = true /\
              dumped p (current i p st) = Ok v.
Proof.
  revert d. induction params as [|[k0 [i0 p0]] params IH]; intros d; cbn.
  - intros [= <-]. auto.
  - destruct (does_dump p0) eqn:Hdd.
    + destruct (dumped p0 (current i0 p0 st)) as [v0|] eqn:Hv0; cbn;
        [|discriminate].
      intros Hr Hg. destruct (IH _ Hr Hg) as [Hs|(i & p & Hin & Hp & Hv)].
      * rewrite dict_get_set in Hs.
        destruct (String.eqb_spec k0 k) as [->|Hne]; [|auto].
        simplify_eq. right. exists i0, p0. split; [left|auto].
      * right. exists i, p. split; [now right|auto].
    + intros Hr Hg. destruct (IH _ Hr Hg) as [Hs|(i & p & Hin & Hp & Hv)];
        [auto|].
      right. exists i, p. split; [now right|auto].
Qed.

Lemma to_json_VDict d :
  to_json (VDict d) = to_json_fields d ≫= fun js => Ok (JObj js).
Proof.
  reflexivity.
Qed.

Lemma to_json_VList l :
  to_json (VList l) = to_json_items l ≫= fun js => Ok (JArr js).
Proof.
  reflexivity.
Qed.

Lemma to_json_fields_keys d js :
  to_json_fields d = Ok js ->
  map fst js = map fst d /\
  forall k v, dict_get d k = Some v ->
    exists j, to_json v = Ok j /\ dict_get js k = Some j.
Proof.
  revert js. induction d as [|[k x] d IH]; intros js; cbn.
  - intros [= <-]. split; [reflexivity|discriminate].
  - destruct (to_json x) as [j|] eqn:Hx; cbn; [|discriminate].
    destruct (to_json_fields d) as [js'|]; cbn; [|discriminate].
    intros [= <-]. destruct (IH js' eq_refl) as [Hk Hv].
    cbn. split; [now rewrite Hk|]. intros k' v.
    destruct (String.eqb k k'); [intros [= <-]; eauto|apply Hv].
Qed.

Lemma to_json_fields_Ok d :
  (forall k v, (k, v) ∈ d -> exists j, to_json v = Ok j) ->
  exists js, to_json_fields d = Ok js.
Proof.
  induction d as [|[k x] d IH]; cbn; [eauto|]. intros Hd.
  destruct (Hd k x) as [j ->]; [left|]. cbn.
  destruct IH as [js ->]; [|cbn; eauto].
  intros k' v Hin. apply (Hd k'). now right.
Qed.
End Dumps.

Section DumpsKeys.
Context `{Builtins}.
Variable cls : config_class.

Lemma dumps_spec st :
  _dumps cls st =
    match dumped_all (keys_and_params cls st) [] st with
    | Ok d =>
        match getattr cls "VERSION" st with
        | (Ok version, st') =>
            (to_json (VDict (if negb (is_None version)
                             then dict_set d "VERSION" version else d)), st')
        | (Raise e, st') => (Raise e, st')
        end
    | Raise e => (Raise e, st)
    end.
Proof.
  unfold _dumps. unfold mbind at 1, M_bind at 1.
  rewrite get_keys_and_params_spec.
  unfold mbind at 1, M_bind at 1. rewrite dump_all_spec.
  destruct (dumped_all (keys_and_params cls st) [] st) as [d|e]; [|reflexivity].
  unfold mbind at 1, M_bind at 1.
  destruct (getattr cls "VERSION" st) as [[version|e] st']; reflexivity.
Qed.

Lemma dumping_params st k :
  dumping cls k <->
  exists i p, (k, (i, p)) ∈ keys_and_params cls st /\ does_dump p = true.
Proof.
  unfold dumping. split; intros (i & p & Hk & Hp); exists i, p.
  - split; [now apply (proj2 (keys_and_params_elem cls st k i p))|exact Hp].
  - split; [now apply (proj1 (keys_and_params_elem cls st k i p))|exact Hp].
Qed.

(** C3.  When [_dumps] returns, the document is a JSON object without
    repeated keys; its keys are exactly the names of the parameters of
    the class that have [does_dump] set, and "VERSION" when the VERSION of
    the object is not None, in which case this key holds the VERSION.
    And [_dumps] does return when every dumping parameter can be dumped
    to a value that JSON can represent, and so can VERSION. *)
Theorem dumps_keys st :
  (forall s st', _dumps cls st = (Ok s, st') ->
     exists d version,
       s = JObj d /\ NoDup (map fst d) /\
       getattr cls "VERSION" st = (Ok version, st') /\
       (forall k, k ∈ map fst d <->
          dumping cls k \/ (k = "VERSION" /\ version <> VNone)) /\
       (version <> VNone ->
          exists j, to_json version = Ok j /\ dict_get d "VERSION" = Some j)) /\
  ((forall k i p,
      type_getattr cls k = Some (MParam i p) -> does_dump p = true ->
      exists v j, dumped p (current i p st) = Ok v /\ to_json v = Ok j) ->
   forall version st',
     getattr cls "VERSION" st = (Ok version, st') ->
     (exists j, to_json version = Ok j) ->
     exists s, _dumps cls st = (Ok s, st')).
Proof.
  split.
  - intros s st'. rewrite dumps_spec.
    destruct (dumped_all (keys_and_params cls st) [] st) as [d|e] eqn:Hd;
      [|discriminate].
    destruct (dumped_all_keys _ _ _ _ Hd (NoDup_nil_2)) as [Hn Hk].
    destruct (getattr cls "VERSION" st) as [[version|e] st1]; [|discriminate].
    rewrite to_json_VDict. intros [= Hj <-].
    set (d1 := if negb (is_None version) then dict_set d "VERSION" version else d) in *.
    destruct (to_json_fields d1) as [js|] eqn:Hjs; [|discriminate].
    cbn in Hj. injection Hj as <-.
    destruct (to_json_fields_keys d1 js Hjs) as [Hkeys Hvals].
    exists js, version. split; [reflexivity|]. rewrite Hkeys.
    assert (Hv : version = VNone /\ d1 = d \/
                 version <> VNone /\ d1 = dict_set d "VERSION" version).
    { subst d1. destruct version; cbn;
        [left; split; reflexivity|right; split; [discriminate|reflexivity]..]. }
    split; [|split; [reflexivity|split]].
    + destruct Hv as [[_ ->]|[_ ->]]; [exact Hn|now apply dict_set_NoDup].
    + intros k. rewrite (dumping_params st).
      destruct Hv as [[-> ->]|[Hne ->]].
      * rewrite Hk. split; [intros [[]%elem_of_nil|?]; auto|].
        intros [?|[_ []]]; auto.
      * rewrite dict_set_keys, Hk. split.
        -- intros [[[]%elem_of_nil|?]| ->]; auto.
        -- intros [?|[-> _]]; auto.
    + intros Hne. destruct Hv as [[-> _]|[_ Hd1]]; [now destruct Hne|].
      apply (Hvals "VERSION" version). rewrite Hd1, dict_get_set.
      now rewrite String.eqb_refl.
  - intros Hp version st' Hg [jv Hjv]. rewrite dumps_spec, Hg.
    destruct (dumped_all_Ok (keys_and_params cls st) [] st) as [d Hd].
    { intros k i p Hin%keys_and_params_elem Hdd.
      destruct (Hp k i p Hin Hdd) as (v & _ & Hv & _). eauto. }
    rewrite Hd, to_json_VDict.
    set (d1 := if negb (is_None version) then dict_set d "VERSION" version else d).
    destruct (to_json_fields_Ok d1) as [js ->]; [|cbn; eauto].
    intros k v Hin.
    assert (Hin' : (k, v) ∈ d \/ v = version).
    { subst d1. destruct (negb (is_None version)); [|auto].
      clear -Hin. induction d as [|[k0 v0] d IH]; cbn in Hin.
      - apply list_elem_of_singleton in Hin as [= _ ->]. auto.
      - destruct (String.eqb k0 "VERSION").
        + apply elem_of_cons in Hin as [[= _ ->]|Hin]; [auto|].
          left. now right.
        + apply elem_of_cons in Hin as [->|Hin]; [left; left|].
          destruct (IH Hin); [left; now right|auto]. }
    destruct Hin' as [Hin'| ->]; [|eauto].
    assert (Hg' : exists k', dict_get d k' = Some v).
    { clear -Hin' Hd.
      assert (Hnd : NoDup (map fst d))
        by (apply (dumped_all_keys _ _ _ _ Hd), NoDup_nil_2).
      exists k. now apply dict_get_NoDup. }
    destruct Hg' as [k' Hg'].
    destruct (dumped_all_values _ _ _ _ _ _ Hd Hg')
      as [?|(i & p & Hin2%keys_and_params_elem & Hdd & Hv)]; [discriminate|].
    destruct (Hp k' i p Hin2 Hdd) as (v' & j & Hv' & Hj).
    rewrite Hv in Hv'. injection Hv' as <-. eauto.
Qed.
End DumpsKeys.

Section DumpsKeysExamples.
#[local] Existing Instance Reference.builtins.

Lemma dumps_keys_witness :
  exists d,
    _dumps Demo.cls Demo.fresh = (Ok (JObj d), Demo.fresh) /\
    map fst d = ["sensor"; "range_interval"; "bin_count"; "gain"; "mode";
                 "enabled"; "downsampling"; "VERSION"] /\
    forall k, k ∈ map fst d <->
      dumping Demo.cls k \/ (k = "VERSION" /\ VInt 2 <> VNone).
Proof.
  destruct (proj1 (dumps_keys Demo.cls Demo.fresh)
              (JObj [("sensor", JArr [JInt 1]);
                     ("range_interval", JArr [JFloat 0.18; JFloat 0.78]);
                     ("bin_count", JInt 5); ("gain", JFloat 0.5);
                     ("mode", JStr "A"); ("enabled", JBool true);
                     ("downsampling", JNull); ("VERSION", JInt 2)])
              Demo.fresh ltac:(vm_compute; reflexivity))
    as (d & version & Hs & _ & Hv & Hk & _).
  exists d. injection Hs as <-.
  assert (version = VInt 2) as -> by (vm_compute in Hv; congruence).
  split; [vm_compute; reflexivity|]. split; [reflexivity|exact Hk].
Defined.
End DumpsKeysExamples.

(** ** C4: a dump followed by a load *)

Section Reload.
Context `{Builtins}.

Lemma load_spec i p x st :
  load i p x st =
    match loaded p x with
    | Ok v => (Ok tt, set_values (fun d => <[i := v]> d) st)
    | Raise e => (Raise e, st)
    end.
Proof.
  unfold load, loaded.
  destruct (param_kind p) eqn:Hk; try reflexivity;
    try (apply set_spec; unfold is_ValueParameter; now rewrite Hk).
  unfold mbind at 1, M_bind at 1, lift.
  destruct (enum_getitem (enum p) x) as [m|e]; [|reflexivity].
  cbn. apply set_spec. unfold is_ValueParameter. now rewrite Hk.
Qed.

Lemma json_native_roundtrip :
  forall v, json_native v = true -> exists j, to_json v = Ok j /\ of_json j = v.
Proof.
  fix IH 1. intros [ | b | z | f | s | c n | l | l | d | l | l | i | i ];
    try discriminate; try (intros _; eexists; split; reflexivity).
  intros Hl. cbn in Hl.
  assert (Hitems : exists js, to_json_items l = Ok js /\ map of_json js = l).
  { induction l as [|x l IHl]; [exists []; split; reflexivity|].
    cbn in Hl. apply andb_true_iff in Hl as [Hx Hl].
    destruct (IH x Hx) as (j & Hj & Hjx).
    destruct (IHl Hl) as (js & Hjs & Hjl).
    exists (j :: js). cbn. rewrite Hj. cbn. rewrite Hjs. cbn.
    split; [reflexivity|]. now rewrite Hjx, Hjl. }
  destruct Hitems as (js & Hjs & Hjl).
  exists (JArr js). rewrite to_json_VList, Hjs. cbn. split; [reflexivity|].
  now rewrite Hjl.
Qed.

Lemma int_list_native l : forallb is_int l = true -> json_native (VList l) = true.
Proof.
  cbn. induction l as [|x l IH]; cbn; [reflexivity|].
  intros [Hx Hl]%andb_true_iff. rewrite (IH Hl), andb_true_r.
  now destruct x.
Qed.

Lemma IntParameter_sanitize_inv p raw v :
  IntParameter_sanitize p raw = Ok v ->
  exists z, v = VInt z /\ check_limits p (NInt z) = Ok tt.
Proof.
  unfold IntParameter_sanitize. case_match; [discriminate|].
  destruct (except_ValueError (py_int raw) "Not a valid integer") as [z|];
    cbn; [|discriminate].
  destruct (check_limits p (NInt z)) as [[]|] eqn:Hc; cbn; [|discriminate].
  intros [= <-]. eauto.
Qed.

Lemma FloatParameter_sanitize_inv p raw f :
  FloatParameter_sanitize p raw = Ok f -> check_limits p (NFloat f) = Ok tt.
Proof.
  unfold FloatParameter_sanitize.
  destruct (except_ValueError (py_float raw) "Not a valid number") as [f0|];
    cbn; [|discriminate].
  destruct (py_round f0 (decimals p)) as [r|]; cbn; [|discriminate].
  destruct (check_limits p (NFloat r)) as [[]|] eqn:Hc; cbn; [|discriminate].
  now intros [= <-].
Qed.

Lemma FloatParameter_sanitize_stable p f :
  round_stable p f -> check_limits p (NFloat f) = Ok tt ->
  FloatParameter_sanitize p (VFloat f) = Ok f.
Proof.
  intros Hr Hc. unfold FloatParameter_sanitize, py_round. cbn.
  rewrite Hr. cbn. now rewrite Hc.
Qed.

Lemma FloatRangeParameter_sanitize_inv p raw v :
  FloatRangeParameter_sanitize p raw = Ok v ->
  exists f0 f1, v = VArray [f0; f1] /\
    check_limits p (NFloat f0) = Ok tt /\ check_limits p (NFloat f1) = Ok tt /\
    num_gt (NFloat f0) (NFloat f1) = false.
Proof.
  unfold FloatRangeParameter_sanitize.
  destruct (except_ValueError_TypeError (py_list raw) "Not a valid range")
    as [[|v0 [|v1 [|v2 l]]]|]; cbn; try discriminate.
  destruct (FloatParameter_sanitize p v0) as [f0|] eqn:H0; cbn; [|discriminate].
  destruct (FloatParameter_sanitize p v1) as [f1|] eqn:H1; cbn; [|discriminate].
  destruct (num_gt (NFloat f0) (NFloat f1)) eqn:Hgt; [discriminate|].
  intros [= <-]. exists f0, f1.
  split; [reflexivity|]. split; [eapply FloatParameter_sanitize_inv, H0|].
  split; [eapply FloatParameter_sanitize_inv, H1|exact Hgt].
Qed.

Lemma SensorParameter_sanitize_inv raw v :
  SensorParameter_sanitize raw = Ok v ->
  exists l, v = VList l /\ forallb is_int l = true.
Proof.
  unfold SensorParameter_sanitize. destruct (is_int raw) eqn:Hi.
  - intros [= <-]. exists [raw]. cbn. now rewrite Hi.
  - destruct raw; try discriminate.
    destruct (forallb is_int l) eqn:Hl; [|discriminate].
    intros [= <-]. eauto.
Qed.

(** What a parameter dumps, [load] restores. *)
Lemma reload p v w j :
  kept p v -> restorable p v ->
  dumped p v = Ok w -> to_json w = Ok j ->
  loaded p (of_json j) = Ok v.
Proof.
  intros Hkept Hres Hw Hj. pose proof Hkept as Hraw.
  unfold kept, sanitize in Hraw.
  unfold dumped in Hw. unfold loaded. unfold restorable in Hres.
  destruct (param_kind p) eqn:Hk; try discriminate.
  - (* ValueParameter *)
    injection Hw as <-. now rewrite (Hres j Hj).
  - (* BoolParameter *)
    injection Hw as <-.
    assert (of_json j = v) as ->; [|exact Hkept].
    destruct (is_optional p && is_None v) eqn:Ho; cbn in Hraw.
    + apply andb_true_iff in Ho as [_ Hn].
      destruct v; try discriminate. now injection Hj as <-.
    + unfold _sanitize in Hraw. rewrite Hk in Hraw.
      destruct (py_bool v) as [b|]; [|discriminate].
      injection Hraw as Hv. rewrite <- Hv in Hj. injection Hj as <-.
      now rewrite <- Hv.
  - (* EnumParameter *)
    destruct v; try discriminate. injection Hw as <-. injection Hj as <-.
    destruct (Hres _ _ eq_refl) as [-> Hm].
    cbn. rewrite Hm. cbn. unfold sanitize, _sanitize.
    rewrite Hk, andb_false_r. reflexivity.
  - (* IntParameter *)
    injection Hw as <-.
    assert (of_json j = v) as ->; [|exact Hkept].
    destruct (is_optional p && is_None v) eqn:Ho; cbn in Hraw.
    + apply andb_true_iff in Ho as [_ Hn].
      destruct v; try discriminate. now injection Hj as <-.
    + unfold _sanitize in Hraw. rewrite Hk in Hraw.
      apply IntParameter_sanitize_inv in Hraw as (z & Hv & _).
      rewrite Hv in Hj. injection Hj as <-. now rewrite Hv.
  - (* FloatParameter *)
    injection Hw as <-.
    assert (of_json j = v) as ->; [|exact Hkept].
    destruct (is_optional p && is_None v) eqn:Ho; cbn in Hraw.
    + apply andb_true_iff in Ho as [_ Hn].
      destruct v; try discriminate. now injection Hj as <-.
    + unfold _sanitize in Hraw. rewrite Hk in Hraw.
      destruct (FloatParameter_sanitize p v) as [f|]; [|discriminate].
      injection Hraw as Hv. rewrite <- Hv in Hj. injection Hj as <-.
      now rewrite <- Hv.
  - (* FloatRangeParameter *)
    destruct (is_optional p && is_None v) eqn:Ho; cbn in Hraw.
    + apply andb_true_iff in Ho as [_ Hn]. destruct v; discriminate.
    + unfold _sanitize in Hraw. rewrite Hk in Hraw.
      apply FloatRangeParameter_sanitize_inv in Hraw
        as (f0 & f1 & Hv & _).
      rewrite Hv in Hw, Hkept |- *.
      cbn in Hw. injection Hw as <-. injection Hj as <-.
      transitivity (sanitize p (VArray [f0; f1])); [|exact Hkept].
      cbn [of_json map]. unfold sanitize, _sanitize. rewrite Hk.
      now destruct (is_optional p).
  - (* SensorParameter *)
    injection Hw as <-.
    assert (of_json j = v) as ->; [|exact Hkept].
    destruct (is_optional p && is_None v) eqn:Ho; cbn in Hraw.
    + apply andb_true_iff in Ho as [_ Hn].
      destruct v; try discriminate. now injection Hj as <-.
    + unfold _sanitize in Hraw. rewrite Hk in Hraw.
      apply SensorParameter_sanitize_inv in Hraw as (l & Hv & Hl).
      destruct (json_native_roundtrip (VList l) (int_list_native l Hl))
        as (j' & Hj' & Hjv).
      rewrite Hv in Hj. rewrite Hj in Hj'. injection Hj' as <-.
      now rewrite Hv.
Qed.
End Reload.

Section DictMore.
Context {V : Type}.
Implicit Types d : list (string * V).

Lemma dict_set_fresh d k v :
  k ∉ map fst d -> dict_set d k v = (d ++ [(k, v)])%list.
Proof.
  induction d as [|[k0 v0] d IH]; cbn; [reflexivity|].
  intros [Hne Hd]%not_elem_of_cons.
  destruct (String.eqb_spec k0 k); [congruence|]. now rewrite IH.
Qed.

Lemma dict_of_NoDup (l : list (string * V)) :
  NoDup (map fst l) -> dict_of l = l.
Proof.
  unfold dict_of.
  assert (Hgen : forall acc, NoDup (map fst (acc ++ l)%list) ->
    fold_left (fun d (kv : string * V) => dict_set d (fst kv) (snd kv)) l acc
    = (acc ++ l)%list).
  { induction l as [|[k v] l IH]; intros acc Hn; cbn.
    - now rewrite app_nil_r.
    - rewrite dict_set_fresh.
      + rewrite IH; rewrite <- app_assoc; [reflexivity|exact Hn].
      + rewrite map_app in Hn. apply NoDup_app in Hn as (_ & Hd & _).
        intros Hin. apply (Hd k Hin). left. }
  intros Hn. now rewrite (Hgen []).
Qed.

Lemma dict_del_elem d k0 k v :
  NoDup (map fst d) ->
  (k, v) ∈ dict_del d k0 <-> (k, v) ∈ d /\ k <> k0.
Proof.
  induction d as [|[k1 v1] d IH]; cbn.
  - intros _. rewrite elem_of_nil. tauto.
  - intros [Hk Hd]%NoDup_cons.
    destruct (String.eqb_spec k1 k0) as [->|Hne].
    + rewrite elem_of_cons. split.
      * intros Hin. split; [now right|]. intros ->. apply Hk.
        apply list_elem_of_In, in_map_iff. exists (k0, v).
        split; [reflexivity|now apply list_elem_of_In].
      * intros [[[= -> ->]|Hin] Hne]; [congruence|exact Hin].
    + rewrite !elem_of_cons, (IH Hd). split.
      * intros [[= -> ->]|[Hin Hn]]; [split; [now left|exact Hne]|].
        split; [now right|exact Hn].
      * intros [[[= -> ->]|Hin] Hn]; [now left|]. right. now split.
Qed.
End DictMore.

Section Documents.
Context `{Builtins}.

Lemma decode_fields_keys js : map fst (decode_fields js) = map fst js.
Proof.
  unfold decode_fields. induction js as [|[k x] js IH]; cbn; [reflexivity|].
  now rewrite IH.
Qed.

Lemma decode_fields_get js k :
  dict_get (decode_fields js) k = of_json <$> dict_get js k.
Proof.
  unfold decode_fields. induction js as [|[k0 x] js IH]; cbn; [reflexivity|].
  now destruct (String.eqb k0 k).
Qed.

Lemma to_json_fields_elem d js k x :
  to_json_fields d = Ok js -> (k, x) ∈ decode_fields js ->
  exists v j, (k, v) ∈ d /\ to_json v = Ok j /\ x = of_json j.
Proof.
  revert js. induction d as [|[k0 v0] d IH]; intros js; cbn.
  - intros [= <-] Hin. now apply elem_of_nil in Hin.
  - destruct (to_json v0) as [j0|] eqn:Hv0; cbn; [|discriminate].
    destruct (to_json_fields d) as [js'|]; cbn; [|discriminate].
    intros [= <-]. cbn. intros [[= -> ->]|Hin]%elem_of_cons.
    + exists v0, j0. split; [left|auto].
    + destruct (IH js' eq_refl Hin) as (v & j & Hd & Hj & Hx).
      exists v, j. split; [now right|auto].
Qed.

Lemma to_json_fields_decoded d js k v :
  to_json_fields d = Ok js -> (k, v) ∈ d ->
  exists j, to_json v = Ok j /\ (k, of_json j) ∈ decode_fields js.
Proof.
  revert js. induction d as [|[k0 v0] d IH]; intros js; cbn.
  - intros _ Hin. now apply elem_of_nil in Hin.
  - destruct (to_json v0) as [j0|] eqn:Hv0; cbn; [|discriminate].
    destruct (to_json_fields d) as [js'|]; cbn; [|discriminate].
    intros [= <-]. cbn. intros [[= -> ->]|Hin]%elem_of_cons.
    + exists j0. split; [exact Hv0|left].
    + destruct (IH js' eq_refl Hin) as (j & Hj & Hd).
      exists j. split; [exact Hj|now right].
Qed.

(* the loop of _loads over the items of the document *)
Lemma load_all params (cur : nat -> value) rest st0 :
  (forall k x, (k, x) ∈ rest ->
     exists i p, dict_get params k = Some (i, p) /\ loaded p x = Ok (cur i)) ->
  exists st2,
    for_each rest (fun kv =>
      match dict_get params (fst kv) with
      | Some (i, p) => load i p (snd kv)
      | None => raise (KeyError (VStr (fst kv)))
      end) st0 = (Ok tt, st2) /\
    (forall k x i p, (k, x) ∈ rest -> dict_get params k = Some (i, p) ->
       values st2 !! i = Some (cur i)) /\
    (forall i, values st2 !! i = values st0 !! i \/ values st2 !! i = Some (cur i)).
Proof.
  revert st0. induction rest as [|[k x] rest IH]; intros st0 Hr.
  - exists st0. split; [reflexivity|]. split; [|auto].
    intros k x i p Hin. now apply elem_of_nil in Hin.
  - destruct (Hr k x) as (i & p & Hg & Hl); [left|].
    cbn [for_each fst snd]. unfold mbind at 1, M_bind at 1.
    rewrite Hg, load_spec, Hl.
    set (st1 := set_values (fun d => <[i := cur i]> d) st0).
    destruct (IH st1) as (st2 & Hf & Hin2 & Hout2).
    { intros k' x' Hin. apply (Hr k' x'). now right. }
    exists st2. split; [exact Hf|]. split.
    + intros k' x' i' p' [[= -> ->]|Hin]%elem_of_cons Hg'.
      * rewrite Hg in Hg'. injection Hg' as <- <-.
        destruct (Hout2 i) as [Hi|Hi]; [|exact Hi].
        rewrite Hi. subst st1. cbn. now rewrite lookup_insert_eq.
      * eapply Hin2; eassumption.
    + intros i'. destruct (Hout2 i') as [Hi|Hi]; [|now right].
      rewrite Hi. subst st1. cbn.
      destruct (decide (i' = i)) as [->|Hne].
      * right. now rewrite lookup_insert_eq.
      * left. now rewrite lookup_insert_ne.
Qed.
End Documents.

Section Roundtrip.
Context `{Builtins}.
Variable cls : config_class.

Lemma type_getattr_descriptor k i p :
  type_getattr cls k = Some (MParam i p) -> descriptors cls !! i = Some p.
Proof.
  unfold type_getattr. destruct (namespace cls !! k) as [[j|v]|]; try discriminate.
  destruct (descriptors cls !! j) as [q|] eqn:Hq; cbn; [|discriminate].
  now intros [= <- <-].
Qed.

Lemma loads_spec js st0 version rest :
  NoDup (map fst js) ->
  dict_pop (decode_fields js) "VERSION" VNone = (version, rest) ->
  _loads cls (JObj js) st0 =
    match getattr cls "VERSION" st0 with
    | (Ok self_version, st1) =>
        if py_ne version self_version
        then (Raise (ValueError "Configuration version mismatch"), st1)
        else
          match for_each rest (fun kv =>
                  match dict_get (keys_and_params cls st1) (fst kv) with
                  | Some (i, p) => load i p (snd kv)
                  | None => raise (KeyError (VStr (fst kv)))
                  end) st1 with
          | (Ok _, st2) => _update_pidgets cls st2
          | (Raise e, st2) => (Raise e, st2)
          end
    | (Raise e, st1) => (Raise e, st1)
    end.
Proof.
  intros Hn Hp. unfold _loads. cbn [of_json].
  change (map (fun '(k, x) => (k, of_json x)) js) with (decode_fields js).
  rewrite dict_of_NoDup by (now rewrite decode_fields_keys).
  rewrite Hp. unfold mbind at 1, M_bind at 1.
  destruct (getattr cls "VERSION" st0) as [[self_version|e] st1]; [|reflexivity].
  destruct (py_ne version self_version); [reflexivity|].
  unfold mbind at 1, M_bind at 1. rewrite get_keys_and_params_spec.
  rewrite dict_of_NoDup by apply keys_and_params_NoDup.
  reflexivity.
Qed.

(** C4, as amended.  Take an object whose dumping parameters hold values
    as their setters store them: values that the setter stores unchanged
    when they are set again.  Let every EnumParameter hold a member of
    its own enum, and every plain ValueParameter a value that JSON hands
    back as it is.  Let VERSION be a class constant, the same for both
    objects, that compares equal to what JSON hands back for it.  Then,
    when [_dumps] returns a document, [_loads] of this document on an
    object of the same class returns, and every dumping parameter of
    that object then has the value it had in the dumped object. *)
Theorem dumps_loads_roundtrip st st0 s st1 version :
  (forall k i p,
     type_getattr cls k = Some (MParam i p) -> does_dump p = true ->
     kept p (current i p st) /\ restorable p (current i p st)) ->
  (forall j q, type_getattr cls "VERSION" <> Some (MParam j q)) ->
  getattr cls "VERSION" st = (Ok version, st) ->
  getattr cls "VERSION" st0 = (Ok version, st0) ->
  version_faithful version ->
  _dumps cls st = (Ok s, st1) ->
  exists st2,
    _loads cls s st0 = (Ok tt, st2) /\
    forall k i p,
      type_getattr cls k = Some (MParam i p) -> does_dump p = true ->
      current i p st2 = current i p st.
Proof.
  intros Hvals Hnd Hg Hg0 Hpv. rewrite dumps_spec, Hg.
  destruct (dumped_all (keys_and_params cls st) [] st) as [d|] eqn:Hd;
    [|discriminate].
  destruct (dumped_all_keys _ _ _ _ Hd NoDup_nil_2) as [Hnd_d Hkeys_d].
  rewrite to_json_VDict.
  set (d1 := if negb (is_None version) then dict_set d "VERSION" version else d).
  destruct (to_json_fields d1) as [js|] eqn:Hjs; [|discriminate].
  intros [= <- <-].
  destruct (to_json_fields_keys d1 js Hjs) as [Hkeys_js Hvals_js].
  (* no dumping parameter is called VERSION *)
  assert (Hver : "VERSION" ∉ map fst d).
  { intros Hin. apply Hkeys_d in Hin as [[]%elem_of_nil|(i & p & Hin & _)].
    apply keys_and_params_elem in Hin. now apply (Hnd i p). }
  assert (Hnd1 : NoDup (map fst d1)).
  { subst d1. destruct (negb (is_None version)); [|exact Hnd_d].
    now apply dict_set_NoDup. }
  assert (Hd1 : forall k v, k <> "VERSION" -> (k, v) ∈ d1 <-> (k, v) ∈ d).
  { intros k v Hk. subst d1. destruct (negb (is_None version)); [|reflexivity].
    rewrite dict_set_fresh by exact Hver. rewrite elem_of_app, list_elem_of_singleton.
    split; [intros [?|[= -> _]]; [assumption|congruence]|auto]. }
  (* the version tag that _loads pops, and the items that remain *)
  assert (Hpop : exists tag rest,
    dict_pop (decode_fields js) "VERSION" VNone = (tag, rest) /\
    py_ne tag version = false /\
    forall k x, (k, x) ∈ rest <-> (k, x) ∈ decode_fields js /\ k <> "VERSION").
  { unfold dict_pop. rewrite decode_fields_get.
    destruct (dict_get js "VERSION") as [jv|] eqn:Hjv; cbn.
    - exists (of_json jv), (dict_del (decode_fields js) "VERSION").
      split; [reflexivity|]. split.
      + assert (Hv : dict_get d1 "VERSION" = Some version).
        { subst d1. destruct version; cbn;
            try (rewrite dict_get_set; now rewrite String.eqb_refl).
          apply dict_get_None in Hver.
          assert (Hnone : dict_get js "VERSION" = None).
          { apply dict_get_None. rewrite Hkeys_js. now apply dict_get_None. }
          congruence. }
        destruct (Hvals_js _ _ Hv) as (j & Hj & Hj').
        rewrite Hjv in Hj'. injection Hj' as <-.
        now apply Hpv.
      + intros k x. apply dict_del_elem.
        now rewrite decode_fields_keys, Hkeys_js.
    - exists VNone, (decode_fields js). split; [reflexivity|].
      assert (Hnone : "VERSION" ∉ map fst d1).
      { rewrite <- Hkeys_js. now apply dict_get_None. }
      split.
      + subst d1. destruct version; try reflexivity;
          destruct Hnone; cbn; apply dict_set_keys; now right.
      + intros k x. split; [|now intros [? _]].
        intros Hin. split; [exact Hin|]. intros ->. apply Hnone.
        rewrite <- Hkeys_js, <- decode_fields_keys.
        apply list_elem_of_In, in_map_iff. exists ("VERSION", x).
        split; [reflexivity|now apply list_elem_of_In]. }
  destruct Hpop as (tag & rest & Hpop & Hne & Hrest).
  rewrite (loads_spec js st0 tag rest); [|rewrite Hkeys_js; exact Hnd1|exact Hpop].
  rewrite Hg0, Hne.
  (* every remaining item is the dump of a parameter, which load restores *)
  destruct (load_all (keys_and_params cls st0) (current_at cls st) rest st0)
    as (st2 & -> & Hin2 & _).
  { intros k x [Hin Hk]%Hrest.
    destruct (to_json_fields_elem d1 js k x Hjs Hin) as (v & j & Hv & Hj & ->).
    apply (Hd1 k v Hk) in Hv.
    destruct (dumped_all_values _ _ _ _ k v Hd (dict_get_NoDup d k v Hnd_d Hv))
      as [?|(i & p & Hp%keys_and_params_elem & Hdd & Hdump)]; [discriminate|].
    exists i, p. split; [now apply keys_and_params_get|].
    unfold current_at. rewrite (type_getattr_descriptor k i p Hp).
    destruct (Hvals k i p Hp Hdd) as [Hset Hres].
    now apply (reload p _ v j). }
  destruct (update_pidgets_spec cls st2) as (st3 & -> & Hv3 & _).
  exists st3. split; [reflexivity|].
  intros k i p Hp Hdd. unfold current. rewrite Hv3.
  assert (Hk : k ∈ map fst d).
  { apply Hkeys_d. right. exists i, p. split; [|exact Hdd].
    now apply keys_and_params_elem. }
  apply list_elem_of_In, in_map_iff in Hk as ([k' v] & [= ->] & Hv%list_elem_of_In).
  assert (Hkv : k <> "VERSION") by (intros ->; now apply (Hnd i p)).
  destruct (to_json_fields_decoded d1 js k v Hjs) as (j & Hj & Hin).
  { now apply Hd1. }
  rewrite (Hin2 k (of_json j) i p).
  - cbn. unfold current_at. now rewrite (type_getattr_descriptor k i p Hp).
  - apply Hrest. now split.
  - now apply keys_and_params_get.
Qed.
End Roundtrip.

Section RoundtripExamples.
#[local] Existing Instance Reference.builtins.

(* case analysis on the parameters of the example class *)
Ltac each_parameter Ht :=
  apply (keys_and_params_elem Demo.cls Demo.fresh) in Ht;
  vm_compute in Ht;
  repeat (apply elem_of_cons in Ht as [Ht|Ht]; [injection Ht as -> -> ->|]);
  [..|now apply elem_of_nil in Ht].

(* replaces the value of a parameter in the goal by what it evaluates to *)
Ltac evaluate_current :=
  match goal with
  | |- context [current ?i ?p ?st] =>
      let v := eval vm_compute in (current i p st) in
      replace (current i p st) with v by (vm_compute; reflexivity)
  end.

Lemma tuned_kept k i p :
  type_getattr Demo.cls k = Some (MParam i p) -> does_dump p = true ->
  kept p (current i p Demo.tuned) /\ restorable p (current i p Demo.tuned).
Proof.
  intros Ht Hdd. each_parameter Ht; try discriminate Hdd; evaluate_current;
    (split; [vm_compute; reflexivity|]); try exact I.
  intros c name [= <- <-]. split; vm_compute; reflexivity.
Qed.

Lemma dumps_loads_roundtrip_witness :
  exists s st2,
    _dumps Demo.cls Demo.tuned = (Ok s, Demo.tuned) /\
    _loads Demo.cls s Demo.fresh = (Ok tt, st2) /\
    current 3 Demo.gain st2 = VFloat 0.25 /\
    current 4 Demo.mode st2 = VEnum "Mode" "B" /\
    current 2 Demo.bin_count st2 = VInt 12.
Proof.
  destruct (_dumps Demo.cls Demo.tuned) as [[s|e] st1] eqn:Hd;
    [|vm_compute in Hd; discriminate].
  assert (st1 = Demo.tuned) as ->
    by (vm_compute in Hd; injection Hd as _ <-; vm_compute; reflexivity).
  destruct (dumps_loads_roundtrip Demo.cls Demo.tuned Demo.fresh s Demo.tuned
              (VInt 2) tuned_kept) as (st2 & Hl & Hcur).
  - vm_compute. discriminate.
  - vm_compute. reflexivity.
  - vm_compute. reflexivity.
  - intros j Hj. cbn in Hj. injection Hj as <-. vm_compute. reflexivity.
  - exact Hd.
  - exists s, st2. split; [reflexivity|]. split; [exact Hl|].
    rewrite (Hcur "gain" 3%nat Demo.gain), (Hcur "mode" 4%nat Demo.mode),
      (Hcur "bin_count" 2%nat Demo.bin_count) by (vm_compute; reflexivity).
    split; [vm_compute; reflexivity|]. split; vm_compute; reflexivity.
Defined.

(** C4, as stated, fails, in three ways.  The setter of an EnumParameter
    checks nothing: the member X of another enum is stored, dumped by
    its name, and loading the document raises KeyError('X').  The setter
    of a plain ValueParameter checks nothing either: the tuple (1, 2) is
    stored and dumped, and the load restores the list [1, 2].  And when
    VERSION is the tuple (1, 0), the document holds the list [1, 0],
    which differs from it: the load raises the version mismatch, on the
    very object that was dumped. *)
Lemma dumped_values_not_restored :
  (__setattr__ Demo.cls "mode" (VEnum "Other" "X") Demo.fresh
     = (Ok tt, Demo.foreign) /\
   (forall k i p,
      type_getattr Demo.cls k = Some (MParam i p) -> does_dump p = true ->
      kept p (current i p Demo.foreign)) /\
   exists s,
     _dumps Demo.cls Demo.foreign = (Ok s, Demo.foreign) /\
     fst (_loads Demo.cls s Demo.fresh) = Raise (KeyError (VStr "X"))) /\
  (__setattr__ Loose.cls "note" (VTuple [VInt 1; VInt 2]) Loose.fresh
     = (Ok tt, Loose.paired) /\
   kept Loose.note (VTuple [VInt 1; VInt 2]) /\
   exists s st2,
     _dumps Loose.cls Loose.paired = (Ok s, Loose.paired) /\
     _loads Loose.cls s Loose.fresh = (Ok tt, st2) /\
     current 0 Loose.note Loose.paired = VTuple [VInt 1; VInt 2] /\
     current 0 Loose.note st2 = VList [VInt 1; VInt 2]) /\
  (exists s,
     _dumps Loose.versioned Loose.fresh = (Ok s, Loose.fresh) /\
     fst (_loads Loose.versioned s Loose.fresh) = Raise version_mismatch).
Proof.
  split; [|split].
  - split; [vm_compute; reflexivity|]. split.
    + intros k i p Ht Hdd. each_parameter Ht; try discriminate Hdd;
        vm_compute; reflexivity.
    + eexists. split; [vm_compute; reflexivity|].
      vm_compute. reflexivity.
  - split; [vm_compute; reflexivity|]. split; [vm_compute; reflexivity|].
    eexists. eexists. split; [vm_compute; reflexivity|].
    split; [vm_compute; reflexivity|]. split; vm_compute; reflexivity.
  - eexists. split; [vm_compute; reflexivity|].
    vm_compute. reflexivity.
Qed.
End RoundtripExamples.

(** ** C9: [__get__] hands out a copy *)

Section Copies.
Import Aliasing.

Lemma refs_item (items : list oval) x l :
  x ∈ items -> l ∈ refs x -> l ∈ flat_map refs items.
Proof.
  intros Hx Hl. apply list_elem_of_In, in_flat_map. exists x.
  split; now apply list_elem_of_In.
Qed.

Lemma view_extends n h h' v :
  closed h -> closed_value h v -> extends h h' -> view n h' v = view n h v.
Proof.
  intros Hc Hv He. revert v Hv.
  induction n as [|n IH]; intros v Hv; [reflexivity|].
  destruct v as [ | | | | | |items|l]; try reflexivity.
  - cbn. f_equal. apply map_ext_in. intros x Hx%list_elem_of_In.
    apply IH. intros l Hl. apply Hv. cbn. now apply (refs_item items x).
  - cbn. destruct (Hv l) as [o Ho]; [cbn; left|].
    rewrite Ho, (He l o Ho).
    destruct o as [items|items|fields]; cbn; [|reflexivity|].
    + f_equal. apply map_ext_in. intros x Hx%list_elem_of_In.
      apply IH. intros l' Hl'. apply (Hc l _ Ho). cbn.
      now apply (refs_item items x).
    + f_equal. apply map_ext_in. intros [k x] Hx. cbn. f_equal.
      apply IH. intros l' Hl'. apply (Hc l _ Ho). cbn.
      apply list_elem_of_In, in_flat_map. exists (k, x).
      split; [exact Hx|now apply list_elem_of_In].
Qed.

Lemma view_copy n h s o l :
  closed h -> h !! s = Some o ->
  forall h', extends h h' -> h' !! l = Some o ->
  view n h' (ORef l) = view n h (ORef s).
Proof.
  intros Hc Hs h' He Hl. destruct n as [|n]; [reflexivity|].
  cbn. rewrite Hs, Hl.
  destruct o as [items|items|fields]; cbn; [|reflexivity|].
  - f_equal. apply map_ext_in. intros x Hx%list_elem_of_In.
    apply view_extends; [exact Hc| |exact He].
    intros l' Hl'. apply (Hc s _ Hs). cbn. now apply (refs_item items x).
  - f_equal. apply map_ext_in. intros [k x] Hx. cbn. f_equal.
    apply view_extends; [exact Hc| |exact He].
    intros l' Hl'. apply (Hc s _ Hs). cbn.
    apply list_elem_of_In, in_flat_map. exists (k, x).
    split; [exact Hx|now apply list_elem_of_In].
Qed.

Lemma fresh_None (h : heap) : h !! fresh (dom h) = None.
Proof. apply not_elem_of_dom, is_fresh. Qed.

Lemma extends_insert_fresh (h h' : heap) l o :
  extends h h' -> h !! l = None -> extends h (<[l := o]> h').
Proof.
  intros He Hl l0 o0 H0. rewrite lookup_insert_ne; [now apply He|].
  intros ->. congruence.
Qed.

Lemma extends_refl (h : heap) : extends h h.
Proof. now intros l o. Qed.

(** C9, as amended.  On a heap without dangling references, [__get__]
    returns [copy.copy] of the stored value, or of the default value
    when none is stored.  It shows the same value.  An immutable value,
    a tuple too, is returned as it is; a mutable object is returned as a
    new object, none of those that were there, with the very slots of
    the stored one, so that the objects nested in it are shared.
    Whatever is done in place to the returned object itself, the next
    read of the parameter shows what it would have shown without it. *)
Theorem get_returns_a_copy values default_value i h r h1 :
  closed h ->
  closed_value h (default default_value (values !! i)) ->
  __get__ values default_value i h = (r, h1) ->
  (forall n, view n h1 r = view n h (default default_value (values !! i))) /\
  (forall l, r = ORef l -> h !! l = None) /\
  (forall l o r1 h1' r2 h2',
     r = ORef l ->
     __get__ values default_value i h1 = (r1, h1') ->
     __get__ values default_value i (mutate l o h1) = (r2, h2') ->
     forall n, view n h2' r2 = view n h1' r1) /\
  (forall l, r = ORef l ->
     exists s, default default_value (values !! i) = ORef s /\ h1 !! l = h !! s) /\
  ((forall l, r <> ORef l) ->
     r = default default_value (values !! i) /\ h1 = h).
Proof.
  intros Hc Hv. unfold __get__, copy, mutate.
  destruct (default default_value (values !! i)) as [ | | | | | |items|s] eqn:Hd;
    try (intros [= <- <-]; split; [reflexivity|];
         split; [discriminate|]; split; [discriminate|];
         split; [discriminate|]; intros _; split; reflexivity).
  destruct (Hv s) as [o Ho]; [cbn; left|]. rewrite Ho.
  set (l1 := fresh (dom h)). intros [= <- <-].
  assert (Hl1 : h !! l1 = None) by apply fresh_None.
  assert (He1 : extends h (<[l1 := o]> h))
    by (apply extends_insert_fresh; [apply extends_refl|exact Hl1]).
  split; [|split; [|split; [|split]]].
  - intros n. apply (view_copy n h s o l1 Hc Ho); [exact He1|].
    apply lookup_insert_eq.
  - now intros l [= <-].
  - intros l o' r1 h1' r2 h2' [= <-].
    assert (Hs1 : (<[l1 := o]> h) !! s = Some o) by now apply He1.
    assert (Hne : l1 <> s) by (intros ->; congruence).
    rewrite Hs1, lookup_insert_ne, Hs1 by exact Hne.
    intros [= <- <-] [= <- <-] n.
    transitivity (view n h (ORef s)); [|symmetry].
    + apply (view_copy n h s o _ Hc Ho); [|apply lookup_insert_eq].
      apply extends_insert_fresh.
      * apply extends_insert_fresh; [exact He1|exact Hl1].
      * apply not_elem_of_dom. intros Hin.
        apply (is_fresh (dom (<[l1 := o']> (<[l1 := o]> h)))).
        apply elem_of_dom. apply elem_of_dom in Hin as [o0 Ho0].
        exists o0. now apply (extends_insert_fresh h _ l1 o' He1 Hl1).
    + apply (view_copy n h s o _ Hc Ho); [|apply lookup_insert_eq].
      apply extends_insert_fresh; [exact He1|].
      apply not_elem_of_dom. intros Hin.
      apply (is_fresh (dom (<[l1 := o]> h))).
      apply elem_of_dom. apply elem_of_dom in Hin as [o0 Ho0].
      exists o0. now apply He1.
  - intros l [= <-]. exists s. split; [reflexivity|].
    now rewrite lookup_insert_eq, Ho.
  - intros Hn. now destruct (Hn l1).
Qed.
End Copies.

Section CopiesExamples.
Import Aliasing.

Lemma example_heap_closed : closed example_heap.
Proof.
  intros l o Hl l' Hin. apply elem_of_map_to_list in Hl. vm_compute in Hl.
  repeat (apply elem_of_cons in Hl as [Hl|Hl]; [injection Hl as -> ->|]);
    [..|now apply elem_of_nil in Hl];
    vm_compute in Hin;
    repeat (apply elem_of_cons in Hin as [->|Hin]; [vm_compute; eauto|]);
    now apply elem_of_nil in Hin.
Qed.

Lemma get_returns_a_copy_witness :
  exists l h1,
    __get__ {[0%nat := ORef 0%nat]} ONone 0 example_heap = (ORef l, h1) /\
    example_heap !! l = None /\
    view 3 h1 (ORef l)
      = TList [TList [TLeaf (OInt 1); TLeaf (OInt 2)]; TLeaf (OInt 3)] /\
    forall n,
      view n (snd (__get__ {[0%nat := ORef 0%nat]} ONone 0 (mutate l (OList []) h1)))
             (fst (__get__ {[0%nat := ORef 0%nat]} ONone 0 (mutate l (OList []) h1)))
      = view n (snd (__get__ {[0%nat := ORef 0%nat]} ONone 0 h1))
               (fst (__get__ {[0%nat := ORef 0%nat]} ONone 0 h1)).
Proof.
  destruct (__get__ {[0%nat := ORef 0%nat]} ONone 0 example_heap) as [r h1] eqn:Hg.
  assert (Hr : r = ORef 3%nat) by (vm_compute in Hg; congruence).
  subst r. exists 3%nat, h1.
  destruct (get_returns_a_copy {[0%nat := ORef 0%nat]} ONone 0 example_heap
              (ORef 3%nat) h1 example_heap_closed) as (Hsame & Hnew & Hmut & _).
  - intros l Hl. vm_compute in Hl.
    apply list_elem_of_singleton in Hl as ->. vm_compute. eauto.
  - exact Hg.
  - split; [reflexivity|]. split; [now apply Hnew|]. split.
    + rewrite Hsame. vm_compute. reflexivity.
    + intros n. eapply Hmut; [reflexivity|apply surjective_pairing..].
Defined.

(** The copy is shallow.  The object handed out for the stored list
    [[1, 2], 3] is a new list whose first slot is the inner list of the
    stored one: appending 9 to that inner list, through the object handed
    out, shows in the next read of the parameter.  A stored tuple
    ([1, 2],) is handed out as it is, and the same append shows too. *)
Lemma nested_objects_are_shared :
  let values : gmap nat oval := {[0%nat := ORef 0%nat]} in
  let h1 := snd (__get__ values ONone 0 example_heap) in
  let h2 := mutate 1 (OList [OInt 1; OInt 2; OInt 9]) h1 in
  let in_tuple : gmap nat oval := {[0%nat := OTuple [ORef 1%nat]]} in
  let h3 := mutate 1 (OList [OInt 1; OInt 2; OInt 9]) example_heap in
  (* the list handed out, and its first slot *)
  fst (__get__ values ONone 0 example_heap) = ORef 3%nat /\
  h1 !! 3%nat = Some (OList [ORef 1%nat; OInt 3]) /\
  (* the next read, without and with the append *)
  view 3 (snd (__get__ values ONone 0 h1)) (fst (__get__ values ONone 0 h1))
    = TList [TList [TLeaf (OInt 1); TLeaf (OInt 2)]; TLeaf (OInt 3)] /\
  view 3 (snd (__get__ values ONone 0 h2)) (fst (__get__ values ONone 0 h2))
    = TList [TList [TLeaf (OInt 1); TLeaf (OInt 2); TLeaf (OInt 9)]; TLeaf (OInt 3)] /\
  (* the same for the tuple *)
  __get__ in_tuple ONone 0 example_heap = (OTuple [ORef 1%nat], example_heap) /\
  view 3 (snd (__get__ in_tuple ONone 0 example_heap))
         (fst (__get__ in_tuple ONone 0 example_heap))
    = TTuple [TList [TLeaf (OInt 1); TLeaf (OInt 2)]] /\
  view 3 (snd (__get__ in_tuple ONone 0 h3)) (fst (__get__ in_tuple ONone 0 h3))
    = TTuple [TList [TLeaf (OInt 1); TLeaf (OInt 2); TLeaf (OInt 9)]].
Proof.
  intros values h1 h2 in_tuple h3.
  split; [vm_compute; reflexivity|]. split; [vm_compute; reflexivity|].
  split; [vm_compute; reflexivity|]. split; [vm_compute; reflexivity|].
  split; [vm_compute; reflexivity|]. split; vm_compute; reflexivity.
Qed.
End CopiesExamples.

(** * Further properties of the module *)

(** ** The sanitizers *)

Section SanitizerFacts.
Context `{Builtins}.

Lemma sanitize_None_optional p : is_optional p = true -> sanitize p VNone = Ok VNone.
Proof. intros Ho. unfold sanitize. now rewrite Ho. Qed.

Lemma sanitize_kind_inv p v w :
  sanitize p v = Ok w ->
  (is_optional p = true /\ v = VNone /\ w = VNone) \/ _sanitize p v = Ok w.
Proof.
  unfold sanitize. destruct (is_optional p && is_None v) eqn:Ho; cbn; [|auto].
  intros [= <-]. apply andb_true_iff in Ho as [Ho Hn].
  destruct v; try discriminate. auto.
Qed.

(** X1.  Sanitizing is idempotent: a value that came out of the
    sanitizer of a parameter goes through it unchanged, so assigning a
    parameter what it holds changes nothing.  For the two float kinds,
    whose sanitizer rounds, this is under the condition that rounding
    leaves the stored floats as they are. *)
Theorem sanitize_idempotent p v w :
  sanitize p v = Ok w ->
  (rounds p = true -> forall f, f ∈ floats_of w -> round_stable p f) ->
  sanitize p w = Ok w.
Proof.
  intros Hs Hr.
  destruct (sanitize_kind_inv p v w Hs) as [(Ho & _ & ->)|Hk];
    [now apply sanitize_None_optional|].
  unfold sanitize. destruct (is_optional p && is_None w); [reflexivity|].
  cbn [negb]. unfold _sanitize, rounds in *.
  destruct (param_kind p) eqn:Hkind; try (now injection Hk as <-).
  - destruct (py_bool v) as [b|]; [|discriminate]. now injection Hk as <-.
  - apply IntParameter_sanitize_inv in Hk as (z & -> & Hc).
    unfold IntParameter_sanitize. cbn. now rewrite Hc.
  - destruct (FloatParameter_sanitize p v) as [f|] eqn:Hf; [|discriminate].
    injection Hk as <-.
    rewrite (FloatParameter_sanitize_stable p f); [reflexivity| |].
    + apply Hr; [reflexivity|]. cbn. left.
    + eapply FloatParameter_sanitize_inv, Hf.
  - apply FloatRangeParameter_sanitize_inv in Hk as (f0 & f1 & -> & Hc0 & Hc1 & Hgt).
    unfold FloatRangeParameter_sanitize.
    cbn [py_list map except_ValueError_TypeError mbind result_bind].
    rewrite (FloatParameter_sanitize_stable p f0), (FloatParameter_sanitize_stable p f1);
      try assumption.
    + unfold mbind, result_bind. now rewrite Hgt.
    + apply Hr; [reflexivity|]. cbn. right. left.
    + apply Hr; [reflexivity|]. cbn. left.
  - apply SensorParameter_sanitize_inv in Hk as (l & -> & Hl).
    unfold SensorParameter_sanitize. cbn. now rewrite Hl.
Qed.

(** X2.  A SensorParameter accepts an int (a bool is one) and stores the
    list of it, and accepts a list of ints, the empty list too, and
    stores it as it is; on anything else, a tuple of ints included, it
    raises the ValueError "sensor(s) must be an int or a list of ints",
    and it raises nothing else. *)
Theorem SensorParameter_accepts arg :
  (is_int arg = true -> SensorParameter_sanitize arg = Ok (VList [arg])) /\
  (forall l, forallb is_int l = true ->
     SensorParameter_sanitize (VList l) = Ok (VList l)) /\
  (forall w, SensorParameter_sanitize arg = Ok w ->
     exists l, w = VList l /\ forallb is_int l = true /\
               (l = [arg] \/ arg = VList l)) /\
  (forall e, SensorParameter_sanitize arg = Raise e ->
     e = ValueError "sensor(s) must be an int or a list of ints") /\
  (forall l, SensorParameter_sanitize (VTuple l)
     = Raise (ValueError "sensor(s) must be an int or a list of ints")).
Proof.
  unfold SensorParameter_sanitize. repeat split.
  - now intros ->.
  - intros l Hl. cbn. now rewrite Hl.
  - intros w. destruct (is_int arg) eqn:Hi.
    + intros [= <-]. exists [arg]. cbn. rewrite Hi. auto.
    + destruct arg; try discriminate.
      destruct (forallb is_int l) eqn:Hl; [|discriminate].
      intros [= <-]. eauto.
  - intros e. destruct (is_int arg); [discriminate|].
    destruct arg; try (now intros [= <-]).
    destruct (forallb is_int l); [discriminate|now intros [= <-]].
Qed.

Ltac listed :=
  solve [repeat first [apply list_elem_of_here | apply list_elem_of_further]].

Lemma except_ValueError_inv {A} (r : result A) msg e :
  except_ValueError r msg = Raise e ->
  e = ValueError msg \/ (r = Raise e /\ forall m, e <> ValueError m).
Proof.
  unfold except_ValueError. destruct r as [a|[]]; try discriminate;
    intros [= <-]; auto; right; split; try reflexivity; discriminate.
Qed.

Lemma check_limits_message p x m :
  check_limits p x = Raise (ValueError m) -> m ∈ sanitizer_messages.
Proof.
  unfold check_limits. intros Hr. repeat case_match; simplify_eq;
    unfold sanitizer_messages; listed.
Qed.

Lemma IntParameter_sanitize_message p v m :
  IntParameter_sanitize p v = Raise (ValueError m) -> m ∈ sanitizer_messages.
Proof.
  unfold IntParameter_sanitize.
  case_match; [intros [= <-]; unfold sanitizer_messages; listed|].
  intros [Hr|(z & _ & Hr)]%bind_Raise.
  - apply except_ValueError_inv in Hr as [[= ->]|[_ Hr]];
      [unfold sanitizer_messages; listed|now destruct (Hr m)].
  - apply bind_Raise in Hr as [Hr|(u & _ & Hr)]; [|discriminate].
    eapply check_limits_message, Hr.
Qed.

Lemma FloatParameter_sanitize_message p v m :
  FloatParameter_sanitize p v = Raise (ValueError m) -> m ∈ sanitizer_messages.
Proof.
  unfold FloatParameter_sanitize.
  intros [Hr|(f & _ & Hr)]%bind_Raise.
  - apply except_ValueError_inv in Hr as [[= ->]|[_ Hr]];
      [unfold sanitizer_messages; listed|now destruct (Hr m)].
  - apply bind_Raise in Hr as [Hr|(r & _ & Hr)].
    + unfold py_round in Hr. case_match; simplify_eq.
    + apply bind_Raise in Hr as [Hr|(u & _ & Hr)]; [|discriminate].
      eapply check_limits_message, Hr.
Qed.

Lemma FloatRangeParameter_sanitize_message p v m :
  FloatRangeParameter_sanitize p v = Raise (ValueError m) -> m ∈ sanitizer_messages.
Proof.
  unfold FloatRangeParameter_sanitize.
  intros [Hr|(l & _ & Hr)]%bind_Raise.
  - unfold except_ValueError_TypeError in Hr.
    destruct (py_list v) as [l|e'] eqn:Hl; [discriminate|].
    destruct (py_list_raises v e' Hl) as [m' ->]. simplify_eq.
    unfold sanitizer_messages; listed.
  - destruct l as [|v0 [|v1 [|v2 l]]];
      try (simplify_eq; unfold sanitizer_messages; listed).
    apply bind_Raise in Hr as [Hr|(f0 & _ & Hr)];
      [eapply FloatParameter_sanitize_message, Hr|].
    apply bind_Raise in Hr as [Hr|(f1 & _ & Hr)];
      [eapply FloatParameter_sanitize_message, Hr|].
    case_match; simplify_eq. unfold sanitizer_messages; listed.
Qed.

(** X3.  What a sanitizer raises is a ValueError, a TypeError or an
    OverflowError, never a KeyError or an AttributeError, and a
    ValueError carries one of the nine messages of configbase.py, unless
    it is the one that [bool()] raises in a BoolParameter.  The
    TypeError is real: None, given to an IntParameter or a
    FloatParameter that is not optional, raises the TypeError of
    [int()] or [float()], which the [except ValueError] around them
    does not catch. *)
Theorem sanitizer_exceptions p v :
  (forall e, sanitize p v = Raise e ->
     (exists m, e = ValueError m) \/ (exists m, e = TypeError m) \/
     (exists m, e = OverflowError m)) /\
  (forall m, sanitize p v = Raise (ValueError m) ->
     param_kind p <> BoolParameter -> m ∈ sanitizer_messages) /\
  (is_optional p = false -> param_kind p = IntParameter ->
     exists m, sanitize p VNone = Raise (TypeError m)) /\
  (is_optional p = false -> param_kind p = FloatParameter ->
     exists m, sanitize p VNone = Raise (TypeError m)).
Proof.
  split; [|split; [|split]].
  - intros e He. apply sanitize_raises in He. destruct e; try discriminate; eauto.
  - unfold sanitize. intros m. case_match; [|discriminate].
    unfold _sanitize. intros Hr Hk.
    destruct (param_kind p); try discriminate; try congruence.
    + now apply IntParameter_sanitize_message in Hr.
    + apply bind_Raise in Hr as [Hr|(f & _ & Hr)]; [|discriminate].
      eapply FloatParameter_sanitize_message, Hr.
    + now apply FloatRangeParameter_sanitize_message in Hr.
    + unfold SensorParameter_sanitize in Hr.
      repeat case_match; simplify_eq; unfold sanitizer_messages; listed.
  - intros Ho Hk. unfold sanitize, _sanitize. rewrite Ho, Hk.
    eexists. reflexivity.
  - intros Ho Hk. unfold sanitize, _sanitize. rewrite Ho, Hk.
    eexists. reflexivity.
Qed.

(** X4.  NaN passes every limit check: no comparison with it holds, so
    a FloatParameter stores NaN whatever its limits are, as long as
    rounding NaN gives NaN; an IntParameter refuses it. *)
Theorem nan_passes_limits p :
  (param_kind p = FloatParameter ->
   round_float nan (decimals p) = Some nan ->
   sanitize p (VFloat nan) = Ok (VFloat nan)) /\
  (param_kind p = IntParameter ->
   sanitize p (VFloat nan) = Raise (ValueError "Not an integer")).
Proof.
  split; intros Hk.
  - intros Hr.
    assert (Hc : check_limits p (NFloat nan) = Ok tt).
    { unfold check_limits. destruct (limits p) as [[[lo|] [up|]]|]; try reflexivity;
        unfold below, above, num_lt, num_gt; cbn [num_val];
        replace (float_val nan) with XNaN by reflexivity;
        cbn; try reflexivity; now destruct (num_val _). }
    assert (Hf : FloatParameter_sanitize p (VFloat nan) = Ok nan).
    { unfold FloatParameter_sanitize, py_round. cbn [py_float except_ValueError].
      unfold mbind, result_bind. now rewrite Hr, Hc. }
    unfold sanitize, _sanitize. rewrite Hk, andb_false_r. cbn [negb].
    now rewrite Hf.
  - unfold sanitize, _sanitize. now rewrite Hk, andb_false_r.
Qed.
End SanitizerFacts.

Section SanitizerFactsExamples.
#[local] Existing Instance Reference.builtins.

Lemma sanitize_idempotent_witness :
  sanitize Demo.gain (VFloat 0.25) = Ok (VFloat 0.25) /\
  sanitize Demo.sensor (VList [VInt 1]) = Ok (VList [VInt 1]).
Proof.
  split.
  - apply (sanitize_idempotent Demo.gain (VFloat 0.254) (VFloat 0.25));
      [vm_compute; reflexivity|].
    intros _ f Hf. apply list_elem_of_singleton in Hf as ->.
    vm_compute. reflexivity.
  - apply (sanitize_idempotent Demo.sensor (VInt 1) (VList [VInt 1]));
      [vm_compute; reflexivity|].
    intros Hr. vm_compute in Hr. discriminate.
Defined.

Lemma SensorParameter_accepts_witness :
  SensorParameter_sanitize (VBool true) = Ok (VList [VBool true]) /\
  SensorParameter_sanitize (VList []) = Ok (VList []) /\
  SensorParameter_sanitize (VStr "1")
    = Raise (ValueError "sensor(s) must be an int or a list of ints").
Proof.
  split; [|split].
  - now apply (SensorParameter_accepts (VBool true)).
  - now apply (SensorParameter_accepts VNone).
  - destruct (SensorParameter_sanitize (VStr "1")) as [w|e] eqn:Hs.
    + discriminate Hs.
    + f_equal. now apply (SensorParameter_accepts (VStr "1")).
Defined.

Lemma sanitizer_exceptions_witness :
  sanitize Demo.bin_count (VInt 0) = Raise (ValueError "Given value is too low") /\
  "Given value is too low" ∈ sanitizer_messages /\
  exists m, sanitize Demo.bin_count VNone = Raise (TypeError m).
Proof.
  assert (Hlow : sanitize Demo.bin_count (VInt 0)
                 = Raise (ValueError "Given value is too low"))
    by (vm_compute; reflexivity).
  split; [exact Hlow|]. split.
  - apply (proj1 (proj2 (sanitizer_exceptions Demo.bin_count (VInt 0))));
      [exact Hlow|discriminate].
  - apply (proj1 (proj2 (proj2 (sanitizer_exceptions Demo.bin_count VNone))));
      reflexivity.
Defined.

Lemma nan_passes_limits_witness :
  limits Demo.gain = Some (Some (NInt 0), Some (NInt 1)) /\
  sanitize Demo.gain (VFloat nan) = Ok (VFloat nan) /\
  sanitize Demo.bin_count (VFloat nan) = Raise (ValueError "Not an integer").
Proof.
  split; [reflexivity|]. split.
  - apply (nan_passes_limits Demo.gain); reflexivity.
  - now apply (nan_passes_limits Demo.bin_count).
Defined.
End SanitizerFactsExamples.

(** ** Reading and assigning attributes *)

Section AttributeFacts.
Context `{Builtins}.
Variable cls : config_class.

Lemma set_Ok_inv i p v st st' :
  __set__ i p v st = (Ok tt, st') ->
  is_ValueParameter p = true /\
  exists w, sanitize p v = Ok w /\ st' = set_values (fun d => <[i := w]> d) st.
Proof.
  unfold __set__, is_ValueParameter.
  destruct (param_kind p); try discriminate;
    rewrite ValueParameter_set_spec; destruct (sanitize p v) as [w|];
    try discriminate; intros [= <-]; eauto.
Qed.

Lemma get_value_parameter i p st :
  is_ValueParameter p = true -> __get__ i p st = (Ok (current i p st), st).
Proof.
  unfold __get__, is_ValueParameter. now destruct (param_kind p).
Qed.

(** X5.  What is assigned can be read back: after a successful
    assignment to the name of a parameter, reading the name gives the
    sanitized value (not the value as it was given); after a successful
    assignment to any other attribute, reading gives the value assigned.
    Neither read changes the object. *)
Theorem setattr_then_getattr name v st st' :
  __setattr__ cls name v st = (Ok tt, st') ->
  (forall i p, type_getattr cls name = Some (MParam i p) ->
     exists w, sanitize p v = Ok w /\ getattr cls name st' = (Ok w, st')) /\
  ((forall i p, type_getattr cls name <> Some (MParam i p)) ->
     getattr cls name st' = (Ok v, st')).
Proof.
  rewrite setattr_cases. intros Hs. split.
  - intros i p Ht. rewrite Ht in Hs.
    apply set_Ok_inv in Hs as (Hvp & w & Hw & ->).
    exists w. split; [exact Hw|].
    unfold getattr. rewrite Ht, (get_value_parameter i p _ Hvp).
    unfold current. cbn. now rewrite lookup_insert_eq.
  - intros Hn. apply getattr_plain; [exact Hn|].
    destruct (type_getattr cls name) as [[i p|w]|]; [now destruct (Hn i p)| |].
    + injection Hs as <-. cbn. apply lookup_insert_eq.
    + destruct (attrs st !! name); [|discriminate].
      injection Hs as <-. cbn. apply lookup_insert_eq.
Qed.

Lemma set_effect i p v st r st' :
  __set__ i p v st = (r, st') ->
  pidgets st' = pidgets st /\ trace st' = trace st /\ attrs st' = attrs st /\
  (forall j, j <> i -> values st' !! j = values st !! j) /\
  match r with Ok _ => True | Raise _ => st' = st end.
Proof.
  intros Hs.
  assert (Hc : (exists w, r = Ok tt /\ st' = set_values (fun d => <[i := w]> d) st)
               \/ (exists e, r = Raise e /\ st' = st)).
  { unfold __set__ in Hs.
    destruct (param_kind p);
      try (injection Hs as <- <-; right; eauto);
      rewrite ValueParameter_set_spec in Hs;
      destruct (sanitize p v) as [w|e]; injection Hs as <- <-; eauto. }
  destruct Hc as [(w & -> & ->)|(e & -> & ->)].
  - cbn. repeat split. intros j Hj. now rewrite lookup_insert_ne.
  - now repeat split.
Qed.

Lemma setattr_data name v st r st' :
  __setattr__ cls name v st = (r, st') ->
  pidgets st' = pidgets st /\ trace st' = trace st /\
  (forall j, (forall p, type_getattr cls name <> Some (MParam j p)) ->
     values st' !! j = values st !! j) /\
  (forall n, n <> name -> attrs st' !! n = attrs st !! n) /\
  match r with
  | Ok _ => True
  | Raise _ => values st' = values st /\ attrs st' = attrs st
  end.
Proof.
  rewrite setattr_cases.
  destruct (type_getattr cls name) as [[i p|w]|] eqn:Ht.
  - destruct (__get__ i p st) as [r1 st1] eqn:Hg.
    destruct (get_frame i p st r1 st1 Hg) as [(Hv & Ha & Hp & Htr) _].
    cbn [snd]. intros Hs.
    destruct (set_effect i p v st1 r st' Hs) as (Hp' & Ht' & Ha' & Hv' & Hr).
    split; [congruence|]. split; [congruence|]. split; [|split].
    + intros j Hj. rewrite Hv', Hv; [reflexivity|].
      intros ->. now apply (Hj p).
    + intros n _. now rewrite Ha', Ha.
    + destruct r; [exact I|]. subst st'. now split.
  - intros [= <- <-]. cbn. repeat split.
    intros n Hn. now rewrite lookup_insert_ne.
  - destruct (attrs st !! name); intros [= <- <-]; cbn; repeat split.
    intros n Hn. now rewrite lookup_insert_ne.
Qed.

(** X6.  An assignment to a parameter touches that parameter only:
    whether it succeeds or raises, reading any attribute that is not a
    name of the same descriptor gives what it gave before. *)
Theorem setattr_frame name i p v st r st' n :
  type_getattr cls name = Some (MParam i p) ->
  __setattr__ cls name v st = (r, st') ->
  (forall q, type_getattr cls n <> Some (MParam i q)) ->
  fst (getattr cls n st') = fst (getattr cls n st).
Proof.
  intros Hp Hs Hd.
  assert (Hn : n <> name) by (intros ->; now apply (Hd p)).
  destruct (setattr_data name v st r st' Hs) as (_ & _ & Hv & Ha & _).
  unfold getattr. destruct (type_getattr cls n) as [[j q|w]|] eqn:Hq.
  - destruct (is_ValueParameter q) eqn:Hvp.
    + rewrite !(get_value_parameter j q _ Hvp). cbn [fst]. unfold current.
      rewrite Hv; [reflexivity|]. intros p' Hp'.
      rewrite Hp in Hp'. injection Hp' as -> _. now apply (Hd q).
    + unfold __get__. unfold is_ValueParameter in Hvp.
      destruct (param_kind q); try discriminate; reflexivity.
  - unfold mbind, M_bind, get_state. rewrite (Ha n Hn).
    now destruct (attrs st !! n).
  - unfold mbind, M_bind, get_state. rewrite (Ha n Hn).
    now destruct (attrs st !! n).
Qed.

(** X7.  An assignment that raises leaves the object as it was: the
    stored values, the instance dictionary, the pidgets and the record of
    outside calls are unchanged, and the exception is an AttributeError
    or an exception of the sanitizer. *)
Theorem failed_setattr_changes_nothing name v st e st' :
  __setattr__ cls name v st = (Raise e, st') ->
  same_data st st' /\
  ((exists m, e = AttributeError m) \/ validation_error e = true).
Proof.
  intros Hs.
  destruct (setattr_data name v st _ st' Hs) as (Hp & Ht & _ & _ & Hv & Ha).
  split; [now repeat split|].
  rewrite setattr_cases in Hs.
  destruct (type_getattr cls name) as [[i p|w]|]; [|discriminate|].
  - unfold __set__ in Hs.
    destruct (param_kind p); try (injection Hs as <-; eauto);
      rewrite ValueParameter_set_spec in Hs;
      destruct (sanitize p v) eqn:Hsan; try discriminate;
      injection Hs as <-; right; eapply sanitize_raises, Hsan.
  - destruct (attrs st !! name); [discriminate|]. injection Hs as <-. eauto.
Qed.

(** X8.  Constants and class parameters are read-only: assigning to the
    name of a ConstantParameter or of a ClassParameter raises
    AttributeError("Unsettable parameter"), and the name of a
    ConstantParameter reads as the declared value on every object. *)
Theorem constant_is_read_only name i p v st :
  type_getattr cls name = Some (MParam i p) ->
  (param_kind p = ConstantParameter \/ param_kind p = ClassParameter ->
   fst (__setattr__ cls name v st) = Raise (AttributeError "Unsettable parameter")) /\
  (param_kind p = ConstantParameter ->
   getattr cls name st = (Ok (value_ p), st)).
Proof.
  intros Ht. split.
  - rewrite setattr_cases, Ht. unfold __set__. now intros [-> | ->].
  - intros Hk. unfold getattr, __get__. now rewrite Ht, Hk.
Qed.
End AttributeFacts.

Section AttributeFactsExamples.
#[local] Existing Instance Reference.builtins.

Lemma setattr_then_getattr_witness :
  exists w,
    sanitize Demo.gain (VFloat 0.254) = Ok w /\
    getattr Demo.cls "gain" Demo.tuned = (Ok w, Demo.tuned).
Proof.
  assert (Hs : __setattr__ Demo.cls "gain" (VFloat 0.254) Demo.tuned
               = (Ok tt, Demo.tuned)) by (vm_compute; reflexivity).
  apply (proj1 (setattr_then_getattr Demo.cls "gain" (VFloat 0.254)
                  Demo.tuned Demo.tuned Hs) 3%nat Demo.gain).
  vm_compute. reflexivity.
Defined.

Lemma setattr_frame_witness :
  fst (getattr Demo.cls "mode" (snd (__setattr__ Demo.cls "gain" (VFloat 0.7) Demo.tuned)))
  = fst (getattr Demo.cls "mode" Demo.tuned).
Proof.
  apply (setattr_frame Demo.cls "gain" 3 Demo.gain (VFloat 0.7) Demo.tuned
           (fst (__setattr__ Demo.cls "gain" (VFloat 0.7) Demo.tuned))).
  - vm_compute. reflexivity.
  - apply surjective_pairing.
  - intros q Hq. vm_compute in Hq. discriminate.
Defined.

Lemma failed_setattr_changes_nothing_witness :
  same_data Demo.tuned (snd (__setattr__ Demo.cls "gain" (VFloat 1.5) Demo.tuned)).
Proof.
  apply (failed_setattr_changes_nothing Demo.cls "gain" (VFloat 1.5) Demo.tuned
           (ValueError "Given value is too high")).
  vm_compute. reflexivity.
Defined.

Lemma constant_is_read_only_witness :
  fst (__setattr__ Demo.cls "service" (VStr "iq") Demo.fresh)
    = Raise (AttributeError "Unsettable parameter") /\
  getattr Demo.cls "service" Demo.fresh = (Ok (VStr "power_bins"), Demo.fresh).
Proof.
  destruct (constant_is_read_only Demo.cls "service" 8 Demo.service_kw
              (VStr "iq") Demo.fresh) as [Hset Hget];
    [vm_compute; reflexivity|].
  split; [apply Hset; now left|now apply Hget].
Defined.
End AttributeFactsExamples.

(** ** Loading and dumping *)

Section LoadFacts.
Context `{Builtins}.
Variable cls : config_class.

Lemma for_each_preserves {A} (body : A -> M unit) (P : config -> Prop) l st r st' :
  (forall x s r' s', x ∈ l -> P s -> body x s = (r', s') -> P s') ->
  P st -> for_each l body st = (r, st') -> P st'.
Proof.
  revert st. induction l as [|x l IH]; intros st Hb HP; cbn.
  - now intros [= _ <-].
  - unfold mbind, M_bind. destruct (body x st) as [[[]|e] s1] eqn:Hx.
    + apply IH.
      * intros y s r' s' Hy. apply Hb. now right.
      * eapply Hb; [left|exact HP|exact Hx].
    + intros [= _ <-]. eapply Hb; [left|exact HP|exact Hx].
Qed.

Lemma for_each_Ok {A} (body : A -> M unit) l st st' :
  for_each l body st = (Ok tt, st') ->
  forall x, x ∈ l -> exists s s', body x s = (Ok tt, s').
Proof.
  revert st. induction l as [|x l IH]; intros st; cbn.
  - intros _ x Hx. now apply elem_of_nil in Hx.
  - unfold mbind, M_bind. destruct (body x st) as [[[]|e] s1] eqn:Hx;
      [|discriminate].
    intros Hf y [->|Hy]%elem_of_cons; [eauto|]. eapply IH; eassumption.
Qed.

Lemma dict_del_subset {V} (d : list (string * V)) k0 x :
  x ∈ dict_del d k0 -> x ∈ d.
Proof.
  induction d as [|[k v] d IH]; cbn; [auto|].
  destruct (String.eqb k k0); [now right|].
  intros [->|Hx]%elem_of_cons; [left|right; auto].
Qed.

Lemma dict_del_cover {V} (d : list (string * V)) k0 k v :
  (k, v) ∈ d -> k = k0 \/ (k, v) ∈ dict_del d k0.
Proof.
  induction d as [|[k1 v1] d IH]; cbn; [intros []%elem_of_nil|].
  intros [[= -> ->]|Hin]%elem_of_cons.
  - destruct (String.eqb_spec k1 k0); [now left|right; left].
  - destruct (String.eqb_spec k1 k0); [now right|].
    destruct (IH Hin); [now left|right; now right].
Qed.

Lemma dict_pop_subset {V} (d : list (string * V)) k0 dflt v d' x :
  dict_pop d k0 dflt = (v, d') -> x ∈ d' -> x ∈ d.
Proof.
  unfold dict_pop. destruct (dict_get d k0); intros [= _ <-]; [|auto].
  apply dict_del_subset.
Qed.

Lemma dict_pop_cover {V} (d : list (string * V)) k0 dflt v d' k x :
  dict_pop d k0 dflt = (v, d') -> (k, x) ∈ d -> k = k0 \/ (k, x) ∈ d'.
Proof.
  unfold dict_pop. destruct (dict_get d k0); intros [= _ <-]; [|auto].
  apply dict_del_cover.
Qed.

Lemma params_get st k i p :
  dict_get (dict_of (keys_and_params cls st)) k = Some (i, p) ->
  type_getattr cls k = Some (MParam i p).
Proof.
  rewrite dict_of_NoDup by apply keys_and_params_NoDup.
  intros Hg%dict_get_elem. now apply keys_and_params_elem in Hg.
Qed.

(* what _update_pidgets does, exactly *)
Lemma update_pidgets_exact st :
  _update_pidgets cls st
  = (Ok tt,
     {| values := values st; instances := instances st; pidgets := pidgets st;
        attrs := attrs st;
        trace := trace st ++
                 map PidgetUpdated (with_pidget st (keys_and_params cls st)) |}).
Proof.
  unfold _update_pidgets. unfold mbind at 1, M_bind at 1.
  rewrite get_keys_and_params_spec. unfold with_pidget.
  generalize (keys_and_params cls st) as l. intros l. revert st.
  induction l as [|[k [i p]] l IH]; intros st; cbn [for_each map List.filter].
  - destruct st. cbn. now rewrite app_nil_r.
  - unfold mbind at 1, M_bind at 1. unfold update_pidget at 1.
    unfold mbind at 1, M_bind at 1, get_state. cbn [fst snd].
    destruct (bool_decide (i ∈ pidgets st)) eqn:Hb.
    + unfold modify at 1. rewrite IH. destruct st. cbn in *.
      now rewrite <- app_assoc.
    + unfold mret at 1, M_ret at 1. apply IH.
Qed.

Lemma loads_effects s st r st' :
  _loads cls s st = (r, st') ->
  attrs st' = attrs st /\ pidgets st' = pidgets st /\
  (match r with
   | Ok _ => trace st' = (trace st ++
               map PidgetUpdated (with_pidget st (keys_and_params cls st')))%list
   | Raise _ => trace st' = trace st
   end) /\
  forall i,
    (forall d k p, of_json s = VDict d -> k ∈ map fst d ->
                   type_getattr cls k <> Some (MParam i p)) ->
    values st' !! i = values st !! i.
Proof.
  unfold _loads.
  destruct (of_json s) as [| | | | | | | |d| | | |] eqn:Hj;
    try (intros [= <- <-]; repeat split; reflexivity).
  destruct (dict_pop d "VERSION" VNone) as [version d'] eqn:Hpop.
  unfold mbind at 1, M_bind at 1.
  destruct (getattr cls "VERSION" st) as [[self_version|e] st1] eqn:Hg;
    apply getattr_frame in Hg as [(Hv1 & Ha1 & Hp1 & Ht1) _];
    [|intros [= <- <-]; repeat split; congruence].
  destruct (py_ne version self_version);
    [intros [= <- <-]; repeat split; congruence|].
  unfold mbind at 1, M_bind at 1. rewrite get_keys_and_params_spec.
  unfold mbind at 1, M_bind at 1.
  match goal with |- context [for_each d' ?b st1] =>
    destruct (for_each d' b st1) as [r2 st2] eqn:Hf end.
  (* the loop changes stored values only, and only of the named parameters *)
  assert (Hloop : attrs st2 = attrs st /\ pidgets st2 = pidgets st /\
                  trace st2 = trace st /\
                  forall i,
                    (forall d0 k p, VDict d = VDict d0 -> k ∈ map fst d0 ->
                                    type_getattr cls k <> Some (MParam i p)) ->
                    values st2 !! i = values st !! i).
  { eapply (for_each_preserves _ (fun s0 =>
        attrs s0 = attrs st /\ pidgets s0 = pidgets st /\ trace s0 = trace st /\
        forall i,
          (forall d0 k p, VDict d = VDict d0 -> k ∈ map fst d0 ->
                          type_getattr cls k <> Some (MParam i p)) ->
          values s0 !! i = values st !! i)); [| |exact Hf].
    - intros [k x] s0 r' s' Hin (Ha & Hp & Ht & Hv). cbn [fst snd].
      destruct (dict_get _ k) as [[i' p']|] eqn:Hget.
      + apply params_get in Hget. rewrite load_spec.
        destruct (loaded p' x); intros [= <- <-]; [|now repeat split].
        cbn. repeat split; try assumption.
        intros i Hi. rewrite lookup_insert_ne; [now apply Hv|].
        intros ->. apply (Hi d k p' eq_refl); [|exact Hget].
        apply list_elem_of_In, in_map_iff. exists (k, x).
        split; [reflexivity|].
        apply list_elem_of_In. eapply dict_pop_subset; eassumption.
      + intros [= <- <-]. now repeat split.
    - repeat split; congruence. }
  destruct Hloop as (Ha2 & Hp2 & Ht2 & Hv2).
  destruct r2 as [[]|e]; [|intros [= <- <-]; repeat split; auto].
  rewrite update_pidgets_exact. intros [= <- <-]. cbn.
  repeat split; auto.
  rewrite Ht2. f_equal. f_equal. unfold with_pidget. now rewrite Hp2.
Qed.

(** X9.  Loading touches only what the document names: whether
    [_loads] returns or raises, a parameter whose names are no keys of
    the document keeps the value it has, and the instance dictionary of
    the object is unchanged. *)
Theorem loads_frame s st r st' i :
  _loads cls s st = (r, st') ->
  (forall d k p, of_json s = VDict d -> k ∈ map fst d ->
                 type_getattr cls k <> Some (MParam i p)) ->
  values st' !! i = values st !! i /\ attrs st' = attrs st.
Proof.
  intros Hl Hi. destruct (loads_effects s st r st' Hl) as (Ha & _ & _ & Hv).
  split; [now apply Hv|exact Ha].
Qed.

(** X10.  [_loads] never calls an event handler.  When it returns, it
    has updated, once and in the order of the listing, the pidget of
    each parameter that has one; when it raises, it has called nothing. *)
Theorem loads_notifies_nobody s st r st' :
  _loads cls s st = (r, st') ->
  match r with
  | Ok _ => trace st' = (trace st ++
              map PidgetUpdated (with_pidget st (keys_and_params cls st')))%list
  | Raise _ => trace st' = trace st
  end.
Proof.
  intros Hl. now destruct (loads_effects s st r st' Hl) as (_ & _ & Ht & _).
Qed.

(** X11.  A document loads only if it is a JSON object each of whose
    keys, VERSION apart, is the name of a value parameter of the class:
    a key that names nothing, a ConstantParameter or a ClassParameter
    makes [_loads] raise, whatever the version. *)
Theorem loads_accepts_parameters_only s st st' :
  _loads cls s st = (Ok tt, st') ->
  exists d, of_json s = VDict d /\
    forall k, k ∈ map fst d ->
      k = "VERSION" \/
      exists i p, type_getattr cls k = Some (MParam i p) /\
                  is_ValueParameter p = true.
Proof.
  unfold _loads.
  destruct (of_json s) as [| | | | | | | |d| | | |]; try discriminate.
  exists d. split; [reflexivity|].
  destruct (dict_pop d "VERSION" VNone) as [version d'] eqn:Hpop.
  revert H0. unfold mbind at 1, M_bind at 1.
  destruct (getattr cls "VERSION" st) as [[self_version|e] st1]; [|discriminate].
  destruct (py_ne version self_version); [discriminate|].
  unfold mbind at 1, M_bind at 1. rewrite get_keys_and_params_spec.
  unfold mbind at 1, M_bind at 1.
  match goal with |- context [for_each d' ?b st1] =>
    destruct (for_each d' b st1) as [[[]|e] st2] eqn:Hf end; [|discriminate].
  intros _ k Hk.
  apply list_elem_of_In, in_map_iff in Hk as ([k' x] & [= ->] & Hin%list_elem_of_In).
  destruct (dict_pop_cover d "VERSION" VNone version d' k x Hpop Hin) as [?|Hin'];
    [now left|right].
  destruct (for_each_Ok _ _ _ _ Hf (k, x) Hin') as (s0 & s1 & Hb).
  cbn [fst snd] in Hb.
  destruct (dict_get _ k) as [[i p]|] eqn:Hget; [|discriminate].
  exists i, p. split; [eapply params_get, Hget|].
  unfold is_ValueParameter. unfold load in Hb.
  destruct (param_kind p); try reflexivity; discriminate.
Qed.
End LoadFacts.

Section LoadFactsExamples.
#[local] Existing Instance Reference.builtins.

Lemma loads_frame_witness :
  let s := JObj [("gain", JFloat 0.75); ("VERSION", JInt 2)] in
  let st := snd (__set__ 2 Demo.bin_count (VInt 9) Demo.fresh) in
  fst (_loads Demo.cls s st) = Ok tt /\
  values (snd (_loads Demo.cls s st)) !! 3%nat = Some (VFloat 0.75) /\
  values (snd (_loads Demo.cls s st)) !! 2%nat = values st !! 2%nat /\
  attrs (snd (_loads Demo.cls s st)) = attrs st.
Proof.
  intros s st. split; [vm_compute; reflexivity|].
  split; [vm_compute; reflexivity|].
  apply (loads_frame Demo.cls s st (fst (_loads Demo.cls s st))
           (snd (_loads Demo.cls s st)) 2%nat).
  - now destruct (_loads Demo.cls s st).
  - intros d k p Hd Hk. vm_compute in Hd. injection Hd as <-.
    cbn in Hk. apply elem_of_cons in Hk as [->|Hk];
      [vm_compute; discriminate|].
    apply list_elem_of_singleton in Hk as ->. vm_compute. discriminate.
Defined.

Lemma loads_notifies_nobody_witness :
  let s := JObj [("gain", JFloat 0.75); ("VERSION", JInt 2)] in
  let st := {| values := values Demo.listening; instances := instances Demo.listening;
               pidgets := {[3%nat; 5%nat]}; attrs := attrs Demo.listening;
               trace := [] |} in
  trace (snd (_loads Demo.cls s st)) = [PidgetUpdated 3; PidgetUpdated 5].
Proof.
  intros s st.
  pose proof (loads_notifies_nobody Demo.cls s st (fst (_loads Demo.cls s st))
                (snd (_loads Demo.cls s st))) as Hw.
  replace (fst (_loads Demo.cls s st)) with (Ok tt : result unit) in Hw
    by (vm_compute; reflexivity).
  assert (Hl : _loads Demo.cls s st = (Ok tt, snd (_loads Demo.cls s st)))
    by (vm_compute; reflexivity).
  specialize (Hw Hl). cbv beta iota in Hw. rewrite Hw.
  vm_compute. reflexivity.
Defined.

Lemma loads_accepts_parameters_only_witness :
  let s := JObj [("gain", JFloat 0.75); ("VERSION", JInt 2)] in
  exists d, of_json s = VDict d /\
    forall k, k ∈ map fst d ->
      k = "VERSION" \/
      exists i p, type_getattr Demo.cls k = Some (MParam i p) /\
                  is_ValueParameter p = true.
Proof.
  intros s.
  apply (loads_accepts_parameters_only Demo.cls s Demo.fresh
           (snd (_loads Demo.cls s Demo.fresh))).
  vm_compute. reflexivity.
Defined.
End LoadFactsExamples.

(** ** The listing of the parameters *)

Section ListingFacts.

Lemma string_compare_trans s1 s2 s3 :
  String.compare s1 s2 <> Gt -> String.compare s2 s3 <> Gt ->
  String.compare s1 s3 <> Gt.
Proof.
  revert s2 s3. induction s1 as [|c1 s1 IH]; intros [|c2 s2] [|c3 s3]; cbn;
    try congruence.
  unfold Ascii.compare.
  destruct (N.compare_spec (N_of_ascii c1) (N_of_ascii c2)) as [E12|L12|G12];
    [|intros _|congruence].
  - rewrite E12.
    destruct (N.compare (N_of_ascii c2) (N_of_ascii c3)); [apply IH|congruence..].
  - destruct (N.compare_spec (N_of_ascii c2) (N_of_ascii c3)) as [E23|L23|G23];
      [|intros _|congruence].
    + intros _. rewrite <- E23.
      apply N.compare_lt_iff in L12. now rewrite L12.
    + assert (L13 : (N_of_ascii c1 < N_of_ascii c3)%N) by lia.
      apply N.compare_lt_iff in L13. now rewrite L13.
Qed.

Lemma string_leb_trans s1 s2 s3 :
  String.leb s1 s2 = true -> String.leb s2 s3 = true -> String.leb s1 s3 = true.
Proof.
  unfold String.leb. intros H12 H23.
  pose proof (string_compare_trans s1 s2 s3) as Ht.
  destruct (String.compare s1 s2), (String.compare s2 s3),
    (String.compare s1 s3); try reflexivity; try discriminate;
    exfalso; apply Ht; congruence.
Qed.

Lemma string_leb_ltb s1 s2 :
  String.leb s1 s2 = true -> s1 <> s2 -> String.ltb s1 s2 = true.
Proof.
  unfold String.leb, String.ltb. intros Hle Hne.
  destruct (String.compare s1 s2) eqn:Hc; [|reflexivity|discriminate].
  now apply String.compare_eq_iff in Hc.
Qed.

(* insertion sort with a total, transitive order sorts *)
Lemma insert_sorted_StronglySorted {A} (leb : A -> A -> bool) x r :
  (forall a b, leb a b = true \/ leb b a = true) ->
  (forall a b c, leb a b = true -> leb b c = true -> leb a c = true) ->
  StronglySorted (fun a b => leb a b = true) r ->
  StronglySorted (fun a b => leb a b = true) (insert_sorted leb x r).
Proof.
  intros Htot Htrans. induction r as [|y r IHr]; cbn; intros Hs.
  - constructor; [constructor|constructor].
  - apply StronglySorted_inv in Hs as [Hr Hy].
    destruct (leb x y) eqn:Hxy.
    + constructor; [now constructor|].
      constructor; [exact Hxy|].
      eapply Forall_impl; [exact Hy|]. intros z. now apply Htrans.
    + constructor; [now apply IHr|].
      assert (Hyx : leb y x = true).
      { destruct (Htot x y); [congruence|assumption]. }
      apply Forall_forall. intros z Hz.
      rewrite insert_sorted_Permutation in Hz.
      apply elem_of_cons in Hz as [->|Hz]; [exact Hyx|].
      rewrite Forall_forall in Hy. now apply Hy.
Qed.

Lemma sorted_StronglySorted {A} (leb : A -> A -> bool) l :
  (forall a b, leb a b = true \/ leb b a = true) ->
  (forall a b c, leb a b = true -> leb b c = true -> leb a c = true) ->
  StronglySorted (fun a b => leb a b = true) (sorted leb l).
Proof.
  intros Htot Htrans. induction l as [|x l IH]; [constructor|].
  change (sorted leb (x :: l)) with (insert_sorted leb x (sorted leb l)).
  now apply insert_sorted_StronglySorted.
Qed.

Lemma StronglySorted_NoDup {A} (R : A -> A -> Prop) l :
  StronglySorted R l -> NoDup l ->
  StronglySorted (fun a b => R a b /\ a <> b) l.
Proof.
  induction 1 as [|x l Hs IH Hx]; intros Hn; [constructor|].
  apply NoDup_cons in Hn as [Hx' Hn]. constructor; [auto|].
  rewrite Forall_forall in *. intros y Hy. split; [auto|].
  intros ->. now apply Hx'.
Qed.

Lemma StronglySorted_weaken {A} (R R' : A -> A -> Prop) l :
  (forall a b, R a b -> R' a b) -> StronglySorted R l -> StronglySorted R' l.
Proof.
  intros HR. induction 1 as [|x l Hs IH Hx]; constructor; [exact IH|].
  eapply Forall_impl; [exact Hx|]. intros y. apply HR.
Qed.

Lemma StronglySorted_omap {A B} (R : A -> A -> Prop) (f : A -> option B)
    (g : B -> A) l :
  (forall a b, f a = Some b -> g b = a) ->
  StronglySorted R l ->
  StronglySorted (fun x y => R (g x) (g y)) (omap f l).
Proof.
  intros Hg. induction 1 as [|x l Hs IH Hx]; cbn; [constructor|].
  destruct (f x) as [b|] eqn:Hf; [|exact IH].
  constructor; [exact IH|].
  apply Forall_forall. intros y Hy.
  apply list_elem_of_omap in Hy as (a & Ha & Hfa).
  rewrite (Hg _ _ Hf), (Hg _ _ Hfa).
  rewrite Forall_forall in Hx. now apply Hx.
Qed.

(* a stable sort on a key keeps, among equal keys, the order it found *)
Lemma insert_sorted_stable {A} (key : A -> Z) (R : A -> A -> Prop) x r :
  StronglySorted (fun a b => key a < key b \/ (key a = key b /\ R a b)) r ->
  Forall (R x) r ->
  StronglySorted (fun a b => key a < key b \/ (key a = key b /\ R a b))
    (insert_sorted (fun a b => key a <=? key b) x r).
Proof.
  induction r as [|y r IHr]; cbn; intros Hs Hx.
  - constructor; constructor.
  - apply StronglySorted_inv in Hs as [Hr Hy].
    apply Forall_cons in Hx as [Hxy Hx].
    destruct (Z.leb_spec (key x) (key y)) as [Hle|Hgt].
    + constructor; [now constructor|].
      constructor.
      { destruct (Z.eq_dec (key x) (key y)); [right; now split|left; lia]. }
      rewrite Forall_forall in *. intros z Hz.
      specialize (Hy z Hz). specialize (Hx z Hz).
      destruct (Z.eq_dec (key x) (key z)); [right; now split|left].
      destruct Hy as [?|[? _]]; lia.
    + constructor; [now apply IHr|].
      apply Forall_forall. intros z Hz.
      rewrite (insert_sorted_Permutation (fun a b => key a <=? key b)) in Hz.
      apply elem_of_cons in Hz as [->|Hz]; [left; lia|].
      rewrite Forall_forall in Hy. now apply Hy.
Qed.

Lemma sorted_stable {A} (key : A -> Z) (R : A -> A -> Prop) l :
  StronglySorted R l ->
  StronglySorted (fun a b => key a < key b \/ (key a = key b /\ R a b))
    (sorted (fun a b => key a <=? key b) l).
Proof.
  induction 1 as [|x l Hs IH Hx]; [constructor|].
  change (sorted (fun a b => key a <=? key b) (x :: l))
    with (insert_sorted (fun a b => key a <=? key b) x
            (sorted (fun a b => key a <=? key b) l)).
  apply insert_sorted_stable; [exact IH|].
  rewrite Forall_forall in *. intros y Hy. apply Hx.
  now rewrite sorted_Permutation in Hy.
Qed.

Lemma StronglySorted_lookup {A} (R : A -> A -> Prop) l n m a b :
  StronglySorted R l -> l !! n = Some a -> l !! m = Some b -> (n < m)%nat ->
  R a b.
Proof.
  intros Hs. revert n m. induction Hs as [|x l Hs IH Hx]; intros n m;
    [discriminate|].
  destruct n as [|n], m as [|m]; cbn; try lia.
  - intros [= ->] Hb _. rewrite Forall_forall in Hx.
    apply Hx. eapply list_elem_of_lookup_2, Hb.
  - intros Ha Hb Hlt. apply (IH n m Ha Hb). lia.
Qed.

Variable cls : config_class.

Lemma keys_and_params_sorted st :
  StronglySorted listed_before (keys_and_params cls st).
Proof.
  unfold keys_and_params, listed_before.
  apply (sorted_stable (fun a => order (snd (snd a)))
           (fun a b => String.ltb (fst a) (fst b) = true)).
  apply (StronglySorted_omap (fun k1 k2 => String.ltb k1 k2 = true) _ fst).
  - intros k [k' [i p]] Hk. cbn.
    destruct (type_getattr cls k) as [[? ?|]|]; now simplify_eq.
  - apply (StronglySorted_weaken
             (fun k1 k2 => String.leb k1 k2 = true /\ k1 <> k2)).
    + intros k1 k2 [Hle Hne]. apply string_leb_ltb; [exact Hle|exact Hne].
    + apply (StronglySorted_NoDup (fun k1 k2 => String.leb k1 k2 = true)).
      * apply sorted_StronglySorted;
          [apply String.leb_total|apply string_leb_trans].
      * unfold dir. eapply NoDup_Permutation_proper;
          [apply sorted_Permutation|apply NoDup_elements].
Qed.

Lemma listed_before_asym a b : listed_before a b -> listed_before b a -> False.
Proof.
  unfold listed_before, String.ltb. intros [?|[? Hab]] [?|[? Hba]]; try lia.
  rewrite String.compare_antisym in Hba.
  destruct (String.compare (fst a) (fst b)); discriminate.
Qed.

(* two lists in strict order with the same elements are the same list *)
Lemma StronglySorted_unique {A} (R : A -> A -> Prop) l1 l2 :
  (forall a b, R a b -> R b a -> False) ->
  StronglySorted R l1 -> StronglySorted R l2 ->
  (forall x, x ∈ l1 <-> x ∈ l2) -> l1 = l2.
Proof.
  intros Hasym Hs1. revert l2.
  induction Hs1 as [|x1 l1 Hs1 IH Hx1]; intros l2 Hs2 Hel.
  - destruct l2 as [|x2 l2]; [reflexivity|].
    destruct (not_elem_of_nil x2). apply Hel. left.
  - destruct Hs2 as [|x2 l2 Hs2 Hx2].
    { destruct (not_elem_of_nil x1). apply Hel. left. }
    rewrite Forall_forall in Hx1, Hx2.
    assert (x1 = x2) as <-.
    { assert (H1 : x1 ∈ x2 :: l2) by (apply Hel; left).
      assert (H2 : x2 ∈ x1 :: l1) by (apply Hel; left).
      apply elem_of_cons in H1 as [?|H1]; [assumption|].
      apply elem_of_cons in H2 as [?|H2]; [congruence|].
      destruct (Hasym x1 x2); auto. }
    f_equal. apply IH; [exact Hs2|].
    intros y. split; intros Hy.
    + assert (Hy' : y ∈ x1 :: l2) by (apply Hel; now right).
      apply elem_of_cons in Hy' as [->|?]; [|assumption].
      destruct (Hasym x1 x1); auto.
    + assert (Hy' : y ∈ x1 :: l1) by (apply Hel; now right).
      apply elem_of_cons in Hy' as [->|?]; [|assumption].
      destruct (Hasym x1 x1); auto.
Qed.

(** X12.  In the listing of [_get_keys_and_params] the parameters come
    by increasing [order], and those of equal [order] by name: of two
    entries, the one listed first has the smaller [order], or the same
    [order] and the smaller name. *)
Theorem listing_order st n m a b :
  keys_and_params cls st !! n = Some a ->
  keys_and_params cls st !! m = Some b ->
  (n < m)%nat ->
  listed_before a b.
Proof.
  apply (StronglySorted_lookup listed_before), keys_and_params_sorted.
Qed.

Lemma keys_and_params_class_only st st' :
  keys_and_params cls st = keys_and_params cls st'.
Proof.
  apply (StronglySorted_unique listed_before).
  - apply listed_before_asym.
  - apply keys_and_params_sorted.
  - apply keys_and_params_sorted.
  - intros [k [i p]]. now rewrite !keys_and_params_elem.
Qed.

(** X17.  The listing is a matter of the class alone: what the instance
    dictionary of the object holds changes neither the parameters that
    [_get_keys_and_params] lists nor their order, so neither does an
    assignment to the object. *)
Theorem listing_independent_of_object `{Builtins} st st' name v :
  keys_and_params cls st = keys_and_params cls st' /\
  fst (_get_keys_and_params cls (snd (__setattr__ cls name v st)))
  = fst (_get_keys_and_params cls st).
Proof.
  split; [apply keys_and_params_class_only|].
  rewrite !get_keys_and_params_spec. cbn [fst]. f_equal.
  apply keys_and_params_class_only.
Qed.
End ListingFacts.

Section ListingFactsExamples.
#[local] Existing Instance Reference.builtins.

Lemma listing_order_witness :
  map fst (keys_and_params Demo.cls Demo.fresh)
  = ["background"; "service"; "sensor"; "range_interval"; "bin_count"; "gain";
     "mode"; "enabled"; "downsampling"; "window"] /\
  listed_before ("background", (9%nat, Demo.background_kw))
                ("service", (8%nat, Demo.service_kw)).
Proof.
  split; [vm_compute; reflexivity|].
  apply (listing_order Demo.cls Demo.fresh 0 1); [vm_compute; reflexivity..|lia].
Defined.
End ListingFactsExamples.

(** ** Dumping *)

Section DumpFacts.
Context `{Builtins}.
Variable cls : config_class.

Lemma dumped_all_Ok_inv params d st d' :
  dumped_all params d st = Ok d' ->
  forall k i p, (k, (i, p)) ∈ params -> does_dump p = true ->
    exists v, dumped p (current i p st) = Ok v.
Proof.
  revert d. induction params as [|[k0 [i0 p0]] params IH]; intros d; cbn.
  - intros _ k i p []%elem_of_nil.
  - intros Hd k i p [[= -> -> ->]|Hin]%elem_of_cons Hp.
    + rewrite Hp in Hd. destruct (dumped p0 (current i0 p0 st)); [eauto|discriminate].
    + destruct (does_dump p0); [|eapply IH; eassumption].
      destruct (dumped p0 (current i0 p0 st)); [|discriminate].
      eapply IH; eassumption.
Qed.

(** X13.  Dumping only reads: whether [_dumps] returns or raises, the
    values stored for the object, its instance dictionary, its pidgets
    and the record of outside calls are what they were. *)
Theorem dumps_reads_only st r st' :
  _dumps cls st = (r, st') -> same_data st st'.
Proof.
  rewrite dumps_spec.
  destruct (dumped_all (keys_and_params cls st) [] st);
    [|intros [= _ <-]; now repeat split].
  destruct (getattr cls "VERSION" st) as [[version|e] st1] eqn:Hg;
    apply getattr_frame in Hg as [Hs _]; now intros [= _ <-].
Qed.

(** X14.  [_dumps] returns only if every parameter that dumps can be
    dumped: it is a value parameter, an EnumParameter among them holds
    an enum member and a FloatRangeParameter holds something other than
    None.  So an optional enum or range that is unset, or a
    ConstantParameter declared with does_dump, makes every dump raise. *)
Theorem dumps_needs_dumpable st s st' k i p :
  _dumps cls st = (Ok s, st') ->
  type_getattr cls k = Some (MParam i p) ->
  does_dump p = true ->
  is_ValueParameter p = true /\
  (param_kind p = EnumParameter -> exists c n, current i p st = VEnum c n) /\
  (param_kind p = FloatRangeParameter -> current i p st <> VNone).
Proof.
  rewrite dumps_spec. intros Hd Ht Hp.
  destruct (dumped_all (keys_and_params cls st) [] st) as [d|] eqn:Hall;
    [|discriminate].
  apply keys_and_params_elem with (st := st) in Ht.
  destruct (dumped_all_Ok_inv _ _ _ _ Hall k i p Ht Hp) as [v Hv].
  unfold dumped in Hv. unfold is_ValueParameter.
  destruct (param_kind p); try discriminate;
    (split; [reflexivity|]); (split; [|]); try discriminate.
  - intros _. destruct (current i p st); try discriminate. eauto.
  - intros _ Hn. rewrite Hn in Hv. discriminate.
Qed.
End DumpFacts.

Section DumpFactsExamples.
#[local] Existing Instance Reference.builtins.

Lemma dumps_reads_only_witness :
  same_data Demo.tuned (snd (_dumps Demo.cls Demo.tuned)) /\
  same_data Demo.foreign (snd (_dumps Demo.cls Demo.foreign)).
Proof.
  split.
  - apply (dumps_reads_only Demo.cls Demo.tuned (fst (_dumps Demo.cls Demo.tuned))).
    now destruct (_dumps Demo.cls Demo.tuned).
  - apply (dumps_reads_only Demo.cls Demo.foreign (fst (_dumps Demo.cls Demo.foreign))).
    now destruct (_dumps Demo.cls Demo.foreign).
Defined.

Lemma dumps_needs_dumpable_witness :
  (exists s, fst (_dumps Demo.cls Demo.tuned) = Ok s) /\
  does_dump Demo.mode = true /\
  is_ValueParameter Demo.mode = true /\
  (param_kind Demo.mode = EnumParameter ->
   exists c n, current 4 Demo.mode Demo.tuned = VEnum c n) /\
  (param_kind Demo.mode = FloatRangeParameter ->
   current 4 Demo.mode Demo.tuned <> VNone).
Proof.
  destruct (_dumps Demo.cls Demo.tuned) as [[s|e] st'] eqn:Hd;
    [|vm_compute in Hd; discriminate].
  split; [now exists s|]. split; [vm_compute; reflexivity|].
  apply (dumps_needs_dumpable Demo.cls Demo.tuned s st' "mode" 4 Demo.mode Hd);
    vm_compute; reflexivity.
Defined.
End DumpFactsExamples.

(** ** Resetting *)

Section ResetFacts.
Context `{Builtins}.
Variable cls : config_class.

Lemma reset_step_constant i p st :
  param_kind p = ConstantParameter ->
  (_ ← __delete__ i p; update_pidget i) st
  = (Raise (AttributeError "'ConstantParameter' object has no attribute '__delete__'"),
     st).
Proof. intros Hk. unfold mbind, M_bind, __delete__. now rewrite Hk. Qed.

Lemma reset_step i p st :
  param_kind p <> ConstantParameter ->
  exists st2,
    (_ ← __delete__ i p; update_pidget i) st = (Ok tt, st2) /\
    attrs st2 = attrs st /\ pidgets st2 = pidgets st /\
    trace st2 = (trace st ++
                 if bool_decide (i ∈ pidgets st) then [PidgetUpdated i] else [])%list /\
    (forall j, values st2 !! j = None \/ values st2 !! j = values st !! j) /\
    (is_ValueParameter p = true -> values st2 !! i = None).
Proof.
  intros Hk. unfold mbind, M_bind, __delete__, update_pidget, is_ValueParameter.
  unfold mbind, M_bind, get_state, modify.
  destruct (param_kind p); try congruence; cbn [pidgets set_values set_instances];
    destruct (bool_decide (i ∈ pidgets st)); eexists; (split; [reflexivity|]);
    cbn; rewrite ?app_nil_r; repeat split; try discriminate; auto;
    try (intros j; destruct (decide (j = i)) as [->|Hne];
         [left; apply lookup_delete_eq|right; now apply lookup_delete_ne]);
    try (intros _; apply lookup_delete_eq).
Qed.

Lemma reset_loop l st :
  exists r st',
    for_each l (fun ip => _ ← __delete__ (fst ip) (snd ip); update_pidget (fst ip)) st
    = (r, st') /\
    attrs st' = attrs st /\ pidgets st' = pidgets st /\
    (forall j, values st' !! j = None \/ values st' !! j = values st !! j) /\
    match r with
    | Ok _ =>
        trace st' = (trace st ++
                     map PidgetUpdated
                       (List.filter (fun i => bool_decide (i ∈ pidgets st))
                          (map fst l)))%list /\
        (forall i p, (i, p) ∈ l -> param_kind p <> ConstantParameter) /\
        (forall i p, (i, p) ∈ l -> is_ValueParameter p = true ->
                     values st' !! i = None)
    | Raise e =>
        e = AttributeError "'ConstantParameter' object has no attribute '__delete__'" /\
        (exists upd, trace st' = (trace st ++ map PidgetUpdated upd)%list) /\
        (exists i p, (i, p) ∈ l /\ param_kind p = ConstantParameter)
    end.
Proof.
  revert st. induction l as [|[i p] l IH]; intros st; cbn [for_each].
  - exists (Ok tt), st. split; [reflexivity|]. cbn. rewrite app_nil_r.
    repeat split; auto; intros ? ? []%elem_of_nil.
  - unfold mbind at 1, M_bind at 1. cbn [fst snd].
    assert (param_kind p = ConstantParameter \/ param_kind p <> ConstantParameter)
      as [Hc|Hc] by (destruct (param_kind p); (now left) || (now right)).
    + rewrite (reset_step_constant i p st Hc).
      eexists _, st. split; [reflexivity|]. repeat split; auto.
      * exists []. cbn. now rewrite app_nil_r.
      * exists i, p. split; [left|exact Hc].
    + destruct (reset_step i p st Hc) as (st2 & -> & Ha & Hp & Ht & Hv & Hi).
      destruct (IH st2) as (r & st' & -> & Ha' & Hp' & Hv' & Hr).
      exists r, st'. split; [reflexivity|].
      split; [congruence|]. split; [congruence|].
      split.
      { intros j. destruct (Hv' j) as [?|Hj]; [now left|].
        rewrite Hj. apply Hv. }
      destruct r as [[]|e].
      * destruct Hr as (Ht' & Hnc & Hd). repeat split.
        -- rewrite Ht', Ht, Hp. cbn [map List.filter fst].
           rewrite <- app_assoc. f_equal.
           destruct (bool_decide (i ∈ pidgets st)); reflexivity.
        -- intros j q [[= -> ->]|Hin]%elem_of_cons; [exact Hc|eauto].
        -- intros j q [[= -> ->]|Hin]%elem_of_cons Hq; [|eauto].
           destruct (Hv' i) as [?|Hj]; [assumption|]. rewrite Hj. auto.
      * destruct Hr as (-> & [upd Hu] & (j & q & Hin & Hq)). repeat split.
        -- eexists (_ ++ upd)%list. rewrite Hu, Ht, map_app, app_assoc.
           f_equal. f_equal.
           instantiate (1 := if bool_decide (i ∈ pidgets st) then [i] else []).
           now destruct (bool_decide (i ∈ pidgets st)).
        -- exists j, q. split; [now right|exact Hq].
Qed.

Lemma listed_params st i p :
  (i, p) ∈ map snd (keys_and_params cls st) <->
  exists k, type_getattr cls k = Some (MParam i p).
Proof.
  rewrite list_elem_of_fmap. split.
  - intros ([k [j q]] & [= -> ->] & Hin). exists k.
    now apply keys_and_params_elem in Hin.
  - intros [k Hk]. exists (k, (i, p)). split; [reflexivity|].
    now apply keys_and_params_elem.
Qed.

Lemma get_params_spec st :
  _get_params cls st = (Ok (map snd (keys_and_params cls st)), st).
Proof.
  unfold _get_params, mbind, M_bind. now rewrite get_keys_and_params_spec.
Qed.

Lemma reset_eq st :
  _reset cls st
  = match for_each (map snd (keys_and_params cls st))
            (fun ip => _ ← __delete__ (fst ip) (snd ip); update_pidget (fst ip)) st
    with
    | (Ok _, st1) => _parameter_event_handler cls st1
    | (Raise e, st1) => (Raise e, st1)
    end.
Proof.
  unfold _reset. unfold mbind at 1, M_bind at 1. rewrite get_params_spec.
  unfold mbind at 1, M_bind at 1. reflexivity.
Qed.

Lemma reset_cases st :
  exists r st1,
    for_each (map snd (keys_and_params cls st))
      (fun ip => _ ← __delete__ (fst ip) (snd ip); update_pidget (fst ip)) st
    = (r, st1) /\
    _reset cls st = match r with
                    | Ok _ => _parameter_event_handler cls st1
                    | Raise e => (Raise e, st1)
                    end.
Proof.
  rewrite reset_eq.
  match goal with |- context [for_each ?l ?b st] =>
    destruct (for_each l b st) as [r st1] eqn:Hf end.
  exists r, st1. split; [reflexivity|]. now destruct r as [[]|e].
Qed.

(** X15.  When no parameter of the class is a ConstantParameter and the
    handlers are callable, [_reset] returns; afterwards every value
    parameter reads its default, the pidgets have been updated in the
    order of the listing, and then each handler has been called once,
    with the object as it is after the reset. *)
Theorem reset_restores_defaults st ids :
  (forall k i p, type_getattr cls k = Some (MParam i p) ->
                 param_kind p <> ConstantParameter) ->
  (forall j q, type_getattr cls "_event_handlers" <> Some (MParam j q)) ->
  attrs st !! "_event_handlers" = Some (VSet (map VCallable ids)) ->
  exists st',
    _reset cls st = (Ok tt, st') /\
    (forall k i p, type_getattr cls k = Some (MParam i p) ->
                   is_ValueParameter p = true ->
                   fst (__get__ i p st') = Ok (default_value p)) /\
    attrs st' = attrs st /\
    trace st' = (trace st ++
                 map PidgetUpdated (with_pidget st (keys_and_params cls st)) ++
                 map (fun h => Notified h (values st')) ids)%list.
Proof.
  intros Hnc Hplain Hh.
  destruct (reset_cases st) as (r & st1 & Hf & ->).
  destruct (reset_loop (map snd (keys_and_params cls st)) st)
    as (r' & st1' & Hf' & Ha & Hp & Hv & Hr).
  rewrite Hf in Hf'. injection Hf' as <- <-.
  destruct r as [[]|e].
  - destruct Hr as (Ht & _ & Hd).
    unfold _parameter_event_handler. unfold mbind at 1, M_bind at 1.
    rewrite (getattr_plain cls "_event_handlers" (VSet (map VCallable ids)))
      by (try assumption; now rewrite Ha).
    unfold mbind at 1, M_bind at 1. cbn [lift py_list]. rewrite call_all.
    eexists. split; [reflexivity|]. cbn [values attrs trace].
    split; [|split; [exact Ha|]].
    + intros k i p Hk Hvp. rewrite (get_value_parameter i p _ Hvp).
      cbn [fst]. unfold current. cbn [values].
      rewrite (Hd i p); [reflexivity| |exact Hvp].
      apply listed_params. now exists k.
    + rewrite Ht, <- app_assoc. unfold with_pidget.
      now rewrite map_map.
  - destruct Hr as (_ & _ & (i & p & Hin & Hc)).
    apply listed_params in Hin as [k Hk]. now destruct (Hnc k i p Hk).
Qed.

(** X16.  A class that has a ConstantParameter cannot be reset:
    ConstantParameter defines no [__delete__], so [_reset] raises an
    AttributeError, and it does so before any handler is called. *)
Theorem reset_fails_on_constant st k i p :
  type_getattr cls k = Some (MParam i p) ->
  param_kind p = ConstantParameter ->
  exists st' upd,
    _reset cls st
    = (Raise (AttributeError "'ConstantParameter' object has no attribute '__delete__'"),
       st') /\
    attrs st' = attrs st /\
    trace st' = (trace st ++ map PidgetUpdated upd)%list.
Proof.
  intros Hk Hc.
  destruct (reset_cases st) as (r & st1 & Hf & ->).
  destruct (reset_loop (map snd (keys_and_params cls st)) st)
    as (r' & st1' & Hf' & Ha & Hp & Hv & Hr).
  rewrite Hf in Hf'. injection Hf' as <- <-.
  destruct r as [[]|e].
  - destruct Hr as (_ & Hnc & _). destruct (Hnc i p); [|exact Hc].
    apply listed_params. now exists k.
  - destruct Hr as (-> & [upd Hu] & _). now exists st1, upd.
Qed.
End ResetFacts.

Section ResetFactsExamples.
#[local] Existing Instance Reference.builtins.

Lemma reset_restores_defaults_witness :
  exists st',
    _reset Sparse.cls Sparse.busy = (Ok tt, st') /\
    (forall k i p, type_getattr Sparse.cls k = Some (MParam i p) ->
                   is_ValueParameter p = true ->
                   fst (__get__ i p st') = Ok (default_value p)) /\
    attrs st' = attrs Sparse.busy /\
    trace st' = (trace Sparse.busy ++
                 map PidgetUpdated
                   (with_pidget Sparse.busy (keys_and_params Sparse.cls Sparse.busy)) ++
                 map (fun h => Notified h (values st')) [1; 2]%nat)%list.
Proof.
  apply (reset_restores_defaults Sparse.cls Sparse.busy [1; 2]%nat).
  - intros k i p Hk. apply type_getattr_descriptor in Hk.
    destruct i as [|[|[|i]]]; vm_compute in Hk; [injection Hk as <-..|discriminate];
      discriminate.
  - vm_compute. discriminate.
  - vm_compute. reflexivity.
Defined.

Lemma reset_fails_on_constant_witness :
  exists st' upd,
    _reset Demo.cls Demo.tuned
    = (Raise (AttributeError "'ConstantParameter' object has no attribute '__delete__'"),
       st') /\
    attrs st' = attrs Demo.tuned /\
    trace st' = (trace Demo.tuned ++ map PidgetUpdated upd)%list.
Proof.
  apply (reset_fails_on_constant Demo.cls Demo.tuned "service" 8 Demo.service_kw).
  - vm_compute. reflexivity.
  - reflexivity.
Defined.
End ResetFactsExamples.

(** ** The state of the object *)

Section StateFacts.
Context `{Builtins}.
Variable cls : config_class.

(** X18.  Assigning to [_state] always succeeds: the new state is what
    [_state] then reads, no parameter value changes, and the pidgets are
    updated, each once, exactly when the new state differs from the
    old one; no event handler is called. *)
Theorem state_setter_effect v0 state st :
  type_getattr cls "_Config__state" = Some (MPlain v0) ->
  exists st',
    _state_setter cls state st = (Ok tt, st') /\
    fst (_state_getter cls st') = Ok state /\
    values st' = values st /\
    trace st' = (trace st ++
                 if py_ne (default v0 (attrs st !! "_Config__state")) state
                 then map PidgetUpdated (with_pidget st (keys_and_params cls st))
                 else [])%list.
Proof.
  intros Ht. unfold _state_setter, _state_getter.
  unfold mbind at 1, M_bind at 1.
  assert (Hget : forall s, getattr cls "_Config__state" s
                 = (Ok (default v0 (attrs s !! "_Config__state")), s)).
  { intros s. unfold getattr. rewrite Ht. unfold mbind, M_bind, get_state.
    now destruct (attrs s !! "_Config__state"). }
  rewrite Hget. unfold mbind at 1, M_bind at 1.
  rewrite setattr_cases, Ht.
  destruct (py_ne (default v0 (attrs st !! "_Config__state")) state).
  - rewrite update_pidgets_exact. eexists. split; [reflexivity|].
    rewrite Hget. cbn. rewrite lookup_insert_eq. repeat split.
    unfold with_pidget. cbn.
    now rewrite (keys_and_params_class_only cls _ st).
  - eexists. split; [reflexivity|]. rewrite Hget. cbn.
    rewrite lookup_insert_eq, app_nil_r. now repeat split.
Qed.
End StateFacts.

Section StateFactsExamples.
#[local] Existing Instance Reference.builtins.

Lemma state_setter_effect_witness :
  exists st',
    _state_setter Sparse.cls (VEnum "State" "LOADED") Sparse.busy = (Ok tt, st') /\
    fst (_state_getter Sparse.cls st') = Ok (VEnum "State" "LOADED") /\
    values st' = values Sparse.busy /\
    trace st' = (trace Sparse.busy ++
                 if py_ne (default VNone (attrs Sparse.busy !! "_Config__state"))
                      (VEnum "State" "LOADED")
                 then map PidgetUpdated
                        (with_pidget Sparse.busy
                           (keys_and_params Sparse.cls Sparse.busy))
                 else [])%list.
Proof.
  apply (state_setter_effect Sparse.cls VNone (VEnum "State" "LOADED") Sparse.busy).
  vm_compute. reflexivity.
Defined.
End StateFactsExamples.

(** ** What a load stores *)

Section LoadStores.
Context `{Builtins}.
Variable cls : config_class.

Lemma dict_set_keys_NoDup {V} (l : list (string * V)) acc :
  NoDup (map fst acc) ->
  NoDup (map fst (fold_left (fun d kv => dict_set d (fst kv) (snd kv)) l acc)).
Proof.
  revert acc. induction l as [|[k v] l IH]; intros acc Hn; cbn; [exact Hn|].
  apply IH. now apply dict_set_NoDup.
Qed.

Lemma dict_of_keys_NoDup {V} (l : list (string * V)) : NoDup (map fst (dict_of l)).
Proof. apply dict_set_keys_NoDup. constructor. Qed.

Lemma dict_del_NoDup {V} (d : list (string * V)) k :
  NoDup (map fst d) -> NoDup (map fst (dict_del d k)).
Proof.
  induction d as [|[k0 v0] d IH]; cbn; [auto|].
  intros [Hk Hd]%NoDup_cons. destruct (String.eqb k0 k); [exact Hd|].
  cbn. apply NoDup_cons. split; [|auto].
  intros Hin. apply Hk.
  apply list_elem_of_fmap in Hin as ([k1 v1] & -> & Hin).
  apply list_elem_of_fmap. exists (k1, v1). split; [reflexivity|].
  eapply dict_del_subset, Hin.
Qed.

Lemma dict_pop_NoDup {V} (d : list (string * V)) k dflt v d' :
  dict_pop d k dflt = (v, d') -> NoDup (map fst d) -> NoDup (map fst d').
Proof.
  unfold dict_pop. destruct (dict_get d k); intros [= _ <-]; [|auto].
  apply dict_del_NoDup.
Qed.

Lemma of_json_keys_NoDup s d : of_json s = VDict d -> NoDup (map fst d).
Proof.
  destruct s; try discriminate. cbn. intros [= <-]. apply dict_of_keys_NoDup.
Qed.

Lemma load_loop_frame (params : list (string * (nat * parameter))) l st r st' i :
  for_each l (fun kv =>
    match dict_get params (fst kv) with
    | Some (i, p) => load i p (snd kv)
    | None => raise (KeyError (VStr (fst kv)))
    end) st = (r, st') ->
  (forall k' p', k' ∈ map fst l -> dict_get params k' <> Some (i, p')) ->
  values st' !! i = values st !! i.
Proof.
  intros Hf Hi.
  eapply (for_each_preserves _ (fun s0 => values s0 !! i = values st !! i));
    [|reflexivity|exact Hf].
  intros [k x] s0 r' s' Hin Hv. cbn [fst snd].
  destruct (dict_get params k) as [[i' p']|] eqn:Hget.
  - rewrite load_spec.
    destruct (loaded p' x); intros [= <- <-]; [|exact Hv].
    cbn. rewrite lookup_insert_ne; [exact Hv|].
    intros ->. apply (Hi k p'); [|exact Hget].
    apply list_elem_of_fmap. now exists (k, x).
  - now intros [= <- <-].
Qed.

Lemma load_loop_stores (params : list (string * (nat * parameter))) l st st' k x i p :
  NoDup (map fst l) ->
  for_each l (fun kv =>
    match dict_get params (fst kv) with
    | Some (i, p) => load i p (snd kv)
    | None => raise (KeyError (VStr (fst kv)))
    end) st = (Ok tt, st') ->
  (k, x) ∈ l ->
  dict_get params k = Some (i, p) ->
  (forall k' p', k' ∈ map fst l -> dict_get params k' = Some (i, p') -> k' = k) ->
  exists w, loaded p x = Ok w /\ values st' !! i = Some w.
Proof.
  revert st. induction l as [|[k0 x0] l IH]; intros st Hn Hf Hin Hg Hu.
  - now apply elem_of_nil in Hin.
  - cbn [map fst] in Hn. apply NoDup_cons in Hn as [Hk0 Hn].
    cbn [for_each] in Hf. unfold mbind at 1, M_bind at 1 in Hf.
    cbn [fst snd] in Hf.
    match type of Hf with context [for_each l ?b] => set (body := b) in * end.
    apply elem_of_cons in Hin as [[= <- <-]|Hin].
    + rewrite Hg, load_spec in Hf.
      destruct (loaded p x) as [w|]; [|discriminate].
      exists w. split; [reflexivity|].
      rewrite (load_loop_frame params l _ _ _ i Hf).
      * cbn. apply lookup_insert_eq.
      * intros k' p' Hk' Hg'. apply Hk0.
        rewrite <- (Hu k' p'); [exact Hk'| now right |exact Hg'].
    + destruct (match dict_get params k0 with
                | Some (i0, p0) => load i0 p0 x0
                | None => raise (KeyError (VStr k0))
                end st) as [[[]|e] st1]; [|discriminate].
      apply (IH st1 Hn Hf Hin Hg).
      intros k' p' Hk'. apply Hu. now right.
Qed.

(** X19.  After [_loads] has returned, a parameter that the document
    names (under one name only) holds what its [load] makes of the
    value in the document, and reading the attribute gives it. *)
Theorem loads_stores s st st' d k x i p :
  _loads cls s st = (Ok tt, st') ->
  of_json s = VDict d ->
  (k, x) ∈ d -> k <> "VERSION" ->
  type_getattr cls k = Some (MParam i p) ->
  (forall k' p', k' ∈ map fst d -> type_getattr cls k' = Some (MParam i p') ->
                 k' = k) ->
  exists w, loaded p x = Ok w /\ fst (getattr cls k st') = Ok w.
Proof.
  intros Hl Hj Hin Hk Ht Hu. pose proof (of_json_keys_NoDup s d Hj) as Hn.
  revert Hl. unfold _loads. rewrite Hj.
  destruct (dict_pop d "VERSION" VNone) as [version d'] eqn:Hpop.
  unfold mbind at 1, M_bind at 1.
  destruct (getattr cls "VERSION" st) as [[self_version|e] st1]; [|discriminate].
  destruct (py_ne version self_version); [discriminate|].
  unfold mbind at 1, M_bind at 1. rewrite get_keys_and_params_spec.
  unfold mbind at 1, M_bind at 1.
  rewrite dict_of_NoDup by apply keys_and_params_NoDup.
  match goal with |- context [for_each d' ?b st1] =>
    destruct (for_each d' b st1) as [[[]|e] st2] eqn:Hf end; [|discriminate].
  rewrite update_pidgets_exact. intros [= <-].
  destruct (load_loop_stores (keys_and_params cls st1) d' st1 st2 k x i p)
    as (w & Hw & Hv).
  - eapply dict_pop_NoDup; eassumption.
  - exact Hf.
  - destruct (dict_pop_cover d "VERSION" VNone version d' k x Hpop Hin);
      [congruence|assumption].
  - now apply keys_and_params_get.
  - intros k' p' Hk' Hg'. apply (Hu k' p').
    + apply list_elem_of_fmap in Hk' as ([k1 x1] & -> & Hk').
      apply list_elem_of_fmap. exists (k1, x1). split; [reflexivity|].
      eapply dict_pop_subset; eassumption.
    + apply dict_get_elem in Hg'. now apply keys_and_params_elem in Hg'.
  - exists w. split; [exact Hw|].
    unfold getattr. rewrite Ht.
    assert (Hvp : is_ValueParameter p = true).
    { unfold loaded in Hw. unfold is_ValueParameter.
      destruct (param_kind p); try reflexivity; discriminate. }
    rewrite (get_value_parameter i p _ Hvp). cbn [fst].
    unfold current. cbn [values]. now rewrite Hv.
Qed.
End LoadStores.

Section LoadStoresExamples.
#[local] Existing Instance Reference.builtins.

Lemma loads_stores_witness :
  let s := JObj [("gain", JFloat 0.754); ("mode", JStr "B"); ("VERSION", JInt 2)] in
  exists w,
    loaded Demo.gain (VFloat 0.754) = Ok w /\
    fst (getattr Demo.cls "gain" (snd (_loads Demo.cls s Demo.fresh))) = Ok w.
Proof.
  intros s.
  apply (loads_stores Demo.cls s Demo.fresh (snd (_loads Demo.cls s Demo.fresh))
           [("gain", VFloat 0.754); ("mode", VStr "B"); ("VERSION", VInt 2)]
           "gain" (VFloat 0.754) 3 Demo.gain).
  - vm_compute. reflexivity.
  - vm_compute. reflexivity.
  - left.
  - discriminate.
  - vm_compute. reflexivity.
  - intros k' p' Hk' Hg'. cbn in Hk'.
    repeat (apply elem_of_cons in Hk' as [->|Hk']; [try reflexivity|]).
    + vm_compute in Hg'. discriminate.
    + vm_compute in Hg'. discriminate.
    + now apply elem_of_nil in Hk'.
Defined.
End LoadStoresExamples.

(** ** ReferenceData *)

Section ReferenceDataFacts.
Import ReferenceData.
Context `{Builtins}.
Variable cls : config_class.

Lemma handlers_called ids c :
  (forall j q, type_getattr cls "_event_handlers" <> Some (MParam j q)) ->
  attrs c !! "_event_handlers" = Some (VSet (map VCallable ids)) ->
  _parameter_event_handler cls c = (Ok tt, rounds_of_calls 1 ids c).
Proof.
  intros Hn Ha. unfold _parameter_event_handler. unfold mbind at 1, M_bind at 1.
  rewrite (getattr_plain cls "_event_handlers" (VSet (map VCallable ids)))
    by assumption.
  unfold mbind at 1, M_bind at 1. cbn [lift py_list]. rewrite call_all.
  unfold rounds_of_calls. cbn. now rewrite app_nil_r.
Qed.

Lemma rounds_of_calls_S n ids c :
  rounds_of_calls 1 ids (rounds_of_calls n ids c) = rounds_of_calls (S n) ids c.
Proof.
  unfold rounds_of_calls. cbn [values instances pidgets attrs trace].
  f_equal. rewrite <- app_assoc. f_equal.
  cbn [replicate concat]. rewrite app_nil_r.
  induction n as [|n IH]; cbn [replicate concat]; [now rewrite app_nil_r|].
  now rewrite <- app_assoc, IH.
Qed.

Lemma notify_spec ids n a c :
  (forall j q, type_getattr cls "_event_handlers" <> Some (MParam j q)) ->
  attrs c !! "_event_handlers" = Some (VSet (map VCallable ids)) ->
  __notify cls {| self := a; _parent_instance := rounds_of_calls n ids c |}
  = (Ok tt, {| self := a; _parent_instance := rounds_of_calls (S n) ids c |}).
Proof.
  intros Hn Ha. unfold __notify. cbn [_parent_instance self].
  rewrite (handlers_called ids) by assumption.
  now rewrite rounds_of_calls_S.
Qed.

Lemma rounds_of_calls_0 ids c : rounds_of_calls 0 ids c = c.
Proof. unfold rounds_of_calls. cbn. rewrite app_nil_r. now destruct c. Qed.

(** X20.  With callable handlers, [load_buffered] returns; afterwards
    the loaded data are the buffered data, [use] is True, the source is
    "buffer" with no source file, [is_loaded] is what [has_buffered]
    was, and each handler of the parent has been called four times,
    once for each attribute that was assigned. *)
Theorem load_buffered_effect ids w :
  (forall j q, type_getattr cls "_event_handlers" <> Some (MParam j q)) ->
  attrs (_parent_instance w) !! "_event_handlers" = Some (VSet (map VCallable ids)) ->
  exists w',
    load_buffered cls w = (Ok tt, w') /\
    self w' = {| _buffer_size := _buffer_size (self w);
                 _buffered_data := _buffered_data (self w);
                 _loaded_data := _buffered_data (self w);
                 _use := VBool true; _source := VStr "buffer";
                 _source_file := VNone; _error := _error (self w) |} /\
    fst (is_loaded w') = fst (has_buffered w) /\
    _parent_instance w' = rounds_of_calls 4 ids (_parent_instance w).
Proof.
  intros Hn Ha. destruct w as [a c]. cbn [_parent_instance self] in *.
  assert (Hgen : forall n, exists w',
    load_buffered cls {| self := a; _parent_instance := rounds_of_calls n ids c |}
    = (Ok tt, w') /\
    self w' = {| _buffer_size := _buffer_size a;
                 _buffered_data := _buffered_data a;
                 _loaded_data := _buffered_data a;
                 _use := VBool true; _source := VStr "buffer";
                 _source_file := VNone; _error := _error a |} /\
    fst (is_loaded w') = fst (has_buffered {| self := a; _parent_instance := c |}) /\
    _parent_instance w' = rounds_of_calls (4 + n) ids c).
  { intros n.
    unfold load_buffered, set_loaded_data, set_use, set_source, set_source_file,
      buffered_data, read, store.
    unfold mbind, RM_bind. cbn [self _parent_instance].
    repeat (rewrite (notify_spec ids) by assumption;
            cbv beta iota; cbn [self _parent_instance]).
    eexists. split; [reflexivity|]. cbn. repeat split. }
  specialize (Hgen 0%nat). now rewrite rounds_of_calls_0 in Hgen.
Qed.

(** X21.  With callable handlers, [unload] returns; afterwards nothing
    is loaded, source, source file and error are None, while the
    buffered data, the buffer size and [use] are as they were, and each
    handler of the parent has been called four times. *)
Theorem unload_effect ids w :
  (forall j q, type_getattr cls "_event_handlers" <> Some (MParam j q)) ->
  attrs (_parent_instance w) !! "_event_handlers" = Some (VSet (map VCallable ids)) ->
  exists w',
    unload cls w = (Ok tt, w') /\
    self w' = {| _buffer_size := _buffer_size (self w);
                 _buffered_data := _buffered_data (self w);
                 _loaded_data := VNone;
                 _use := _use (self w); _source := VNone;
                 _source_file := VNone; _error := VNone |} /\
    fst (is_loaded w') = Ok false /\
    _parent_instance w' = rounds_of_calls 4 ids (_parent_instance w).
Proof.
  intros Hn Ha. destruct w as [a c]. cbn [_parent_instance self] in *.
  assert (Hgen : forall n, exists w',
    unload cls {| self := a; _parent_instance := rounds_of_calls n ids c |}
    = (Ok tt, w') /\
    self w' = {| _buffer_size := _buffer_size a;
                 _buffered_data := _buffered_data a;
                 _loaded_data := VNone;
                 _use := _use a; _source := VNone;
                 _source_file := VNone; _error := VNone |} /\
    fst (is_loaded w') = Ok false /\
    _parent_instance w' = rounds_of_calls (4 + n) ids c).
  { intros n.
    unfold unload, set_loaded_data, set_source, set_source_file, set_error, store.
    unfold mbind, RM_bind. cbn [self _parent_instance].
    repeat (rewrite (notify_spec ids) by assumption;
            cbv beta iota; cbn [self _parent_instance]).
    eexists. split; [reflexivity|]. cbn. repeat split. }
  specialize (Hgen 0%nat). now rewrite rounds_of_calls_0 in Hgen.
Qed.

Lemma notify_self w : self (snd (__notify cls w)) = self w.
Proof.
  unfold __notify. now destruct (_parameter_event_handler cls (_parent_instance w)).
Qed.

Lemma notify_cases w :
  exists r c, __notify cls w = (r, {| self := self w; _parent_instance := c |}).
Proof.
  unfold __notify.
  destruct (_parameter_event_handler cls (_parent_instance w)) as [r c]. eauto.
Qed.

(** X22.  A setter stores before it notifies, so an exception of a
    handler does not take the assignment back: whatever the handlers
    do, after [load_buffered] the loaded data are the buffered data and
    after [unload] nothing is loaded, whether the call returned or
    raised; and neither touches the buffered data. *)
Theorem stored_before_notifying w :
  _loaded_data (self (snd (load_buffered cls w))) = _buffered_data (self w) /\
  _buffered_data (self (snd (load_buffered cls w))) = _buffered_data (self w) /\
  _loaded_data (self (snd (unload cls w))) = VNone /\
  _buffered_data (self (snd (unload cls w))) = _buffered_data (self w).
Proof.
  destruct w as [a c].
  unfold load_buffered, unload, set_loaded_data, set_use, set_source,
    set_source_file, set_error, buffered_data, read, store.
  unfold mbind, RM_bind. cbn [self _parent_instance].
  repeat split;
    repeat match goal with
    | |- context [__notify cls ?w] =>
        let r := fresh "r" in let c' := fresh "c" in let E := fresh "E" in
        destruct (notify_cases w) as (r & c' & E); rewrite E; clear E;
        cbn [self _parent_instance]; destruct r as [[]|?]
    end; reflexivity.
Qed.
End ReferenceDataFacts.

Section ReferenceDataFactsExamples.
Import ReferenceData.
#[local] Existing Instance Reference.builtins.

Lemma load_buffered_effect_witness :
  let w := {| self := {| _buffer_size := VInt 50;
                         _buffered_data := VArray [0.5%float; 0.25%float];
                         _loaded_data := VNone; _use := VBool false;
                         _source := VNone; _source_file := VNone;
                         _error := VNone |};
              _parent_instance := Demo.listening |} in
  exists w',
    load_buffered Demo.cls w = (Ok tt, w') /\
    self w' = {| _buffer_size := VInt 50;
                 _buffered_data := VArray [0.5%float; 0.25%float];
                 _loaded_data := VArray [0.5%float; 0.25%float];
                 _use := VBool true; _source := VStr "buffer";
                 _source_file := VNone; _error := VNone |} /\
    fst (is_loaded w') = fst (has_buffered w) /\
    _parent_instance w' = rounds_of_calls 4 [1; 2]%nat Demo.listening.
Proof.
  intros w. apply (load_buffered_effect Demo.cls [1; 2]%nat w).
  - vm_compute. discriminate.
  - vm_compute. reflexivity.
Defined.

Lemma unload_effect_witness :
  let w := {| self := {| _buffer_size := VInt 50;
                         _buffered_data := VArray [0.5%float];
                         _loaded_data := VArray [0.5%float]; _use := VBool true;
                         _source := VStr "buffer"; _source_file := VNone;
                         _error := VStr "stale" |};
              _parent_instance := Demo.listening |} in
  exists w',
    unload Demo.cls w = (Ok tt, w') /\
    self w' = {| _buffer_size := VInt 50; _buffered_data := VArray [0.5%float];
                 _loaded_data := VNone; _use := VBool true; _source := VNone;
                 _source_file := VNone; _error := VNone |} /\
    fst (is_loaded w') = Ok false /\
    _parent_instance w' = rounds_of_calls 4 [1; 2]%nat Demo.listening.
Proof.
  intros w. apply (unload_effect Demo.cls [1; 2]%nat w).
  - vm_compute. discriminate.
  - vm_compute. reflexivity.
Defined.
End ReferenceDataFactsExamples.

(** ** The constructors of the descriptors *)

Section ConstructionFacts.
Import Construction ConstructionVocabulary.
Context `{Builtins}.
Variable generate_doc : class -> object -> result value.
Variable strip : value -> result value.

Lemma dict_get_key {V} (d : list (string * V)) k v :
  dict_get d k = Some v -> k ∈ map fst d.
Proof.
  intros Hg%dict_get_elem. apply list_elem_of_fmap. now exists (k, v).
Qed.

Lemma dict_get_del_ne {V} (d : list (string * V)) k x :
  x <> k -> dict_get (dict_del d k) x = dict_get d x.
Proof.
  intros Hne. induction d as [|[k0 v0] d IH]; cbn; [reflexivity|].
  destruct (String.eqb_spec k0 k) as [->|Hk].
  - destruct (String.eqb_spec k x); [congruence|reflexivity].
  - cbn. now rewrite IH.
Qed.

Lemma dict_del_keys_cover {V} (d : list (string * V)) k x :
  x ∈ map fst d -> x = k \/ x ∈ map fst (dict_del d k).
Proof.
  intros ([x' v] & -> & Hin)%list_elem_of_fmap.
  destruct (dict_del_cover d k x' v Hin) as [?|Hin']; [now left|right].
  apply list_elem_of_fmap. now exists (x', v).
Qed.

Lemma dict_del_keys_subset {V} (d : list (string * V)) k x :
  x ∈ map fst (dict_del d k) -> x ∈ map fst d.
Proof.
  intros ([x' v] & -> & Hin)%list_elem_of_fmap.
  apply list_elem_of_fmap. exists (x', v). split; [reflexivity|].
  eapply dict_del_subset, Hin.
Qed.

Lemma dict_pop_facts (d : kwargs) k dflt v d' :
  dict_pop d k dflt = (v, d') ->
  v = keyword d k dflt /\
  (forall x, x ∈ map fst d -> x = k \/ x ∈ map fst d') /\
  (forall x, x ∈ map fst d' -> x ∈ map fst d) /\
  (forall x, x <> k -> dict_get d' x = dict_get d x).
Proof.
  unfold dict_pop, keyword. destruct (dict_get d k) eqn:Hg; intros [= <- <-]; cbn.
  - repeat split.
    + apply dict_del_keys_cover.
    + apply dict_del_keys_subset.
    + intros x. apply dict_get_del_ne.
  - repeat split; auto.
Qed.

Lemma pop_facts (d : kwargs) k v d' :
  pop d k = Ok (v, d') ->
  dict_get d k = Some v /\
  (forall x, x ∈ map fst d -> x = k \/ x ∈ map fst d') /\
  (forall x, x ∈ map fst d' -> x ∈ map fst d) /\
  (forall x, x <> k -> dict_get d' x = dict_get d x).
Proof.
  unfold pop. destruct (dict_get d k) eqn:Hg; [|discriminate].
  intros [= <- <-]. repeat split.
  - apply dict_del_keys_cover.
  - apply dict_del_keys_subset.
  - intros x. apply dict_get_del_ne.
Qed.

Lemma setdefault_facts (d : kwargs) k v :
  dict_get (setdefault d k v) k = Some (keyword d k v) /\
  (forall x, x ∈ map fst d -> x ∈ map fst (setdefault d k v)) /\
  (forall x, x ∈ map fst (setdefault d k v) -> x = k \/ x ∈ map fst d) /\
  (forall x, x <> k -> dict_get (setdefault d k v) x = dict_get d x).
Proof.
  unfold setdefault, keyword. destruct (dict_get d k) eqn:Hg; cbn.
  - repeat split; auto.
  - repeat split.
    + rewrite dict_get_set. now rewrite String.eqb_refl.
    + intros x Hx. apply dict_set_keys. now left.
    + intros x Hx. apply dict_set_keys in Hx. tauto.
    + intros x Hne. rewrite dict_get_set.
      destruct (String.eqb_spec k x); [congruence|reflexivity].
Qed.

Lemma dict_get_set_ne {V} (d : list (string * V)) k v x :
  x <> k -> dict_get (dict_set d k v) x = dict_get d x.
Proof.
  intros Hne. rewrite dict_get_set.
  destruct (String.eqb_spec k x); [congruence|reflexivity].
Qed.

Lemma dict_get_set_eq {V} (d : list (string * V)) k v :
  dict_get (dict_set d k v) k = Some v.
Proof. rewrite dict_get_set. now rewrite String.eqb_refl. Qed.

(* what a successful Parameter.__init__ has checked and set *)
Lemma Parameter_init_inv c self kw self' :
  Parameter__init__ generate_doc strip c self kw = Ok self' ->
  "label" ∈ map fst kw /\
  (forall x, x ∈ map fst kw -> x ∈ base_keys) /\
  exists b,
    py_bool (keyword kw "visible" (VBool true)) = Ok b /\
    dict_get self' "visible"
    = Some (if b && is_None (keyword kw "_pidget_class" VNone)
            then VBool false else keyword kw "visible" (VBool true)) /\
    dict_get self' "_pidget_class"
    = Some (if b then keyword kw "_pidget_class" VNone else VNone) /\
    dict_get self' "does_dump" = Some (keyword kw "does_dump" (VBool false)) /\
    (forall k, k ∉ base_attributes -> dict_get self' k = dict_get self k).
Proof.
  unfold Parameter__init__.
  destruct (pop kw "label") as [[label kw1]|] eqn:H1; [|discriminate].
  cbn [mbind result_bind].
  destruct (dict_pop kw1 "updateable" (VBool false)) as [updateable kw2] eqn:H2.
  destruct (dict_pop kw2 "does_dump" (VBool false)) as [does_dump kw3] eqn:H3.
  destruct (dict_pop kw3 "category" (VEnum "Category" "BASIC"))
    as [category kw4] eqn:H4.
  destruct (dict_pop kw4 "order" (VInt (-1))) as [order kw5] eqn:H5.
  destruct (dict_pop kw5 "help" VNone) as [help kw6] eqn:H6.
  destruct (dict_pop kw6 "visible" (VBool true)) as [visible kw7] eqn:H7.
  destruct (dict_pop kw7 "_pidget_class" VNone) as [pc kw8] eqn:H8.
  destruct (dict_pop kw8 "default_value" VNone) as [dv kw9] eqn:H9.
  apply pop_facts in H1 as (L1 & C1 & _ & G1).
  apply dict_pop_facts in H2 as (_ & C2 & _ & G2).
  apply dict_pop_facts in H3 as (V3 & C3 & _ & G3).
  apply dict_pop_facts in H4 as (_ & C4 & _ & G4).
  apply dict_pop_facts in H5 as (_ & C5 & _ & G5).
  apply dict_pop_facts in H6 as (_ & C6 & _ & G6).
  apply dict_pop_facts in H7 as (V7 & C7 & _ & G7).
  apply dict_pop_facts in H8 as (V8 & C8 & _ & G8).
  apply dict_pop_facts in H9 as (_ & C9 & _ & _).
  destruct kw9 as [|[a_key ?] ?]; [|discriminate].
  assert (Hvis : visible = keyword kw "visible" (VBool true)).
  { rewrite V7. unfold keyword.
    now rewrite G6, G5, G4, G3, G2, G1 by discriminate. }
  assert (Hpc : pc = keyword kw "_pidget_class" VNone).
  { rewrite V8. unfold keyword.
    now rewrite G7, G6, G5, G4, G3, G2, G1 by discriminate. }
  assert (Hdd : does_dump = keyword kw "does_dump" (VBool false)).
  { rewrite V3. unfold keyword. now rewrite G2, G1 by discriminate. }
  clear V3 V7 V8 G1 G2 G3 G4 G5 G6 G7 G8.
  destruct (py_bool visible) as [b|] eqn:Hb; [|discriminate].
  cbn [mbind result_bind].
  remember (dict_set self "label" label) as s1 eqn:E1.
  remember (dict_set s1 "is_live_updateable" updateable) as s2 eqn:E2.
  remember (dict_set s2 "does_dump" does_dump) as s3 eqn:E3.
  remember (dict_set s3 "category" category) as s4 eqn:E4.
  remember (dict_set s4 "order" order) as s5 eqn:E5.
  remember (dict_set s5 "help" help) as s6 eqn:E6.
  remember (dict_set s6 "visible" visible) as s7 eqn:E7.
  remember (dict_set s7 "_pidget_class" pc) as s8 eqn:E8.
  match goal with |- context [generate_doc c ?s] =>
    remember s as s10 eqn:E10 end.
  destruct (generate_doc c s10) as [doc|]; [|discriminate].
  cbn [mbind result_bind]. intros Hdoc.
  assert (Hget : forall k, k <> "__doc__" -> dict_get self' k = dict_get s10 k).
  { intros k Hk.
    destruct (py_bool doc) as [[]|]; cbn in Hdoc; [| |discriminate].
    - destruct (strip doc); [|discriminate]. injection Hdoc as <-.
      now apply dict_get_set_ne.
    - now injection Hdoc as <-. }
  clear Hdoc.
  split; [eapply dict_get_key, L1|].
  split.
  { intros x Hx. unfold base_keys.
    destruct (C1 x Hx) as [->|Hx1]; [repeat constructor|].
    destruct (C2 x Hx1) as [->|Hx2]; [repeat constructor|].
    destruct (C3 x Hx2) as [->|Hx3]; [repeat constructor|].
    destruct (C4 x Hx3) as [->|Hx4]; [repeat constructor|].
    destruct (C5 x Hx4) as [->|Hx5]; [repeat constructor|].
    destruct (C6 x Hx5) as [->|Hx6]; [repeat constructor|].
    destruct (C7 x Hx6) as [->|Hx7]; [repeat constructor|].
    destruct (C8 x Hx7) as [->|Hx8]; [repeat constructor|].
    destruct (C9 x Hx8) as [->|Hx9]; [repeat constructor|].
    now apply elem_of_nil in Hx9. }
  clear C1 C2 C3 C4 C5 C6 C7 C8 C9 L1.
  exists b. rewrite <- Hvis, <- Hpc, <- Hdd. clear Hvis Hpc Hdd.
  split; [exact Hb|].
  assert (H10 : forall k, k <> "pidgets" ->
            dict_get s10 k
            = if negb b then dict_get (dict_set s8 "_pidget_class" VNone) k
              else if is_None pc then dict_get (dict_set s8 "visible" (VBool false)) k
              else dict_get s8 k).
  { intros k Hk. rewrite E10, dict_get_set_ne by exact Hk.
    destruct (negb b); [reflexivity|]. now destruct (is_None pc). }
  clear E10.
  split; [|split; [|split]].
  - rewrite Hget, H10 by discriminate.
    destruct b; cbn [negb andb].
    + destruct (is_None pc).
      * apply dict_get_set_eq.
      * rewrite E8, dict_get_set_ne by discriminate. rewrite E7.
        apply dict_get_set_eq.
    + rewrite dict_get_set_ne by discriminate.
      rewrite E8, dict_get_set_ne by discriminate. rewrite E7.
      apply dict_get_set_eq.
  - rewrite Hget, H10 by discriminate.
    destruct b; cbn [negb andb].
    + destruct (is_None pc) eqn:Hn.
      * rewrite dict_get_set_ne by discriminate.
        rewrite E8, dict_get_set_eq. now destruct pc.
      * rewrite E8. apply dict_get_set_eq.
    + apply dict_get_set_eq.
  - rewrite Hget, H10 by discriminate.
    assert (H8' : dict_get s8 "does_dump" = Some does_dump).
    { rewrite E8, dict_get_set_ne by discriminate.
      rewrite E7, dict_get_set_ne by discriminate.
      rewrite E6, dict_get_set_ne by discriminate.
      rewrite E5, dict_get_set_ne by discriminate.
      rewrite E4, dict_get_set_ne by discriminate.
      rewrite E3. apply dict_get_set_eq. }
    destruct (negb b); [|destruct (is_None pc)];
      rewrite ?dict_get_set_ne by discriminate; exact H8'.
  - intros k Hk. unfold base_attributes in Hk.
    rewrite !not_elem_of_cons in Hk.
    destruct Hk as (? & ? & ? & ? & ? & ? & ? & ? & ? & ? & _).
    rewrite Hget, H10 by assumption.
    assert (H8' : dict_get s8 k = dict_get self k).
    { rewrite E8, dict_get_set_ne by assumption.
      rewrite E7, dict_get_set_ne by assumption.
      rewrite E6, dict_get_set_ne by assumption.
      rewrite E5, dict_get_set_ne by assumption.
      rewrite E4, dict_get_set_ne by assumption.
      rewrite E3, dict_get_set_ne by assumption.
      rewrite E2, dict_get_set_ne by assumption.
      rewrite E1, dict_get_set_ne by assumption. reflexivity. }
    destruct (negb b); [|destruct (is_None pc)];
      rewrite ?dict_get_set_ne by assumption; exact H8'.
Qed.
Ltac in_list := repeat first [apply list_elem_of_here | apply list_elem_of_further].

(* what a successful ValueParameter.__init__ has checked and set *)
Lemma ValueParameter_init_inv san c self kw self' :
  ValueParameter__init__ generate_doc strip san c self kw = Ok self' ->
  exists d o kw' self1 self2 d',
    dict_get kw "default_value" = Some d /\
    py_bool (keyword kw "optional" (VBool false)) = Ok o /\
    (o = true -> is_None d = true ->
     "optional_default_set_value" ∈ map fst kw) /\
    (forall x, x ∈ map fst kw -> x ∈ value_keys o d \/ x ∈ map fst kw') /\
    (forall x, x ∈ map fst kw' -> x = "does_dump" \/ x ∈ map fst kw) /\
    (forall x, x ∉ value_keys true VNone -> x <> "does_dump" ->
               dict_get kw' x = dict_get kw x) /\
    dict_get kw' "does_dump" = Some (keyword kw "does_dump" (VBool true)) /\
    Parameter__init__ generate_doc strip c self1 kw' = Ok self2 /\
    (forall k, k ∉ value_attributes -> dict_get self1 k = dict_get self k) /\
    (if negb (o && is_None d) then san d else Ok d) = Ok d' /\
    self' = dict_set self2 "default_value" d'.
Proof.
  unfold ValueParameter__init__.
  destruct (pop kw "default_value") as [[d kw1]|] eqn:H1; [|discriminate].
  cbn [mbind result_bind].
  destruct (dict_pop kw1 "optional" (VBool false)) as [optional kw2] eqn:H2.
  apply pop_facts in H1 as (L1 & C1 & S1 & G1).
  apply dict_pop_facts in H2 as (V2 & C2 & S2 & G2).
  assert (Hopt : optional = keyword kw "optional" (VBool false)).
  { rewrite V2. unfold keyword. now rewrite G1 by discriminate. }
  destruct (py_bool optional) as [o|] eqn:Ho; [|discriminate].
  cbn [mbind result_bind]. rewrite Hopt in Ho.
  assert (Hfin : forall kwn self1,
    (forall x, x ∈ map fst kw -> x ∈ value_keys o d \/ x ∈ map fst kwn) ->
    (forall x, x ∈ map fst kwn -> x ∈ map fst kw) ->
    (forall x, x ∉ value_keys true VNone -> dict_get kwn x = dict_get kw x) ->
    (forall k, k ∉ value_attributes -> dict_get self1 k = dict_get self k) ->
    (o = true -> is_None d = true -> "optional_default_set_value" ∈ map fst kw) ->
    (self2 ← Parameter__init__ generate_doc strip c
               (dict_set self1 "values" (VDict []))
               (setdefault kwn "does_dump" (VBool true));
     d' ← (if negb (o && is_None d) then san d else Ok d);
     Ok (dict_set self2 "default_value" d')) = Ok self' ->
    exists d0 o0 kw' self1 self2 d',
      Some d = Some d0 /\
      Ok o = Ok o0 /\
      (o0 = true -> is_None d0 = true ->
       "optional_default_set_value" ∈ map fst kw) /\
      (forall x, x ∈ map fst kw -> x ∈ value_keys o0 d0 \/ x ∈ map fst kw') /\
      (forall x, x ∈ map fst kw' -> x = "does_dump" \/ x ∈ map fst kw) /\
      (forall x, x ∉ value_keys true VNone -> x <> "does_dump" ->
                 dict_get kw' x = dict_get kw x) /\
      dict_get kw' "does_dump" = Some (keyword kw "does_dump" (VBool true)) /\
      Parameter__init__ generate_doc strip c self1 kw' = Ok self2 /\
      (forall k, k ∉ value_attributes -> dict_get self1 k = dict_get self k) /\
      (if negb (o0 && is_None d0) then san d0 else Ok d0) = Ok d' /\
      self' = dict_set self2 "default_value" d').
  { intros kwn self1 HC HS HG HA HF.
    destruct (setdefault_facts kwn "does_dump" (VBool true)) as (D1 & D2 & D3 & D4).
    destruct (Parameter__init__ generate_doc strip c
                (dict_set self1 "values" (VDict []))
                (setdefault kwn "does_dump" (VBool true))) as [self2|] eqn:HP;
      [|discriminate].
    cbn [mbind result_bind].
    destruct (if negb (o && is_None d) then san d else Ok d) as [d'|] eqn:Hd;
      [|discriminate].
    cbn [mbind result_bind]. intros [= <-].
    exists d, o, (setdefault kwn "does_dump" (VBool true)),
      (dict_set self1 "values" (VDict [])), self2, d'.
    split; [reflexivity|]. split; [reflexivity|]. split; [exact HF|].
    split. { intros x Hx. destruct (HC x Hx); [now left|right; now apply D2]. }
    split. { intros x Hx. destruct (D3 x Hx); [now left|right; now apply HS]. }
    split. { intros x Hx Hne. rewrite D4 by exact Hne. now apply HG. }
    split. { rewrite D1. unfold keyword. rewrite HG; [reflexivity|].
             unfold value_keys. cbn. rewrite !not_elem_of_cons.
             repeat split; try discriminate. apply not_elem_of_nil. }
    split; [exact HP|]. split; [|split; [exact Hd|reflexivity]].
    intros k Hk. rewrite dict_get_set_ne; [now apply HA|].
    intros ->. apply Hk. unfold value_attributes. in_list. }
  assert (HG12 : forall x, x ∉ value_keys true VNone -> dict_get kw2 x = dict_get kw x).
  { intros x Hx. unfold value_keys in Hx. cbn in Hx.
    rewrite !not_elem_of_cons in Hx. destruct Hx as (? & ? & ? & ? & _).
    now rewrite G2, G1 by assumption. }
  assert (HA2 : forall k, k ∉ value_attributes ->
            dict_get (dict_set (dict_set self "default_value" d) "is_optional" optional) k
            = dict_get self k).
  { intros k Hk. unfold value_attributes in Hk.
    rewrite !not_elem_of_cons in Hk. destruct Hk as (? & ? & ? & ? & ? & _).
    now rewrite !dict_get_set_ne by assumption. }
  destruct o.
  - destruct (dict_pop kw2 "optional_label" (VStr "Set")) as [ol kw3] eqn:H3.
    apply dict_pop_facts in H3 as (_ & C3 & S3 & G3).
    destruct (is_None d) eqn:Hn.
    + destruct (pop kw3 "optional_default_set_value") as [[v kw4]|] eqn:H4;
        [|discriminate].
      cbn [mbind result_bind].
      apply pop_facts in H4 as (L4 & C4 & S4 & G4).
      intros Hrest.
      eapply (Hfin kw4) in Hrest; cycle 1.
      * intros x Hx. unfold value_keys. rewrite Hn.
        destruct (C1 x Hx) as [->|Hx1]; [left; in_list|].
        destruct (C2 x Hx1) as [->|Hx2]; [left; in_list|].
        destruct (C3 x Hx2) as [->|Hx3]; [left; in_list|].
        destruct (C4 x Hx3) as [->|Hx4]; [left; in_list|]. now right.
      * intros x Hx. now apply S1, S2, S3, S4.
      * intros x Hx. rewrite <- HG12 by exact Hx.
        unfold value_keys in Hx. cbn in Hx.
        rewrite !not_elem_of_cons in Hx. destruct Hx as (? & ? & ? & ? & _).
        now rewrite G4, G3 by assumption.
      * intros k Hk. rewrite <- (HA2 k Hk). unfold value_attributes in Hk.
        rewrite !not_elem_of_cons in Hk. destruct Hk as (? & ? & ? & ? & ? & _).
        now rewrite !dict_get_set_ne by assumption.
      * intros _ _. apply S1, S2, S3. eapply dict_get_key, L4.
      * destruct Hrest
          as (d0 & o0 & kw' & s1 & s2 & d' & [= <-] & [= <-] & Hres).
        exists d, true, kw', s1, s2, d'. rewrite Hn in *.
        split; [exact L1|]. split; [exact Ho|]. exact Hres.
    + cbn [mbind result_bind]. intros Hrest.
      eapply (Hfin kw3) in Hrest; cycle 1.
      * intros x Hx. unfold value_keys. rewrite Hn.
        destruct (C1 x Hx) as [->|Hx1]; [left; in_list|].
        destruct (C2 x Hx1) as [->|Hx2]; [left; in_list|].
        destruct (C3 x Hx2) as [->|Hx3]; [left; in_list|]. now right.
      * intros x Hx. now apply S1, S2, S3.
      * intros x Hx. rewrite <- HG12 by exact Hx.
        unfold value_keys in Hx. cbn in Hx.
        rewrite !not_elem_of_cons in Hx. destruct Hx as (? & ? & ? & ? & _).
        now rewrite G3 by assumption.
      * intros k Hk. rewrite <- (HA2 k Hk). unfold value_attributes in Hk.
        rewrite !not_elem_of_cons in Hk. destruct Hk as (? & ? & ? & ? & ? & _).
        now rewrite !dict_get_set_ne by assumption.
      * intros _ Hd. discriminate.
      * destruct Hrest
          as (d0 & o0 & kw' & s1 & s2 & d' & [= <-] & [= <-] & Hres).
        exists d, true, kw', s1, s2, d'. rewrite Hn in *.
        split; [exact L1|]. split; [exact Ho|]. exact Hres.
  - cbn [mbind result_bind]. intros Hrest.
    eapply (Hfin kw2) in Hrest; cycle 1.
    * intros x Hx. unfold value_keys.
      destruct (C1 x Hx) as [->|Hx1]; [left; in_list|].
      destruct (C2 x Hx1) as [->|Hx2]; [left; in_list|]. now right.
    * intros x Hx. now apply S1, S2.
    * exact HG12.
    * exact HA2.
    * discriminate.
    * destruct Hrest
        as (d0 & o0 & kw' & s1 & s2 & d' & [= <-] & [= <-] & Hres).
      exists d, false, kw', s1, s2, d'.
      split; [exact L1|]. split; [exact Ho|]. exact Hres.
Qed.
Ltac split_in H :=
  cbn in H; rewrite ?elem_of_cons, ?elem_of_nil in H;
  intuition (try discriminate; subst).

Lemma keyword_setdefault (kw : kwargs) k v dflt :
  keyword (setdefault kw k v) k dflt = keyword kw k v.
Proof.
  unfold keyword at 1.
  now destruct (setdefault_facts kw k v) as (-> & _).
Qed.

Lemma keyword_eq (kw kw' : kwargs) k dflt :
  dict_get kw' k = dict_get kw k -> keyword kw' k dflt = keyword kw k dflt.
Proof. unfold keyword. now intros ->. Qed.

(* the same, in the terms of the keywords given to ValueParameter.__init__ *)
Lemma value_class_inv san c self0 kwv self' :
  ValueParameter__init__ generate_doc strip san c self0 kwv = Ok self' ->
  exists kw' self1 self2 d o d',
    Parameter__init__ generate_doc strip c self1 kw' = Ok self2 /\
    (forall k, k <> "default_value" -> dict_get self' k = dict_get self2 k) /\
    dict_get self' "default_value" = Some d' /\
    "label" ∈ map fst kwv /\
    dict_get kwv "default_value" = Some d /\
    (forall x, x ∈ map fst kwv ->
       x ∈ (base_keys ++
            ["optional"; "optional_label"; "optional_default_set_value"])%list) /\
    dict_get kw' "_pidget_class" = dict_get kwv "_pidget_class" /\
    dict_get kw' "visible" = dict_get kwv "visible" /\
    dict_get kw' "does_dump" = Some (keyword kwv "does_dump" (VBool true)) /\
    py_bool (keyword kwv "optional" (VBool false)) = Ok o /\
    ("optional_default_set_value" ∈ map fst kwv <-> o = true /\ is_None d = true) /\
    ("optional_label" ∈ map fst kwv -> o = true) /\
    (if negb (o && is_None d) then san d else Ok d) = Ok d'.
Proof.
  intros Hv.
  apply ValueParameter_init_inv in Hv
    as (d & o & kw' & self1 & self2 & d' & Hd & Ho & Hreq & HC & HS & HG & Hdd
        & HP & HA & Hsan & ->).
  destruct (Parameter_init_inv _ _ _ _ HP) as (Hlabel & Hbase & _).
  exists kw', self1, self2, d, o, d'.
  split; [exact HP|].
  split. { intros k Hk. now apply dict_get_set_ne. }
  split; [apply dict_get_set_eq|].
  split. { destruct (HS "label" Hlabel); [discriminate|assumption]. }
  split; [exact Hd|].
  split.
  { intros x Hx. apply elem_of_app.
    destruct (HC x Hx) as [Hv|Hx']; [|left; now apply Hbase].
    unfold value_keys in Hv.
    destruct o; [destruct (is_None d)|]; split_in Hv;
      solve [left; unfold base_keys; in_list | right; in_list]. }
  split. { apply HG; [|discriminate]. intros Hin. split_in Hin. }
  split. { apply HG; [|discriminate]. intros Hin. split_in Hin. }
  split; [exact Hdd|]. split; [exact Ho|].
  split; [split|split].
  - intros Hx. destruct (HC _ Hx) as [Hv|Hx'].
    + unfold value_keys in Hv.
      destruct o; [destruct (is_None d)|]; split_in Hv.
    + apply Hbase in Hx'. unfold base_keys in Hx'. split_in Hx'.
  - intros [-> Hn]. now apply Hreq.
  - intros Hx. destruct (HC _ Hx) as [Hv|Hx'].
    + unfold value_keys in Hv.
      destruct o; [reflexivity|]. split_in Hv.
    + apply Hbase in Hx'. unfold base_keys in Hx'. split_in Hx'.
  - exact Hsan.
Qed.

(* what a successful construction has checked and set, class by class *)
Lemma construct_inv c kw self' :
  construct generate_doc strip c kw = Ok self' ->
  exists kw' self1 self2,
    Parameter__init__ generate_doc strip c self1 kw' = Ok self2 /\
    (forall k, k <> "default_value" -> dict_get self' k = dict_get self2 k) /\
    (forall x, x ∈ required c -> x ∈ map fst kw) /\
    (forall x, x ∈ map fst kw -> x ∈ known c) /\
    keyword kw' "_pidget_class" VNone = keyword kw "_pidget_class" (default_pidget c) /\
    keyword kw' "visible" (VBool true) = keyword kw "visible" (VBool true) /\
    keyword kw' "does_dump" (VBool false)
    = keyword kw "does_dump" (VBool (is_value_class c)) /\
    (is_value_class c = true ->
     exists d o d',
       dict_get kw "default_value" = Some d /\
       py_bool (keyword kw "optional" (VBool false)) = Ok o /\
       ("optional_default_set_value" ∈ map fst kw <-> o = true /\ is_None d = true) /\
       ("optional_label" ∈ map fst kw -> o = true) /\
       (forall p, param_kind p = kind_of c ->
          (if negb (o && is_None d) then _sanitize p d else Ok d) = Ok d') /\
       dict_get self' "default_value" = Some d').
Proof.
  destruct c; cbn [construct].
  - (* Parameter *)
    intros HP. exists kw, [], self'.
    destruct (Parameter_init_inv _ _ _ _ HP) as (Hlabel & Hbase & _).
    split; [exact HP|]. split; [reflexivity|].
    split. { intros x Hx. split_in Hx. exact Hlabel. }
    split. { intros x Hx. cbn. now apply Hbase. }
    repeat split; discriminate.
  - (* ConstantParameter *)
    unfold ConstantParameter__init__.
    destruct (pop kw "value") as [[v kw1]|] eqn:H1; [|discriminate].
    cbn [mbind result_bind]. intros HP.
    apply pop_facts in H1 as (L1 & C1 & S1 & G1).
    destruct (Parameter_init_inv _ _ _ _ HP) as (Hlabel & Hbase & _).
    eexists kw1, _, self'.
    split; [exact HP|]. split; [reflexivity|].
    split. { intros x Hx. split_in Hx; [now apply S1|eapply dict_get_key, L1]. }
    split. { intros x Hx. unfold known. apply elem_of_app.
             destruct (C1 x Hx) as [->|Hx1]; [right; in_list|left; now apply Hbase]. }
    split; [apply keyword_eq, G1; discriminate|].
    split; [apply keyword_eq, G1; discriminate|].
    split; [apply keyword_eq, G1; discriminate|discriminate].
  - (* ValueParameter *)
    intros Hv.
    apply value_class_inv in Hv
      as (kw' & self1 & self2 & d & o & d' & HP & Hs & Hdv & Hlabel & Hd & Hk
          & Hpc & Hvis & Hdd & Ho & Hods & Hol & Hsan).
    exists kw', self1, self2.
    split; [exact HP|]. split; [exact Hs|].
    split. { intros x Hx. split_in Hx; [assumption|eapply dict_get_key, Hd]. }
    split; [exact Hk|].
    split; [now apply keyword_eq|]. split; [now apply keyword_eq|].
    split; [unfold keyword at 1; now rewrite Hdd|].
    intros _. exists d, o, d'. split; [exact Hd|]. split; [exact Ho|].
    split; [exact Hods|]. split; [exact Hol|]. split; [|exact Hdv].
    intros p Hp. unfold _sanitize. rewrite Hp. exact Hsan.
  - (* BoolParameter *)
    unfold BoolParameter__init__. intros Hv.
    destruct (setdefault_facts kw "_pidget_class" (VStr "BoolCheckboxPidget"))
      as (D1 & D2 & D3 & D4).
    apply value_class_inv in Hv
      as (kw' & self1 & self2 & d & o & d' & HP & Hs & Hdv & Hlabel & Hd & Hk
          & Hpc & Hvis & Hdd & Ho & Hods & Hol & Hsan).
    rewrite D4 in Hd, Hvis by discriminate.
    unfold keyword in Ho, Hdd. rewrite D4 in Ho, Hdd by discriminate.
    exists kw', self1, self2.
    split; [exact HP|]. split; [exact Hs|].
    split. { intros x Hx. split_in Hx; [|eapply dict_get_key, Hd].
             destruct (D3 _ Hlabel); [discriminate|assumption]. }
    split. { intros x Hx. now apply Hk, D2. }
    split. { unfold keyword at 1. rewrite Hpc, D1. reflexivity. }
    split; [now apply keyword_eq|].
    split; [unfold keyword at 1; now rewrite Hdd|].
    intros _. exists d, o, d'. split; [exact Hd|]. split; [exact Ho|].
    split. { rewrite <- Hods. split; [apply D2|].
             intros Hx. destruct (D3 _ Hx); [discriminate|assumption]. }
    split. { intros Hx. now apply Hol, D2. }
    split; [|exact Hdv].
    intros p Hp. unfold _sanitize. rewrite Hp. exact Hsan.
  - (* EnumParameter *)
    unfold EnumParameter__init__.
    destruct (pop kw "enum") as [[e kw1]|] eqn:H1; [|discriminate].
    cbn [mbind result_bind]. intros Hv.
    apply pop_facts in H1 as (L1 & C1 & S1 & G1).
    destruct (setdefault_facts kw1 "_pidget_class" (VStr "ComboBoxPidget"))
      as (D1 & D2 & D3 & D4).
    apply value_class_inv in Hv
      as (kw' & self1 & self2 & d & o & d' & HP & Hs & Hdv & Hlabel & Hd & Hk
          & Hpc & Hvis & Hdd & Ho & Hods & Hol & Hsan).
    rewrite D4, G1 in Hd, Hvis by discriminate.
    unfold keyword in Ho, Hdd. rewrite D4, G1 in Ho, Hdd by discriminate.
    exists kw', self1, self2.
    split; [exact HP|]. split; [exact Hs|].
    split. { intros x Hx. split_in Hx;
               [|eapply dict_get_key, Hd|eapply dict_get_key, L1].
             destruct (D3 _ Hlabel); [discriminate|now apply S1]. }
    split. { intros x Hx. unfold known.
             destruct (C1 x Hx) as [->|Hx1]; [cbn; in_list|].
             apply D2, Hk in Hx1. revert Hx1. unfold base_keys.
             intros Hx1. split_in Hx1; cbn; in_list. }
    split. { unfold keyword at 1. rewrite Hpc, D1. unfold keyword.
             now rewrite G1 by discriminate. }
    split; [now apply keyword_eq|].
    split; [unfold keyword at 1; now rewrite Hdd|].
    intros _. exists d, o, d'. split; [exact Hd|]. split; [exact Ho|].
    split. { rewrite <- Hods. split.
             - intros Hx. apply D2. destruct (C1 _ Hx); [discriminate|assumption].
             - intros Hx. destruct (D3 _ Hx); [discriminate|now apply S1]. }
    split. { intros Hx. apply Hol, D2.
             destruct (C1 _ Hx); [discriminate|assumption]. }
    split; [|exact Hdv].
    intros p Hp. unfold _sanitize. rewrite Hp. exact Hsan.
  - (* SensorParameter *)
    unfold SensorParameter__init__. intros Hv.
    apply value_class_inv in Hv
      as (kw' & self1 & self2 & d & o & d' & HP & Hs & Hdv & Hlabel & Hd & Hk
          & Hpc & Hvis & Hdd & Ho & Hods & Hol & Hsan).
    exists kw', self1, self2.
    split; [exact HP|]. split; [exact Hs|].
    split. { intros x Hx. split_in Hx; [assumption|eapply dict_get_key, Hd]. }
    split; [exact Hk|].
    split; [now apply keyword_eq|]. split; [now apply keyword_eq|].
    split; [unfold keyword at 1; now rewrite Hdd|].
    intros _. exists d, o, d'. split; [exact Hd|]. split; [exact Ho|].
    split; [exact Hods|]. split; [exact Hol|]. split; [|exact Hdv].
    intros p Hp. unfold _sanitize. rewrite Hp. exact Hsan.
  - (* ClassParameter *)
    unfold ClassParameter__init__.
    destruct (pop kw "objtype") as [[v kw1]|] eqn:H1; [|discriminate].
    cbn [mbind result_bind]. intros HP.
    apply pop_facts in H1 as (L1 & C1 & S1 & G1).
    destruct (Parameter_init_inv _ _ _ _ HP) as (Hlabel & Hbase & _).
    eexists kw1, _, self'.
    split; [exact HP|]. split; [reflexivity|].
    split. { intros x Hx. split_in Hx; [now apply S1|eapply dict_get_key, L1]. }
    split. { intros x Hx. unfold known. apply elem_of_app.
             destruct (C1 x Hx) as [->|Hx1]; [right; in_list|left; now apply Hbase]. }
    split; [apply keyword_eq, G1; discriminate|].
    split; [apply keyword_eq, G1; discriminate|].
    split; [apply keyword_eq, G1; discriminate|discriminate].
  - (* ReferenceDataParameter *)
    unfold ReferenceDataParameter__init__, ClassParameter__init__.
    set (kwa := setdefault kw "label" (VStr "Background")).
    set (kwb := setdefault kwa "_pidget_class" (VStr "ReferenceDataPidget")).
    set (kwc := setdefault kwb "objtype" ReferenceData_class).
    set (kwd := setdefault kwc "updateable" (VBool true)).
    destruct (setdefault_facts kw "label" (VStr "Background")) as (A1 & A2 & A3 & A4).
    destruct (setdefault_facts kwa "_pidget_class" (VStr "ReferenceDataPidget"))
      as (B1 & B2 & B3 & B4).
    destruct (setdefault_facts kwb "objtype" ReferenceData_class) as (E1 & E2 & E3 & E4).
    destruct (setdefault_facts kwc "updateable" (VBool true)) as (F1 & F2 & F3 & F4).
    fold kwa in A1, A2, A3, A4. fold kwb in B1, B2, B3, B4.
    fold kwc in E1, E2, E3, E4. fold kwd in F1, F2, F3, F4.
    destruct (pop kwd "objtype") as [[v kw1]|] eqn:H1; [|discriminate].
    cbn [mbind result_bind]. intros HP.
    apply pop_facts in H1 as (L1 & C1 & S1 & G1).
    destruct (Parameter_init_inv _ _ _ _ HP) as (Hlabel & Hbase & _).
    eexists kw1, _, self'.
    split; [exact HP|]. split; [reflexivity|].
    split. { intros x Hx. split_in Hx. }
    split. { intros x Hx. unfold known. apply elem_of_app.
             apply A2, B2, E2, F2 in Hx.
             destruct (C1 x Hx) as [->|Hx1]; [right; in_list|left; now apply Hbase]. }
    split. { unfold keyword at 1.
             rewrite G1, F4, E4, B1 by discriminate. unfold keyword.
             now rewrite A4 by discriminate. }
    split. { unfold keyword. now rewrite G1, F4, E4, B4, A4 by discriminate. }
    split; [|discriminate].
    unfold keyword. now rewrite G1, F4, E4, B4, A4 by discriminate.
Qed.
(** X23.  Visibility and pidget go together: on every descriptor that
    a constructor returns, [visible] is true exactly when
    [_pidget_class] is not None. *)
Theorem visibility_invariant c kw self :
  construct generate_doc strip c kw = Ok self ->
  exists visible pc b,
    dict_get self "visible" = Some visible /\
    dict_get self "_pidget_class" = Some pc /\
    py_bool visible = Ok b /\
    (b = true <-> pc <> VNone).
Proof.
  intros Hc.
  apply construct_inv in Hc as (kw' & self1 & self2 & HP & Hs & _).
  apply Parameter_init_inv in HP as (_ & _ & b & Hb & Hvis & Hpc & _).
  rewrite <- Hs in Hvis, Hpc by discriminate.
  destruct b; cbn [andb] in Hvis.
  - destruct (is_None (keyword kw' "_pidget_class" VNone)) eqn:Hn.
    + exists (VBool false), (keyword kw' "_pidget_class" VNone), false.
      repeat split; try assumption; try discriminate.
      intros Hne. destruct (keyword kw' "_pidget_class" VNone); try discriminate.
      now destruct Hne.
    + exists (keyword kw' "visible" (VBool true)),
        (keyword kw' "_pidget_class" VNone), true.
      repeat split; try assumption.
      intros _ Heq. rewrite Heq in Hn. discriminate.
  - exists (keyword kw' "visible" (VBool true)), VNone, false.
    repeat split; try assumption; try discriminate. intros Hne. now destruct Hne.
Qed.

(** X24.  A constructor returns only if it was given every keyword
    that its class requires and no keyword that the constructors of its
    class do not pop: a missing one is a KeyError, an unknown one the
    TypeError of [Parameter.__init__]. *)
Theorem keywords_checked c kw self :
  construct generate_doc strip c kw = Ok self ->
  (forall k, k ∈ required c -> k ∈ map fst kw) /\
  (forall k, k ∈ map fst kw -> k ∈ known c).
Proof.
  intros Hc.
  apply construct_inv in Hc as (kw' & self1 & self2 & _ & _ & Hr & Hk & _).
  now split.
Qed.

(** X25.  For a value parameter, [optional_default_set_value] must be
    given exactly when the parameter is optional and its default value
    is None, and [optional_label] may be given only when it is optional:
    otherwise the constructor raises. *)
Theorem optional_keywords c kw self :
  is_value_class c = true ->
  construct generate_doc strip c kw = Ok self ->
  exists d o,
    dict_get kw "default_value" = Some d /\
    py_bool (keyword kw "optional" (VBool false)) = Ok o /\
    ("optional_default_set_value" ∈ map fst kw <-> o = true /\ d = VNone) /\
    ("optional_label" ∈ map fst kw -> o = true).
Proof.
  intros Hv Hc.
  apply construct_inv in Hc as (kw' & self1 & self2 & _ & _ & _ & _ & _ & _ & _ & Hval).
  destruct (Hval Hv) as (d & o & d' & Hd & Ho & Hods & Hol & _).
  exists d, o. split; [exact Hd|]. split; [exact Ho|]. split; [|exact Hol].
  rewrite Hods. split; intros [-> Hn]; split; try reflexivity.
  - now destruct d.
  - now subst d.
Qed.

(** X26.  The default value that the constructor of a value parameter
    stores is the declared one after the sanitizer of its class: what
    [ValueParameter_init] computes for a descriptor of that kind. *)
Theorem stored_default c kw self p :
  is_value_class c = true ->
  construct generate_doc strip c kw = Ok self ->
  param_kind p = kind_of c ->
  dict_get kw "default_value" = Some (default_value p) ->
  py_bool (keyword kw "optional" (VBool false)) = Ok (is_optional p) ->
  exists p',
    ValueParameter_init p = Ok p' /\
    dict_get self "default_value" = Some (default_value p').
Proof.
  intros Hv Hc Hk Hd Ho.
  apply construct_inv in Hc as (kw' & self1 & self2 & _ & _ & _ & _ & _ & _ & _ & Hval).
  destruct (Hval Hv) as (d & o & d' & Hd' & Ho' & _ & _ & Hsan & Hself).
  rewrite Hd in Hd'. injection Hd' as <-.
  rewrite Ho in Ho'. injection Ho' as <-.
  exists (with_default p d'). split; [|exact Hself].
  unfold ValueParameter_init, sanitize. now rewrite (Hsan p Hk).
Qed.

(** X27.  What a declaration leaves out: [does_dump] is True on a value
    parameter and False on the others unless given, and the pidget class
    is the one given, else the one of the class (BoolParameter,
    EnumParameter and ReferenceDataParameter have one), and None
    whenever [visible] was given false. *)
Theorem declared_defaults c kw self :
  construct generate_doc strip c kw = Ok self ->
  dict_get self "does_dump"
  = Some (keyword kw "does_dump" (VBool (is_value_class c))) /\
  exists b,
    py_bool (keyword kw "visible" (VBool true)) = Ok b /\
    dict_get self "_pidget_class"
    = Some (if b then keyword kw "_pidget_class" (default_pidget c) else VNone).
Proof.
  intros Hc.
  apply construct_inv in Hc
    as (kw' & self1 & self2 & HP & Hs & _ & _ & Hpc & Hvis & Hdd & _).
  apply Parameter_init_inv in HP as (_ & _ & b & Hb & _ & Hpc' & Hdd' & _).
  rewrite <- Hs in Hpc', Hdd' by discriminate.
  rewrite Hdd in Hdd'. rewrite Hvis in Hb. rewrite Hpc in Hpc'.
  split; [exact Hdd'|]. now exists b.
Qed.
End ConstructionFacts.

Section ConstructionFactsExamples.
Import Construction ConstructionVocabulary ConstructionExamples.
#[local] Existing Instance Reference.builtins.

Lemma visibility_invariant_witness :
  exists visible pc b,
    dict_get (built CBoolParameter enabled_kw) "visible" = Some visible /\
    dict_get (built CBoolParameter enabled_kw) "_pidget_class" = Some pc /\
    py_bool visible = Ok b /\
    (b = true <-> pc <> VNone).
Proof.
  apply (visibility_invariant docs stripped CBoolParameter enabled_kw).
  vm_compute. reflexivity.
Defined.

Lemma keywords_checked_witness :
  (forall k, k ∈ required CSensorParameter -> k ∈ map fst sensor_kw) /\
  (forall k, k ∈ map fst sensor_kw -> k ∈ known CSensorParameter).
Proof.
  apply (keywords_checked docs stripped CSensorParameter sensor_kw
           (built CSensorParameter sensor_kw)).
  vm_compute. reflexivity.
Defined.

Lemma optional_keywords_witness :
  exists d o,
    dict_get sensor_kw "default_value" = Some d /\
    py_bool (keyword sensor_kw "optional" (VBool false)) = Ok o /\
    ("optional_default_set_value" ∈ map fst sensor_kw <-> o = true /\ d = VNone) /\
    ("optional_label" ∈ map fst sensor_kw -> o = true).
Proof.
  apply (optional_keywords docs stripped CSensorParameter sensor_kw
           (built CSensorParameter sensor_kw)).
  - reflexivity.
  - vm_compute. reflexivity.
Defined.

Lemma stored_default_witness :
  exists p',
    ValueParameter_init Demo.enabled_kw = Ok p' /\
    dict_get (built CBoolParameter enabled_kw) "default_value"
    = Some (default_value p').
Proof.
  apply (stored_default docs stripped CBoolParameter enabled_kw
           (built CBoolParameter enabled_kw) Demo.enabled_kw).
  - reflexivity.
  - vm_compute. reflexivity.
  - reflexivity.
  - reflexivity.
  - reflexivity.
Defined.

Lemma declared_defaults_witness :
  dict_get (built CBoolParameter enabled_kw) "does_dump"
  = Some (keyword enabled_kw "does_dump" (VBool true)) /\
  exists b,
    py_bool (keyword enabled_kw "visible" (VBool true)) = Ok b /\
    dict_get (built CBoolParameter enabled_kw) "_pidget_class"
    = Some (if b then keyword enabled_kw "_pidget_class" (VStr "BoolCheckboxPidget")
            else VNone).
Proof.
  apply (declared_defaults docs stripped CBoolParameter enabled_kw
           (built CBoolParameter enabled_kw)).
  vm_compute. reflexivity.
Defined.
End ConstructionFactsExamples.

(** ** Class parameters *)

Section ClassParameterFacts.
Context `{Builtins}.
Variable cls : config_class.

(** X28.  The object of a ClassParameter comes into being on first
    access, also when the access is the [hasattr] of an assignment that
    then fails: reading the name hands out the object of the descriptor
    and records the instance, and so does the attempt to assign to it,
    which raises AttributeError("Unsettable parameter"); nothing else
    of the Config object changes. *)
Theorem class_parameter_access name i p v st :
  type_getattr cls name = Some (MParam i p) ->
  param_kind p = ClassParameter ->
  getattr cls name st = (Ok (VObject i), set_instances (fun s => {[i]} ∪ s) st) /\
  __setattr__ cls name v st
  = (Raise (AttributeError "Unsettable parameter"),
     set_instances (fun s => {[i]} ∪ s) st) /\
  i ∈ instances (snd (__setattr__ cls name v st)).
Proof.
  intros Ht Hk.
  assert (Hget : __get__ i p st
                 = (Ok (VObject i), set_instances (fun s => {[i]} ∪ s) st)).
  { unfold __get__. now rewrite Hk. }
  assert (Hset : __setattr__ cls name v st
                 = (Raise (AttributeError "Unsettable parameter"),
                    set_instances (fun s => {[i]} ∪ s) st)).
  { rewrite setattr_cases, Ht, Hget. cbn [snd]. unfold __set__. now rewrite Hk. }
  split; [unfold getattr; now rewrite Ht|].
  split; [exact Hset|].
  rewrite Hset. cbn. set_solver.
Qed.
End ClassParameterFacts.

Section ClassParameterFactsExamples.
#[local] Existing Instance Reference.builtins.

Lemma class_parameter_access_witness :
  getattr Demo.cls "background" Demo.fresh
  = (Ok (VObject 9), set_instances (fun s => {[9%nat]} ∪ s) Demo.fresh) /\
  __setattr__ Demo.cls "background" VNone Demo.fresh
  = (Raise (AttributeError "Unsettable parameter"),
     set_instances (fun s => {[9%nat]} ∪ s) Demo.fresh) /\
  9%nat ∈ instances (snd (__setattr__ Demo.cls "background" VNone Demo.fresh)).
Proof.
  apply (class_parameter_access Demo.cls "background" 9 Demo.background_kw).
  - vm_compute. reflexivity.
  - reflexivity.
Defined.
End ClassParameterFactsExamples.
